(** * Crypto dashboard ([app_final.py]): a shallow embedding and its properties

    The script is a Streamlit page: three wrappers around the CoinGecko REST
    API build pandas tables, and the top-level code renders a sidebar and
    three tabs from them.  The embedding below follows the script line by
    line.

    - Python floats are binary64 numbers: [float] of the Standard Library
      (primitive floats), so division by zero, NaN and rounding are the
      machine's.  The arithmetic of line 204 is written once, over a class
      [Arith], and read over the floats by the script and over the exact
      rationals where a property is about exact arithmetic.
    - A pandas [DataFrame] is a list of column names with labelled rows of
      cells; the operations the script uses ([df[col]], [df[col] = ...],
      [df[mask]], [sort_values], [set_index], [empty]) are written out with
      the exceptions pandas raises.
    - HTTP and Streamlit are effects: the script runs in a state-and-exception
      monad whose state logs every request issued, every widget drawn and the
      heap of tables that the script mutates in place.

    What is taken from the libraries rather than from the script:
    - every call is answered: the service sends a status and a body that
      decodes.  [requests.get] and [response.json()] are not guarded in the
      script, so a call that fails in transport, or a body that is not JSON,
      would end the render with the exception of the library; such renders
      are outside the embedding, and no property below counts the
      exceptions of a render exhaustively;
    - a decoded response has the shape of its endpoint (a list of coin
      objects, a list of five-element arrays, an object with a [prices]
      list), and JSON numbers other than the epoch timestamps are read as
      binary64 floats, which is exact for integers below 2^53;
    - [Series.sum] adds from left to right and skips NaN;
    - [sort_values] is stable and puts NaN keys last (the properties below
      only use that it permutes the rows);
    - [str.upper] and [str.capitalize] are those of ASCII text;
    - timestamps have nanosecond resolution in 64 bits, and a value outside
      that range raises [OutOfBoundsDatetime]. *)

From Stdlib Require Import ZArith QArith Qabs Qround Lia List DecimalString Floats.
From Stdlib Require Import Ascii String Permutation.
From stdpp Require Import base option list strings gmap.

Open Scope string_scope.
Open Scope list_scope.
Open Scope Z_scope.

(** ** Strings *)

Module Str.

(** [str(n)] for an integer. *)
Definition of_Z (z : Z) : string :=
  match z with
  | Zneg p => "-" ++ NilZero.string_of_uint (Pos.to_uint p)
  | _ => NilZero.string_of_uint (N.to_uint (Z.to_N z))
  end.

Definition is_lower (c : ascii) : bool :=
  let n := nat_of_ascii c in (97 <=? n)%nat && (n <=? 122)%nat.

Definition is_upper (c : ascii) : bool :=
  let n := nat_of_ascii c in (65 <=? n)%nat && (n <=? 90)%nat.

Definition upper_char (c : ascii) : ascii :=
  if is_lower c then ascii_of_nat (nat_of_ascii c - 32) else c.

Definition lower_char (c : ascii) : ascii :=
  if is_upper c then ascii_of_nat (nat_of_ascii c + 32) else c.

Fixpoint map_chars (f : ascii -> ascii) (s : string) : string :=
  match s with
  | EmptyString => EmptyString
  | String c r => String (f c) (map_chars f r)
  end.

(** [s.upper()] and [s.capitalize()], on ASCII text. *)
Definition upper (s : string) : string := map_chars upper_char s.

Definition capitalize (s : string) : string :=
  match s with
  | EmptyString => EmptyString
  | String c r => String (upper_char c) (map_chars lower_char r)
  end.

Fixpoint replicate_char (n : nat) (c : ascii) : string :=
  match n with
  | O => EmptyString
  | S k => String c (replicate_char k c)
  end.

(** Left padding with zeros up to [width] characters. *)
Definition zfill (width : nat) (s : string) : string :=
  replicate_char (width - String.length s) "0"%char ++ s.

(** The thousands separator of the [,] format flag: digits are grouped by
    three from the right. *)
Fixpoint group_from_right (rev_digits : list ascii) (k : nat) (acc : string)
  : string :=
  match rev_digits with
  | [] => acc
  | c :: r =>
      if (k =? 3)%nat
      then group_from_right r 1 (String c (String ","%char acc))
      else group_from_right r (S k) (String c acc)
  end.

Definition thousands (digits : string) : string :=
  group_from_right (rev (list_ascii_of_string digits)) 0 EmptyString.

End Str.

(** ** Binary64 numbers and their formatting *)

Module Float64.

(** The exact rational value of a finite float. *)
Definition exact (f : float) : option Q :=
  match Prim2SF f with
  | S754_zero _ => Some 0%Q
  | S754_finite s m e =>
      Some ((if s then -1 else 1) * inject_Z (Zpos m) * Qpower 2 e)%Q
  | S754_infinity _ | S754_nan => None
  end.

Definition is_nan (f : float) : bool :=
  match Prim2SF f with S754_nan => true | _ => false end.

Definition sign_bit (f : float) : bool :=
  match Prim2SF f with
  | S754_zero s | S754_infinity s | S754_finite s _ _ => s
  | S754_nan => false
  end.

(** Rounding of a non-negative rational to the nearest integer, ties to
    even: the rounding of Python's [format]. *)
Definition round_half_even (q : Q) : Z :=
  let fl := Qfloor q in
  match Qcompare (q - inject_Z fl) (1 # 2) with
  | Lt => fl
  | Gt => fl + 1
  | Eq => if Z.even fl then fl else fl + 1
  end.

(** The digits of [|q|] with [digits] decimals, optionally grouped. *)
Definition fixed (comma : bool) (digits : nat) (q : Q) : string :=
  let scale := 10 ^ Z.of_nat digits in
  let n := round_half_even (Qabs q * inject_Z scale) in
  let int_part := Str.of_Z (n / scale) in
  let int_part := if comma then Str.thousands int_part else int_part in
  match digits with
  | O => int_part
  | _ => int_part ++ "." ++ Str.zfill digits (Str.of_Z (n mod scale))
  end.

(** [f"{x:.<digits>f}"] and [f"{x:,.<digits>f}"]. *)
Definition format_f (comma : bool) (digits : nat) (f : float) : string :=
  match exact f with
  | Some q => (if sign_bit f then "-" else "") ++ fixed comma digits q
  | None =>
      if is_nan f then "nan"
      else if sign_bit f then "-inf" else "inf"
  end.

End Float64.

(** ** Exceptions *)

Inductive exn : Type :=
| KeyError (key : string)
| IndexError (msg : string)
| ValueError (msg : string)
| TypeError (msg : string)
| OutOfBoundsDatetime.

Inductive result (A : Type) : Type :=
| Ok (a : A)
| Raise (e : exn).

Arguments Ok {A} a.
Arguments Raise {A} e.

#[export] Instance result_ret : MRet result := @Ok.

#[export] Instance result_bind : MBind result :=
  fun A B (k : A -> result B) (m : result A) =>
    match m with
    | Ok a => k a
    | Raise e => Raise e
    end.

#[export] Instance result_fmap : FMap result :=
  fun A B (f : A -> B) (m : result A) =>
    match m with
    | Ok a => Ok (f a)
    | Raise e => Raise e
    end.

(** ** Timestamps: [pd.to_datetime(..., unit="ms")] *)

Module Timestamp.

(** A pandas [Timestamp] of resolution [ns]: a signed 64-bit count of
    nanoseconds since 1970-01-01T00:00:00; the least 64-bit value is kept
    for [NaT]. *)
Record t : Type := Build { value : Z }.

Definition min_value : Z := - 2 ^ 63 + 1.
Definition max_value : Z := 2 ^ 63 - 1.

Definition ns_per_ms : Z := 1000000.
Definition ns_per_second : Z := 1000000000.
Definition ns_per_hour : Z := 3600 * ns_per_second.
Definition ns_per_day : Z := 24 * ns_per_hour.

Definition in_bounds (ms : Z) : bool :=
  (min_value <=? ms * ns_per_ms) && (ms * ns_per_ms <=? max_value).

(** One epoch-millisecond value to a timestamp. *)
Definition to_datetime (ms : Z) : result t :=
  if in_bounds ms then Ok (Build (ms * ns_per_ms))
  else Raise OutOfBoundsDatetime.

(** [b - a] as a [Timedelta], in nanoseconds. *)
Definition sub (b a : t) : Z := value b - value a.

(** The calendar fields of a timestamp (proleptic Gregorian, UTC). *)
Record calendar : Type := Calendar {
  year : Z; month : Z; day : Z;
  hour : Z; minute : Z; second : Z; nanosecond : Z
}.

Definition civil_from_days (days : Z) : Z * Z * Z :=
  let z := days + 719468 in
  let era := z / 146097 in
  let doe := z - era * 146097 in
  let yoe := (doe - doe / 1460 + doe / 36524 - doe / 146096) / 365 in
  let doy := doe - (365 * yoe + yoe / 4 - yoe / 100) in
  let mp := (5 * doy + 2) / 153 in
  let d := doy - (153 * mp + 2) / 5 + 1 in
  let m := if mp <? 10 then mp + 3 else mp - 9 in
  let y := yoe + era * 400 + (if m <=? 2 then 1 else 0) in
  (y, m, d).

Definition fields (ts : t) : calendar :=
  let days := value ts / ns_per_day in
  let rest := value ts mod ns_per_day in
  let '(y, m, d) := civil_from_days days in
  {| year := y; month := m; day := d;
     hour := rest / ns_per_hour;
     minute := (rest mod ns_per_hour) / (60 * ns_per_second);
     second := (rest mod (60 * ns_per_second)) / ns_per_second;
     nanosecond := rest mod ns_per_second |}.

End Timestamp.

(** ** Tables: the fragment of pandas the script uses *)

Inductive cell : Type :=
| CFloat (f : float)
| CInt (z : Z)
| CStr (s : string)
| CTime (ts : Timestamp.t).

Record row : Type := Row { label : cell; values : list cell }.

Record DataFrame : Type := Frame { columns : list string; rows : list row }.

Module Pandas.

(** [pd.DataFrame()]: no column, no row. *)
Definition empty_frame : DataFrame := {| columns := []; rows := [] |}.

(** [df.empty]: some axis has length zero. *)
Definition empty (df : DataFrame) : bool :=
  match columns df, rows df with
  | [], _ | _, [] => true
  | _, _ => false
  end.

Fixpoint range_from (start : Z) {A} (l : list A) : list Z :=
  match l with
  | [] => []
  | _ :: r => start :: range_from (start + 1) r
  end.

Definition with_range_index (data : list (list cell)) : list row :=
  zip_with (fun i vs => Row (CInt i) vs) (range_from 0 data) data.

(** [pd.DataFrame(records)] for a list of JSON objects that all have the
    keys [fields]: an empty list gives a table without columns. *)
Definition from_records (fields : list string) (records : list (list cell))
  : DataFrame :=
  match records with
  | [] => empty_frame
  | _ => {| columns := fields; rows := with_range_index records |}
  end.

(** [pd.DataFrame(data, columns=names)] for a list of JSON arrays of
    [length names] entries: the columns are there even without rows. *)
Definition from_rows (names : list string) (data : list (list cell))
  : DataFrame :=
  {| columns := names; rows := with_range_index data |}.

Fixpoint position (col : string) (cols : list string) : option nat :=
  match cols with
  | [] => None
  | c :: r => if String.eqb c col then Some O else S <$> position col r
  end.

Definition nan : float := PrimFloat.nan.

(** The cell of a row at a column position; pandas holds NaN where a row
    has no value. *)
Definition at_position (k : nat) (r : row) : cell :=
  nth k (values r) (CFloat nan).

(** [df[col]] as the list of its values: [KeyError] without the column. *)
Definition getitem (df : DataFrame) (col : string) : result (list cell) :=
  match position col (columns df) with
  | None => Raise (KeyError col)
  | Some k => Ok (map (at_position k) (rows df))
  end.

(** [row[col]] for a row handed out by [iterrows] or [apply(axis=1)]. *)
Definition row_getitem (cols : list string) (r : row) (col : string)
  : result cell :=
  match position col cols with
  | None => Raise (KeyError col)
  | Some k => Ok (at_position k r)
  end.

Fixpoint replace_at {A} (k : nat) (x : A) (l : list A) : list A :=
  match l, k with
  | [], _ => []
  | _ :: r, O => x :: r
  | y :: r, S k' => y :: replace_at k' x r
  end.

(** [df[col] = series], in place on [df]: an existing column is
    overwritten, a new one is appended on the right.  The series has one
    value per row, or pandas raises [ValueError]. *)
Definition setitem (df : DataFrame) (col : string) (series : list cell)
  : result DataFrame :=
  if negb (length series =? length (rows df))%nat
  then Raise (ValueError "Length of values does not match length of index")
  else
    match position col (columns df) with
    | Some k =>
        Ok {| columns := columns df;
              rows := zip_with
                        (fun r v => Row (label r) (replace_at k v (values r)))
                        (rows df) series |}
    | None =>
        Ok {| columns := columns df ++ [col];
              rows := zip_with
                        (fun r v => Row (label r) (values r ++ [v]))
                        (rows df) series |}
    end.

Fixpoint remove_at {A} (k : nat) (l : list A) : list A :=
  match l, k with
  | [], _ => []
  | _ :: r, O => r
  | y :: r, S k' => y :: remove_at k' r
  end.

(** [df.set_index(col, inplace=True)]: the column becomes the row labels
    and leaves the columns. *)
Definition set_index (df : DataFrame) (col : string) : result DataFrame :=
  match position col (columns df) with
  | None => Raise (KeyError col)
  | Some k =>
      Ok {| columns := remove_at k (columns df);
            rows := map (fun r => Row (at_position k r)
                                      (remove_at k (values r)))
                        (rows df) |}
  end.

(** [series.isin(values)] against a list of strings. *)
Definition cell_in (c : cell) (choice : list string) : bool :=
  match c with
  | CStr s => existsb (String.eqb s) choice
  | _ => false
  end.

Definition isin (series : list cell) (choice : list string) : list bool :=
  map (fun c => cell_in c choice) series.

(** [df[mask]] for a boolean series aligned with the rows. *)
Fixpoint select {A} (l : list A) (mask : list bool) : list A :=
  match l, mask with
  | x :: l', b :: mask' =>
      if b then x :: select l' mask' else select l' mask'
  | _, _ => []
  end.

Definition mask_rows (df : DataFrame) (mask : list bool) : DataFrame :=
  {| columns := columns df; rows := select (rows df) mask |}.

(** [df.copy()]: a new table with the same content. *)
Definition copy (df : DataFrame) : DataFrame := df.

(** Numeric reading of a cell for arithmetic on a series. *)
Definition float_of_Z (z : Z) : float :=
  match z with
  | Zneg p => PrimFloat.opp (PrimFloat.of_uint63 (Uint63.of_Z (Zpos p)))
  | _ => PrimFloat.of_uint63 (Uint63.of_Z z)
  end.

Definition as_float (c : cell) : result float :=
  match c with
  | CFloat f => Ok f
  | CInt z => Ok (float_of_Z z)
  | CStr _ => Raise (TypeError "unsupported operand type(s): str")
  | CTime _ => Raise (TypeError "unsupported operand type(s): Timestamp")
  end.

Definition as_str (c : cell) : result string :=
  match c with
  | CStr s => Ok s
  | _ => Raise (TypeError "not a string value")
  end.

Definition as_int (c : cell) : result Z :=
  match c with
  | CInt z => Ok z
  | _ => Raise (TypeError "not an integer value")
  end.

End Pandas.

(** ** Series arithmetic *)

(** The arithmetic of a numeric series.  The script runs it on binary64
    floats; the same formulas can be read over the exact rationals. *)
Class Arith (R : Type) : Type := {
  zero : R;
  hundred : R;
  add : R -> R -> R;
  mul : R -> R -> R;
  div : R -> R -> R;
  isnan : R -> bool
}.

#[export] Instance float_arith : Arith float := {|
  zero := 0%float;
  hundred := 100%float;
  add := PrimFloat.add;
  mul := PrimFloat.mul;
  div := PrimFloat.div;
  isnan := Float64.is_nan
|}.

#[export] Instance Q_arith : Arith Q := {|
  zero := 0%Q;
  hundred := 100%Q;
  add := Qplus;
  mul := Qmult;
  div := Qdiv;
  isnan := fun _ => false
|}.

Module Series.

Section Generic.
Context {R : Type} `{Arith R}.

(** [series.sum()]: NaN entries are skipped, the empty sum is zero. *)
Definition sum (xs : list R) : R :=
  fold_left (fun acc x => if isnan x then acc else add acc x) xs zero.

(** [series / scalar] and [series * scalar]. *)
Definition div_scalar (xs : list R) (d : R) : list R :=
  map (fun x => div x d) xs.

Definition mul_scalar (xs : list R) (k : R) : list R :=
  map (fun x => mul x k) xs.

(** Line 204: [(volume / volume.sum()) * 100]. *)
Definition volume_share (volume : list R) : list R :=
  mul_scalar (div_scalar volume (sum volume)) hundred.
End Generic.

(** Python's [max] over the values of a series. *)
Definition max (xs : list float) : result float :=
  match xs with
  | [] => Raise (ValueError "max() arg is an empty sequence")
  | x :: r => Ok (fold_left (fun m y => if PrimFloat.ltb m y then y else m) r x)
  end.

(** [pd.to_datetime(series, unit="ms")] on a series of integers. *)
Definition to_datetime (xs : list cell) : result (list cell) :=
  mapM (fun c => z ← Pandas.as_int c; CTime <$> Timestamp.to_datetime z) xs.

End Series.

(** ** [sort_values] *)

Module Sorting.

Section Insertion.
Context {A : Type} (key : A -> float).

(** Stable insertion into an ascending list: the new element goes before
    the first element that is not smaller. *)
Fixpoint insert (x : A) (l : list A) : list A :=
  match l with
  | [] => [x]
  | y :: r =>
      if PrimFloat.ltb (key y) (key x) then y :: insert x r
      else x :: y :: r
  end.

Definition sort_ascending (l : list A) : list A := fold_right insert [] l.

(** Descending order is the ascending sort of the reversed list, read
    backwards, so that ties keep their original order. *)
Definition sort_descending (l : list A) : list A :=
  rev (sort_ascending (rev l)).
End Insertion.

Definition key_is_nan {A} (p : float * A) : bool := Float64.is_nan (fst p).

(** [df.sort_values(by=col, ascending=...)]: a new table; rows whose key
    is NaN go last, in their original order. *)
Definition sort_values (df : DataFrame) (by_ : string) (ascending : bool)
  : result DataFrame :=
  keys ← Pandas.getitem df by_;
  keys ← mapM Pandas.as_float keys;
  let keyed := zip keys (rows df) in
  let non_nans := List.filter (fun p => negb (key_is_nan p)) keyed in
  let nans := List.filter key_is_nan keyed in
  let sorted :=
    if ascending then sort_ascending fst non_nans
    else sort_descending fst non_nans in
  Ok {| columns := columns df; rows := map snd (sorted ++ nans) |}.

End Sorting.

(** ** The upstream API *)

Inductive Endpoint : Type :=
| Markets
| Ohlc (coin_id : string)
| MarketChart (coin_id : string).

Definition url (e : Endpoint) : string :=
  match e with
  | Markets => "https://api.coingecko.com/api/v3/coins/markets"
  | Ohlc c => "https://api.coingecko.com/api/v3/coins/" ++ c ++ "/ohlc"
  | MarketChart c =>
      "https://api.coingecko.com/api/v3/coins/" ++ c ++ "/market_chart"
  end.

Record Request : Type := {
  endpoint : Endpoint;
  params : list (string * string);
  headers : list (string * option string)
}.

Record Response (A : Type) : Type := { status_code : Z; json : A }.

Arguments status_code {A} _.
Arguments json {A} _.

(** One entry of the markets listing, with the fields the page reads.  JSON
    numbers are read as binary64 floats. *)
Module Coin.
Record t : Type := {
  id : string;
  name : string;
  symbol : string;
  current_price : float;
  market_cap : float;
  total_volume : float;
  price_change_percentage_24h : float
}.

Definition fields : list string :=
  ["id"; "name"; "symbol"; "current_price"; "market_cap"; "total_volume";
   "price_change_percentage_24h"].

Definition cells (c : t) : list cell :=
  [CStr (id c); CStr (name c); CStr (symbol c); CFloat (current_price c);
   CFloat (market_cap c); CFloat (total_volume c);
   CFloat (price_change_percentage_24h c)].
End Coin.

(** One JSON array [[timestamp, open, high, low, close]] of the OHLC
    endpoint; the timestamp is in epoch milliseconds. *)
Module Candle.
Record t : Type := {
  timestamp : Z;
  open : float;
  high : float;
  low : float;
  close : float
}.

Definition cells (c : t) : list cell :=
  [CInt (timestamp c); CFloat (open c); CFloat (high c); CFloat (low c);
   CFloat (close c)].
End Candle.

(** The JSON object of the market-chart endpoint. *)
Module Chart.
Record t : Type := {
  prices : list (Z * float);
  market_caps : list (Z * float);
  total_volumes : list (Z * float)
}.

Definition cells (p : Z * float) : list cell := [CInt (fst p); CFloat (snd p)].
End Chart.

(** Everything outside the script: the environment variable, the upstream
    service (which may answer the [n]-th request of a render as it likes) and
    what the user has picked in the two filter widgets. *)
Record World : Type := {
  api_key : option string;
  markets_endpoint : nat -> Request -> Response (list Coin.t);
  ohlc_endpoint : nat -> Request -> Response (list Candle.t);
  market_chart_endpoint : nat -> Request -> Response Chart.t;
  coin_selection : option (list string);
  days_selection : option nat
}.

(** ** The display surface *)

Inductive Container : Type := Page | Sidebar | Tab1 | Tab2 | Tab3.

Inductive Figure : Type :=
| Candlestick (x open high low close : list cell)
    (layout : list (string * string))
| Scatter (x y : list cell) (text : list string) (marker_size : list cell)
    (sizeref : float) (marker_color : list string) (hovertext : list string)
    (layout : list (string * string))
| Bar (x y : list cell) (text : list string) (marker_color : list string)
    (layout : list (string * string)).

Inductive Widget : Type :=
| set_page_config (page_title layout : string)
| title (body : string)
| header (body : string)
| markdown (body : string)
| metric (label value delta : string)
| multiselect (label : string) (options : list cell) (default : cell)
| tabs (names : list string)
| subheader (body : string)
| selectbox (label : string) (options : list Z) (index : nat)
| info (body : string)
| caption (body : string)
| plotly_chart (fig : Figure).

(** ** The script monad *)

Record State : Type := {
  requests : list Request;
  display : list (Container * Widget);
  heap : list DataFrame
}.

Definition initial : State := {| requests := []; display := []; heap := [] |}.

Record M (A : Type) : Type := Script { run : State -> result A * State }.

Arguments Script {A} _.
Arguments run {A} _ _.

#[export] Instance M_ret : MRet M := fun A a => Script (fun s => (Ok a, s)).

#[export] Instance M_bind : MBind M :=
  fun A B (k : A -> M B) (m : M A) =>
    Script (fun s =>
      match run m s with
      | (Ok a, s') => run (k a) s'
      | (Raise e, s') => (Raise e, s')
      end).

(** A pandas or Python operation that may raise. *)
Definition lift {A} (m : result A) : M A := Script (fun s => (m, s)).

(** [requests.get(url, params=params, headers=headers)]: one attempt, logged.
    The call is answered by [serve], which sees how many requests came
    before; a call that fails without an answer is not part of a [World]. *)
Definition requests_get {A} (serve : nat -> Request -> Response A)
  (req : Request) : M (Response A) :=
  Script (fun s =>
    (Ok (serve (length (requests s)) req),
     {| requests := requests s ++ [req];
        display := display s;
        heap := heap s |})).

(** A Streamlit call that draws a widget in a container. *)
Definition draw (c : Container) (w : Widget) : M unit :=
  Script (fun s =>
    (Ok tt,
     {| requests := requests s;
        display := display s ++ [(c, w)];
        heap := heap s |})).

(** A new table object; the result is its address. *)
Definition new (df : DataFrame) : M nat :=
  Script (fun s =>
    (Ok (length (heap s)),
     {| requests := requests s;
        display := display s;
        heap := heap s ++ [df] |})).

(** Reading the table at an address, and updating it in place. *)
Definition load (r : nat) : M DataFrame :=
  Script (fun s => (Ok (nth r (heap s) Pandas.empty_frame), s)).

Definition store (r : nat) (df : DataFrame) : M unit :=
  Script (fun s =>
    (Ok tt,
     {| requests := requests s;
        display := display s;
        heap := <[r := df]> (heap s) |})).

(** [for x in xs: body(x)]. *)
Fixpoint for_each {A} (xs : list A) (body : A -> M unit) : M unit :=
  match xs with
  | [] => mret tt
  | x :: r => body x ;; for_each r body
  end.

(** ** The script *)

Definition custom_colors : list string :=
  ["#636EFA"; "#EF553B"; "#00CC96"; "#AB63FA"; "#FFA15A"].

Fixpoint enumerate_from {A} (start : nat) (l : list A) : list (nat * A) :=
  match l with
  | [] => []
  | x :: r => (start, x) :: enumerate_from (S start) r
  end.

Definition enumerate {A} (l : list A) : list (nat * A) := enumerate_from 0 l.

(** Line 157: [{coin: custom_colors[i % len(custom_colors)]
                for i, coin in enumerate(coin_ids)}]. *)
Definition colors (coin_ids : list string) : gmap string string :=
  fold_left
    (fun (d : gmap string string) (p : nat * string) =>
       <[snd p := nth (fst p mod length custom_colors) custom_colors ""]> d)
    (enumerate coin_ids) ∅.

(** [colors[coin]]. *)
Definition dict_getitem (d : gmap string string) (key : string)
  : result string :=
  match d !! key with
  | Some v => Ok v
  | None => Raise (KeyError key)
  end.

(** [f"{row[col]:,.2f}"] and the like. *)
Definition format_cell (comma : bool) (digits : nat) (c : cell)
  : result string :=
  match c with
  | CFloat f => Ok (Float64.format_f comma digits f)
  | CInt z => Ok (Float64.format_f comma digits (Pandas.float_of_Z z))
  | _ => Raise (ValueError "Unknown format code 'f'")
  end.

Definition day_options : list Z := [1; 7; 14; 30; 90; 180; 365].

Definition first_item (l : list cell) : result cell :=
  match l with
  | [] => Raise (IndexError "list index out of range")
  | x :: _ => Ok x
  end.

(** Lines 47-50: the OHLC table of a decoded response.  The timestamp
    column is converted and becomes the index; the rows stay as they are. *)
Definition ohlc_table (candles : list Candle.t) : result DataFrame :=
  let df := Pandas.from_rows ["timestamp"; "open"; "high"; "low"; "close"]
              (map Candle.cells candles) in
  ts ← Pandas.getitem df "timestamp";
  ts ← Series.to_datetime ts;
  df ← Pandas.setitem df "timestamp" ts;
  Pandas.set_index df "timestamp".

(** Lines 76-79: the price table of a decoded response. *)
Definition price_table (data : Chart.t) : result DataFrame :=
  let df := Pandas.from_rows ["timestamp"; "price"]
              (map Chart.cells (Chart.prices data)) in
  ts ← Pandas.getitem df "timestamp";
  ts ← Series.to_datetime ts;
  df ← Pandas.setitem df "timestamp" ts;
  Pandas.set_index df "timestamp".

Section Script.

Variable w : World.

(** Line 36. *)
Definition request_headers : list (string * option string) :=
  [("x-cg-demo-api-key", api_key w)].

(** Lines 40-44, 55-61 and 69-73: the URL and parameters of each call. *)
Definition ohlc_request (coin_id : string) (days : Z) : Request :=
  {| endpoint := Ohlc coin_id;
     params := [("vs_currency", "usd"); ("days", Str.of_Z days)];
     headers := request_headers |}.

Definition markets_request (n : Z) : Request :=
  {| endpoint := Markets;
     params := [("vs_currency", "usd"); ("order", "market_cap_desc");
                ("per_page", Str.of_Z n); ("page", "1")];
     headers := request_headers |}.

Definition market_chart_request (coin_id : string) (days : Z) : Request :=
  {| endpoint := MarketChart coin_id;
     params := [("vs_currency", "usd"); ("days", Str.of_Z days)];
     headers := request_headers |}.

(** Lines 39-51. *)
Definition get_ohlc_data (coin_id : string) (days : Z) : M DataFrame :=
  response ← requests_get (ohlc_endpoint w) (ohlc_request coin_id days);
  if status_code response =? 200 then
    lift (ohlc_table (json response))
  else mret Pandas.empty_frame.

(** Lines 54-65. *)
Definition get_top_coins (n : Z) : M DataFrame :=
  response ← requests_get (markets_endpoint w) (markets_request n);
  if status_code response =? 200 then
    mret (Pandas.from_records Coin.fields (map Coin.cells (json response)))
  else mret Pandas.empty_frame.

(** Lines 68-81. *)
Definition get_market_chart (coin_id : string) (days : Z) : M DataFrame :=
  response ← requests_get (market_chart_endpoint w)
    (market_chart_request coin_id days);
  if status_code response =? 200 then
    lift (price_table (json response))
  else mret Pandas.empty_frame.

(** Lines 89-98: the overview in the sidebar. *)
Definition sidebar_metric (cols : list string) (r : row) : M unit :=
  label_ ← lift (nm ← Pandas.row_getitem cols r "name" ≫= Pandas.as_str;
                 sy ← Pandas.row_getitem cols r "symbol" ≫= Pandas.as_str;
                 mret (nm ++ " (" ++ Str.upper sy ++ ")")%string);
  value_ ← lift (p ← Pandas.row_getitem cols r "current_price"
                       ≫= format_cell true 2;
                 mret ("$" ++ p)%string);
  delta_ ← lift (p ← Pandas.row_getitem cols r "price_change_percentage_24h"
                       ≫= format_cell false 2;
                 mret (p ++ "%")%string);
  draw Sidebar (metric label_ value_ delta_).

Definition sidebar_overview (df_top5 : nat) : M unit :=
  df ← load df_top5;
  if negb (Pandas.empty df) then
    draw Sidebar (header "Top Five Cryptocurrencies Overview") ;;
    draw Sidebar (markdown "View the current price and 24-hour price change for the top five cryptocurrencies by market cap.") ;;
    for_each (rows df) (sidebar_metric (columns df)) ;;
    draw Sidebar (markdown "---")
  else mret tt.

(** Lines 101-107: the coin filter.  The widget hands back what the user
    has picked, or the default on a first load. *)
Definition sidebar_filter (df_top5 : nat) : M (list string) :=
  draw Sidebar (title "Coin Filters") ;;
  draw Sidebar (markdown "Select one or more coins to visualize their market trends, trading volume, etc.") ;;
  df ← load df_top5;
  options ← lift (Pandas.getitem df "id");
  default ← lift (Pandas.getitem df "id" ≫= first_item);
  draw Sidebar (multiselect "Select Coin(s) to Display" options default) ;;
  match coin_selection w with
  | Some picked => mret picked
  | None => d ← lift (Pandas.as_str default); mret [d]
  end.

(** Line 118: the day-range drop-down, which opens on its fourth option. *)
Definition select_days : M Z :=
  draw Tab1 (selectbox "Select number of days for OHLC data" day_options 3) ;;
  mret (match days_selection w with
        | Some k => nth k day_options (nth 3 day_options 0)
        | None => nth 3 day_options 0
        end).

(** Lines 120-140: one candlestick chart per selected coin. *)
Definition candlestick_chart (days : Z) (c : string) : M unit :=
  df_ohlc ← get_ohlc_data c days;
  if negb (Pandas.empty df_ohlc) then
    draw Tab1 (subheader (Str.capitalize c ++ " Price Trend (Last "
                          ++ Str.of_Z days ++ " Days)")%string) ;;
    open_ ← lift (Pandas.getitem df_ohlc "open");
    high_ ← lift (Pandas.getitem df_ohlc "high");
    low_ ← lift (Pandas.getitem df_ohlc "low");
    close_ ← lift (Pandas.getitem df_ohlc "close");
    draw Tab1 (plotly_chart
      (Candlestick (map label (rows df_ohlc)) open_ high_ low_ close_
         [("xaxis_title", "Date"); ("yaxis_title", "Price (USD)");
          ("xaxis_rangeslider_visible", "False")]))
  else mret tt.

(** Lines 113-143. *)
Definition tab1 (coin_choice : list string) : M unit :=
  draw Tab1 (subheader "Price Movement (Candlestick Chart)") ;;
  match coin_choice with
  | _ :: _ =>
      days ← select_days;
      for_each coin_choice (candlestick_chart days)
  | [] =>
      draw Tab1 (info "Please select at least one coin to see candlestick chart.")
  end.

(** Lines 160-167: the hover text of one bubble. *)
Definition hover_text (cols : list string) (r : row) : result string :=
  nm ← Pandas.row_getitem cols r "name" ≫= Pandas.as_str;
  price ← Pandas.row_getitem cols r "current_price" ≫= format_cell true 2;
  cap ← Pandas.row_getitem cols r "market_cap" ≫= format_cell true 0;
  vol ← Pandas.row_getitem cols r "total_volume" ≫= format_cell true 0;
  chg ← Pandas.row_getitem cols r "price_change_percentage_24h"
          ≫= format_cell false 2;
  mret ("<b>" ++ nm ++ "</b><br>"
        ++ "Current Price: $" ++ price ++ "<br>"
        ++ "Market Cap: $" ++ cap ++ "<br>"
        ++ "Trading Volume in Past 24 Hours (USD): $" ++ vol ++ "<br>"
        ++ "Price Change Over Last 24 Hours: " ++ chg ++ "%")%string.

(** Lines 146-199. The filtered copy [df_bubbles] is never written to, so
    it is kept as a value. *)
Definition tab2 (df_top5 : nat) (coin_choice : list string) : M unit :=
  draw Tab2 (subheader "Market Cap and Current Price Comparison (Bubble Size = Trading Volume)") ;;
  df ← load df_top5;
  ids ← lift (Pandas.getitem df "id");
  let df_bubbles := Pandas.copy (Pandas.mask_rows df (Pandas.isin ids coin_choice)) in
  draw Tab2 (caption "For better comparison, select multiple coins from the filter.") ;;
  if negb (Pandas.empty df_bubbles) then
    coin_ids ← lift (Pandas.getitem df_bubbles "id" ≫= mapM Pandas.as_str);
    let colors_ := colors coin_ids in
    hover ← lift (mapM (hover_text (columns df_bubbles)) (rows df_bubbles));
    x_ ← lift (Pandas.getitem df_bubbles "market_cap");
    y_ ← lift (Pandas.getitem df_bubbles "current_price");
    text_ ← lift (Pandas.getitem df_bubbles "symbol"
                   ≫= mapM (fun c => Str.upper <$> Pandas.as_str c));
    size_ ← lift (Pandas.getitem df_bubbles "total_volume");
    biggest ← lift (volume ← Pandas.getitem df_bubbles "total_volume";
                    volume ← mapM Pandas.as_float volume;
                    Series.max volume);
    let sizeref_ := (2 * biggest / 10000)%float in
    color_ ← lift (ids ← Pandas.getitem df_bubbles "id";
                   ids ← mapM Pandas.as_str ids;
                   mapM (dict_getitem colors_) ids);
    draw Tab2 (plotly_chart
      (Scatter x_ y_ text_ size_ sizeref_ color_ hover
         [("title", "Market Cap vs Current Price (Bubble Size = Trading Volume)");
          ("xaxis.title", "Market Cap (USD)");
          ("yaxis.title", "Current Price (USD)")]))
  else
    draw Tab2 (info "Please select at least one coin to view bubble chart.").

(** Lines 202-228.  Line 204 writes the new column into the table object
    itself; line 205 binds the name [df_top5] to a new, sorted table, whose
    address is the result. *)
Definition tab3 (df_top5 : nat) (coin_choice : list string) : M nat :=
  df ← load df_top5;
  volume ← lift (Pandas.getitem df "total_volume" ≫= mapM Pandas.as_float);
  df ← lift (Pandas.setitem df "percent"
               (map CFloat (Series.volume_share volume)));
  store df_top5 df ;;
  sorted ← lift (Sorting.sort_values df "percent" false);
  df_top5 ← new sorted;
  draw Tab3 (subheader "Top Five Cryptocurrencies by Trading Volume Share") ;;
  draw Tab3 (caption "The highlighted color in the bar chart indicates the coin(s) selected from the sidebar filter.") ;;
  df ← load df_top5;
  (if negb (Pandas.empty df) then
     x_ ← lift (Pandas.getitem df "name");
     y_ ← lift (Pandas.getitem df "percent");
     text_ ← lift (Pandas.getitem df "percent"
                    ≫= mapM (fun c => (fun s => (s ++ "%")%string)
                                        <$> format_cell false 2 c));
     ids ← lift (Pandas.getitem df "id");
     let marker_color :=
       map (fun c => if Pandas.cell_in c coin_choice
                     then "steelblue" else "lightgray") ids in
     draw Tab3 (plotly_chart
       (Bar x_ y_ text_ marker_color
          [("title", "Trading Volume Share (Top Five Cryptocurrencies)");
           ("xaxis_title", "Cryptocurrency");
           ("yaxis_title", "Volume Share (%)")]))
   else mret tt) ;;
  mret df_top5.

(** The whole page, top to bottom.  The result is the address that the
    name [df_top5] is bound to when the script ends. *)
Definition render : M nat :=
  draw Page (set_page_config "Crypto Dashboard" "wide") ;;
  draw Page (title "Crypto Market Dashboard") ;;
  df_top5 ← get_top_coins 5 ≫= new;
  sidebar_overview df_top5 ;;
  coin_choice ← sidebar_filter df_top5;
  draw Page (tabs ["Price Overview"; "Market Comparison"; "Volume Analysis"]) ;;
  tab1 coin_choice ;;
  tab2 df_top5 coin_choice ;;
  tab3 df_top5 coin_choice.

End Script.

(** ** Vocabulary of the properties *)

(** A success status in the sense of HTTP: 2xx. *)
Definition success (status : Z) : bool := (200 <=? status) && (status <? 300).

(** Every element of a list is related to its successor. *)
Fixpoint chain {A} (R : A -> A -> bool) (l : list A) : bool :=
  match l with
  | x :: (y :: _) as r => R x y && chain R r
  | _ => true
  end.

(** A list of integers in which no element is greater than its successor,
    and a list of floats in which no element is smaller than its
    successor. *)
Definition ascending (l : list Z) : bool := chain Z.leb l.

Definition descending (l : list float) : bool :=
  chain (fun x y => negb (PrimFloat.ltb x y)) l.

(** The timestamps of the row labels of a table, in row order. *)
Definition index_times (df : DataFrame) : list Z :=
  flat_map (fun r => match label r with
                     | CTime ts => [Timestamp.value ts]
                     | _ => []
                     end) (rows df).

Definition index_ascending (df : DataFrame) : bool := ascending (index_times df).

(** The timestamp that [pd.to_datetime] gives for a value in bounds. *)
Definition datetime_of_ms (ms : Z) : Timestamp.t :=
  Timestamp.Build (ms * Timestamp.ns_per_ms).

Definition candle_in_bounds (c : Candle.t) : Prop :=
  Timestamp.in_bounds (Candle.timestamp c) = true.

(** Requests to the market-chart endpoint, and states that log none. *)
Definition calls_market_chart (r : Request) : bool :=
  match endpoint r with
  | MarketChart _ => true
  | _ => false
  end.

Definition without_market_chart (s : State) : Prop :=
  Forall (fun r => calls_market_chart r = false) (requests s).

(** A world that differs only in what the market-chart endpoint answers. *)
Definition with_market_chart (w : World)
  (serve : nat -> Request -> Response Chart.t) : World :=
  {| api_key := api_key w;
     markets_endpoint := markets_endpoint w;
     ohlc_endpoint := ohlc_endpoint w;
     market_chart_endpoint := serve;
     coin_selection := coin_selection w;
     days_selection := days_selection w |}.

(** A script keeps an invariant of the state, whether it returns or raises. *)
Definition preserves {A} (I : State -> Prop) (m : M A) : Prop :=
  forall s, I s -> I (snd (run m s)).

Definition container_eqb (a b : Container) : bool :=
  match a, b with
  | Page, Page | Sidebar, Sidebar | Tab1, Tab1 | Tab2, Tab2 | Tab3, Tab3 => true
  | _, _ => false
  end.

(** The widgets drawn in one container, in drawing order. *)
Definition widgets_in (c : Container) (d : list (Container * Widget))
  : list Widget :=
  map snd (List.filter (fun p => container_eqb (fst p) c) d).

(** ** The tables and widgets of a render *)

(** The rows of a table built from a list of records, as one [map]. *)
Definition labelled {A} (start : Z) (xs : list A) : list (Z * A) :=
  zip (Pandas.range_from start xs) xs.

Definition candle_row (c : Candle.t) : row :=
  Row (CTime (datetime_of_ms (Candle.timestamp c)))
      [CFloat (Candle.open c); CFloat (Candle.high c); CFloat (Candle.low c);
       CFloat (Candle.close c)].

(** The summary table, row by row: a list of labelled coins. *)
Definition coin_row (p : Z * Coin.t) : row :=
  Row (CInt (fst p)) (Coin.cells (snd p)).

Definition coin_table (lcs : list (Z * Coin.t)) : DataFrame :=
  {| columns := Coin.fields; rows := map coin_row lcs |}.

(** The coins that the markets call of a render returns, labelled as in the
    table built from them. *)
Definition listed (w : World) : list (Z * Coin.t) :=
  labelled 0 (json (markets_endpoint w 0 (markets_request w 5))).

(** What lines 93-97 show for one coin. *)
Definition metric_of (c : Coin.t) : Widget :=
  metric (Coin.name c ++ " (" ++ Str.upper (Coin.symbol c) ++ ")")%string
         ("$" ++ Float64.format_f true 2 (Coin.current_price c))%string
         (Float64.format_f false 2 (Coin.price_change_percentage_24h c)
          ++ "%")%string.

Definition overview_widgets (lcs : list (Z * Coin.t))
  : list (Container * Widget) :=
  [(Sidebar, header "Top Five Cryptocurrencies Overview");
   (Sidebar, markdown "View the current price and 24-hour price change for the top five cryptocurrencies by market cap.")]
  ++ map (fun p => (Sidebar, metric_of (snd p))) lcs
  ++ [(Sidebar, markdown "---")].

Definition filter_widgets (lcs : list (Z * Coin.t)) (first : Coin.t)
  : list (Container * Widget) :=
  [(Sidebar, title "Coin Filters");
   (Sidebar, markdown "Select one or more coins to visualize their market trends, trading volume, etc.");
   (Sidebar, multiselect "Select Coin(s) to Display"
               (map (fun p => CStr (Coin.id (snd p))) lcs)
               (CStr (Coin.id first)))].

(** What the coin filter hands back. *)
Definition chosen (w : World) (first : Coin.t) : list string :=
  match coin_selection w with
  | Some picked => picked
  | None => [Coin.id first]
  end.

(** Adding widgets to the display of a state. *)
Definition shows (s : State) (ws : list (Container * Widget)) : State :=
  {| requests := requests s; display := display s ++ ws; heap := heap s |}.

(** The state in which the three tabs start: one request made, the sidebar
    drawn, the summary table on the heap. *)
Definition before_tabs (w : World) (lcs : list (Z * Coin.t)) (first : Coin.t)
  : State :=
  {| requests := [markets_request w 5];
     display :=
       [(Page, set_page_config "Crypto Dashboard" "wide");
        (Page, title "Crypto Market Dashboard")]
       ++ overview_widgets lcs
       ++ filter_widgets lcs first
       ++ [(Page, tabs ["Price Overview"; "Market Comparison";
                        "Volume Analysis"])];
     heap := [coin_table lcs] |}.

Definition tab2_heading : list (Container * Widget) :=
  [(Tab2, subheader "Market Cap and Current Price Comparison (Bubble Size = Trading Volume)");
   (Tab2, caption "For better comparison, select multiple coins from the filter.")].

(** The coins of the table that the selection keeps, in table order. *)
Definition bubbles (lcs : list (Z * Coin.t)) (coin_choice : list string)
  : list (Z * Coin.t) :=
  Pandas.select lcs
    (Pandas.isin (map (fun p => CStr (Coin.id (snd p))) lcs) coin_choice).

(** The share of one coin in a total volume, as line 204 computes it. *)
Definition share (total : float) (c : Coin.t) : float :=
  mul (div (Coin.total_volume c) total) hundred.

Definition total_volume_of (lcs : list (Z * Coin.t)) : float :=
  Series.sum (map (fun p => Coin.total_volume (snd p)) lcs).

(** The summary table after line 204: each row has its share appended. *)
Definition share_row (total : float) (p : Z * Coin.t) : row :=
  Row (CInt (fst p)) (Coin.cells (snd p) ++ [CFloat (share total (snd p))]).

Definition share_table (total : float) (lcs : list (Z * Coin.t)) : DataFrame :=
  {| columns := Coin.fields ++ ["percent"];
     rows := map (share_row total) lcs |}.

(** The seven fetched fields of a row of the summary table. *)
Definition fetched_fields (r : row) : row :=
  Row (label r) (firstn (length Coin.fields) (values r)).

(** The order in which line 205 puts the coins. *)
Definition by_share (total : float) (lcs : list (Z * Coin.t))
  : list (Z * Coin.t) :=
  Sorting.sort_descending (fun p => share total (snd p))
    (List.filter (fun p => negb (Float64.is_nan (share total (snd p)))) lcs)
  ++ List.filter (fun p => Float64.is_nan (share total (snd p))) lcs.

Definition tab3_heading : list (Container * Widget) :=
  [(Tab3, subheader "Top Five Cryptocurrencies by Trading Volume Share");
   (Tab3, caption "The highlighted color in the bar chart indicates the coin(s) selected from the sidebar filter.")].

Definition bar_color (coin_choice : list string) (c : Coin.t) : string :=
  if existsb (String.eqb (Coin.id c)) coin_choice
  then "steelblue" else "lightgray".

Definition bar_text (total : float) (c : Coin.t) : string :=
  (Float64.format_f false 2 (share total c) ++ "%")%string.

(** The bar chart of lines 212-227 for coins in the order [sl]. *)
Definition bar_chart (coin_choice : list string) (total : float)
  (sl : list (Z * Coin.t)) : Figure :=
  Bar (map (fun p => CStr (Coin.name (snd p))) sl)
      (map (fun p => CFloat (share total (snd p))) sl)
      (map (fun p => bar_text total (snd p)) sl)
      (map (fun p => bar_color coin_choice (snd p)) sl)
      [("title", "Trading Volume Share (Top Five Cryptocurrencies)");
       ("xaxis_title", "Cryptocurrency");
       ("yaxis_title", "Volume Share (%)")].

(** ** Sample inputs *)

Definition answer {A} (status : Z) (body : A) : nat -> Request -> Response A :=
  fun _ _ => {| status_code := status; json := body |}.

Definition no_chart : Chart.t :=
  {| Chart.prices := []; Chart.market_caps := []; Chart.total_volumes := [] |}.

Definition sample_world (status : Z) (coins : list Coin.t)
  (candles : list Candle.t) (picked : option (list string)) : World :=
  {| api_key := Some "demo-key";
     markets_endpoint := answer status coins;
     ohlc_endpoint := answer 200 candles;
     market_chart_endpoint := answer 200 no_chart;
     coin_selection := picked;
     days_selection := None |}.

(** A service that answers every call with [404]. *)
Definition world_down : World :=
  {| api_key := None;
     markets_endpoint := answer 404 [];
     ohlc_endpoint := answer 404 [];
     market_chart_endpoint := answer 404 no_chart;
     coin_selection := None;
     days_selection := None |}.

Definition coin (id_ name_ symbol_ : string) (price cap volume change : float)
  : Coin.t :=
  {| Coin.id := id_; Coin.name := name_; Coin.symbol := symbol_;
     Coin.current_price := price; Coin.market_cap := cap;
     Coin.total_volume := volume;
     Coin.price_change_percentage_24h := change |}.

Definition candle (ts : Z) (o h l c : float) : Candle.t :=
  {| Candle.timestamp := ts; Candle.open := o; Candle.high := h;
     Candle.low := l; Candle.close := c |}.

(** Five coins whose volumes are 100, 200, 300, 400 and 500. *)
Definition five_coins : list Coin.t :=
  [coin "bitcoin" "Bitcoin" "btc" 67000.5 1300000000000 100 1.5;
   coin "ethereum" "Ethereum" "eth" 3500 400000000000 200 (-2.25);
   coin "tether" "Tether" "usdt" 1 100000000000 300 0;
   coin "bnb" "BNB" "bnb" 600 90000000000 400 0.5;
   coin "solana" "Solana" "sol" 150 70000000000 500 3].

(** Two coins, the second with the larger volume. *)
Definition two_coins : list Coin.t :=
  [coin "bitcoin" "Bitcoin" "btc" 67000.5 1300000000000 100 1.5;
   coin "ethereum" "Ethereum" "eth" 3500 400000000000 200 (-2.25)].

(** Two candles that the service sends newest first. *)
Definition candles_newest_first : list Candle.t :=
  [candle 1700003600000 2 4 1 3; candle 1700000000000 1 2 0.5 1.5].

(** A state that holds the summary table of the five sample coins. *)
Definition five_coin_state : State :=
  {| requests := [];
     display := [];
     heap := [Pandas.from_records Coin.fields (map Coin.cells five_coins)] |}.

(** ** Further vocabulary: the wrappers and the candlestick tab *)

(** One entry [[timestamp, price]] of the market-chart answer as a row of
    the price table. *)
Definition price_row (p : Z * float) : row :=
  Row (CTime (datetime_of_ms (fst p))) [CFloat (snd p)].

Definition price_in_bounds (p : Z * float) : Prop :=
  Timestamp.in_bounds (fst p) = true.

(** The state after one more request, nothing else changed. *)
Definition asked (s : State) (req : Request) : State :=
  {| requests := requests s ++ [req]; display := display s; heap := heap s |}.

(** The day range that line 118 hands back. *)
Definition chosen_days (w : World) : Z :=
  match days_selection w with
  | Some k => nth k day_options (nth 3 day_options 0)
  | None => nth 3 day_options 0
  end.

(** A service whose answers all carry the status [204], with data. *)
Definition world_204 : World :=
  {| api_key := None;
     markets_endpoint := answer 204 five_coins;
     ohlc_endpoint := answer 204 candles_newest_first;
     market_chart_endpoint :=
       answer 204 {| Chart.prices := [(1700000000000, 1%float)];
                     Chart.market_caps := [];
                     Chart.total_volumes := [] |};
     coin_selection := None;
     days_selection := None |}.

(** A market-chart answer with two prices, and a world that serves it. *)
Definition two_prices : Chart.t :=
  {| Chart.prices := [(1700000000000, 1.5%float); (1700003600000, 2%float)];
     Chart.market_caps := [(1700000000000, 7%float)];
     Chart.total_volumes := [] |}.

Definition world_chart : World :=
  {| api_key := Some "demo-key";
     markets_endpoint := answer 200 five_coins;
     ohlc_endpoint := answer 200 candles_newest_first;
     market_chart_endpoint := answer 200 two_prices;
     coin_selection := None;
     days_selection := None |}.

(** The candles that an OHLC call made as the [n]-th request of a render
    yields: those of the answer when its status is [200], none otherwise. *)
Definition candles_of (w : World) (n : nat) (c : string) (days : Z)
  : list Candle.t :=
  let response := ohlc_endpoint w n (ohlc_request w c days) in
  if status_code response =? 200 then json response else [].

(** What lines 125-140 draw for one coin with candles. *)
Definition candlestick_widgets (days : Z) (c : string)
  (candles : list Candle.t) : list (Container * Widget) :=
  [(Tab1, subheader (Str.capitalize c ++ " Price Trend (Last "
                     ++ Str.of_Z days ++ " Days)")%string);
   (Tab1, plotly_chart
      (Candlestick
         (map (fun k => CTime (datetime_of_ms (Candle.timestamp k))) candles)
         (map (fun k => CFloat (Candle.open k)) candles)
         (map (fun k => CFloat (Candle.high k)) candles)
         (map (fun k => CFloat (Candle.low k)) candles)
         (map (fun k => CFloat (Candle.close k)) candles)
         [("xaxis_title", "Date"); ("yaxis_title", "Price (USD)");
          ("xaxis_rangeslider_visible", "False")]))].

(** What the loop of lines 120-140 draws for a list of coins, when its
    first call is the [n]-th request: nothing for a coin without candles. *)
Fixpoint charts_from (w : World) (days : Z) (n : nat) (coin_choice : list string)
  : list (Container * Widget) :=
  match coin_choice with
  | [] => []
  | c :: r =>
      match candles_of w n c days with
      | [] => []
      | k :: ks => candlestick_widgets days c (k :: ks)
      end ++ charts_from w days (S n) r
  end.

(** Every candle that the service can send has a timestamp in bounds. *)
Definition candles_in_bounds (w : World) : Prop :=
  forall n req, Forall candle_in_bounds (json (ohlc_endpoint w n req)).

(** A service that fails on bitcoin and answers with two candles on every
    other coin. *)
Definition world_partial (picked : list string) : World :=
  {| api_key := Some "demo-key";
     markets_endpoint := answer 200 five_coins;
     ohlc_endpoint :=
       fun _ req =>
         match endpoint req with
         | Ohlc c =>
             if String.eqb c "bitcoin"
             then {| status_code := 500; json := [] |}
             else {| status_code := 200; json := candles_newest_first |}
         | _ => {| status_code := 200; json := candles_newest_first |}
         end;
     market_chart_endpoint := answer 200 no_chart;
     coin_selection := Some picked;
     days_selection := Some 1%nat |}.

(** The coins that the filter hands to the tabs in a render: the stored
    selection, or the first coin of the summary on a first load; nothing is
    selected when the summary is empty. *)
Definition selection_of (w : World) : list string :=
  let response := markets_endpoint w 0 (markets_request w 5) in
  if status_code response =? 200 then
    match json response with
    | c :: _ => chosen w c
    | [] => []
    end
  else [].

(** The summary of a render is empty: the markets call failed or listed no
    coin. *)
Definition summary_is_empty (w : World) : Prop :=
  let response := markets_endpoint w 0 (markets_request w 5) in
  status_code response <> 200 \/ json response = [].

(** A service that sends a candle from the far future. *)
Definition world_overflow : World :=
  {| api_key := None;
     markets_endpoint := answer 200 two_coins;
     ohlc_endpoint := answer 200 [candle (10 ^ 16) 1 1 1 1];
     market_chart_endpoint := answer 200 no_chart;
     coin_selection := None;
     days_selection := None |}.

(** ** Further vocabulary: the bubble tab and the volume tab *)

(** A coin is kept by a selection when its id occurs in it. *)
Definition picked_by (coin_choice : list string) (p : Z * Coin.t) : bool :=
  existsb (String.eqb (Coin.id (snd p))) coin_choice.

(** The hover text of lines 161-165 for one coin. *)
Definition hover_of (c : Coin.t) : string :=
  ("<b>" ++ Coin.name c ++ "</b><br>"
   ++ "Current Price: $" ++ Float64.format_f true 2 (Coin.current_price c)
   ++ "<br>"
   ++ "Market Cap: $" ++ Float64.format_f true 0 (Coin.market_cap c)
   ++ "<br>"
   ++ "Trading Volume in Past 24 Hours (USD): $"
   ++ Float64.format_f true 0 (Coin.total_volume c) ++ "<br>"
   ++ "Price Change Over Last 24 Hours: "
   ++ Float64.format_f false 2 (Coin.price_change_percentage_24h c)
   ++ "%")%string.

(** Two coins without volume. *)
Definition idle_coins : list Coin.t :=
  [coin "bitcoin" "Bitcoin" "btc" 67000.5 1300000000000 0 1.5;
   coin "ethereum" "Ethereum" "eth" 3500 400000000000 0 (-2.25)].

Definition idle_state : State :=
  {| requests := [];
     display := [];
     heap := [coin_table (labelled 0 idle_coins)] |}.

(** A state that holds the summary table of the five sample coins, written
    as a list of labelled coins. *)
Definition five_coin_table_state : State :=
  {| requests := [];
     display := [];
     heap := [coin_table (labelled 0 five_coins)] |}.

(** ** Further vocabulary: what a part of the page may touch *)

(** The display [d0] extended by widgets of container [c] only. *)
Definition drawn_in (c : Container) (d0 : list (Container * Widget))
  (s : State) : Prop :=
  exists ws, display s = d0 ++ ws /\ Forall (fun p => fst p = c) ws.

(** The log [log0] extended by OHLC calls only. *)
Definition asks_ohlc (w : World) (log0 : list Request) (s : State) : Prop :=
  exists calls,
    requests s = log0 ++ calls
    /\ Forall (fun req => exists c days, req = ohlc_request w c days) calls.

(** The heap [h0] with no table dropped and no table other than the one at
    address [r] changed. *)
Definition writes_only (r : nat) (h0 : list DataFrame) (s : State) : Prop :=
  (length h0 <= length (heap s))%nat
  /\ forall a, a <> r -> (a < length h0)%nat ->
       nth a (heap s) Pandas.empty_frame = nth a h0 Pandas.empty_frame.

(** What a request may carry: the key in the header that the service
    expects and nowhere else, US dollars as the currency, and an address
    under the one base URL. *)
Definition well_formed (w : World) (req : Request) : Prop :=
  headers req = [("x-cg-demo-api-key", api_key w)]
  /\ In ("vs_currency", "usd") (params req)
  /\ Forall (fun kv => In (fst kv)
                         ["vs_currency"; "order"; "per_page"; "page"; "days"])
       (params req)
  /\ String.prefix "https://api.coingecko.com/api/v3/coins/"
       (url (endpoint req)) = true.

(** * Properties *)

(** ** The monad *)

Lemma run_bind {A B} (m : M A) (k : A -> M B) (s : State) :
  run (m ≫= k) s =
  match run m s with
  | (Ok a, s') => run (k a) s'
  | (Raise e, s') => (Raise e, s')
  end.
Proof. reflexivity. Qed.

Lemma empty_frame_is_empty : Pandas.empty Pandas.empty_frame = true.
Proof. reflexivity. Qed.

(** ** The endpoint wrappers *)

(** The state after one more request. *)
Lemma requests_get_run {A} (serve : nat -> Request -> Response A) req s :
  run (requests_get serve req) s
  = (Ok (serve (length (requests s)) req),
     {| requests := requests s ++ [req];
        display := display s;
        heap := heap s |}).
Proof. reflexivity. Qed.

Section Wrappers.

Variable w : World.

Lemma get_top_coins_failure n s :
  status_code (markets_endpoint w (length (requests s)) (markets_request w n))
    <> 200 ->
  run (get_top_coins w n) s
  = (Ok Pandas.empty_frame,
     {| requests := requests s ++ [markets_request w n];
        display := display s;
        heap := heap s |}).
Proof.
  intros Hst. unfold get_top_coins. rewrite run_bind, requests_get_run.
  destruct (Z.eqb_spec
    (status_code (markets_endpoint w (length (requests s)) (markets_request w n)))
    200) as [E | _]; [contradiction | reflexivity].
Qed.

Lemma get_ohlc_data_failure c d s :
  status_code (ohlc_endpoint w (length (requests s)) (ohlc_request w c d))
    <> 200 ->
  run (get_ohlc_data w c d) s
  = (Ok Pandas.empty_frame,
     {| requests := requests s ++ [ohlc_request w c d];
        display := display s;
        heap := heap s |}).
Proof.
  intros Hst. unfold get_ohlc_data. rewrite run_bind, requests_get_run.
  destruct (Z.eqb_spec
    (status_code (ohlc_endpoint w (length (requests s)) (ohlc_request w c d)))
    200) as [E | _]; [contradiction | reflexivity].
Qed.

Lemma get_market_chart_failure c d s :
  status_code
    (market_chart_endpoint w (length (requests s)) (market_chart_request w c d))
    <> 200 ->
  run (get_market_chart w c d) s
  = (Ok Pandas.empty_frame,
     {| requests := requests s ++ [market_chart_request w c d];
        display := display s;
        heap := heap s |}).
Proof.
  intros Hst. unfold get_market_chart. rewrite run_bind, requests_get_run.
  destruct (Z.eqb_spec
    (status_code
       (market_chart_endpoint w (length (requests s))
          (market_chart_request w c d)))
    200) as [E | _]; [contradiction | reflexivity].
Qed.

End Wrappers.

Lemma failure_is_not_200 status : success status = false -> status <> 200.
Proof. intros H ->. discriminate H. Qed.

(** C2. Each of the three wrappers answers a response whose status is not a
    success (not 2xx) by returning the empty table [pd.DataFrame()], which
    is empty; it raises nothing, and all it leaves in the state is the one
    request that it made. *)
Theorem wrappers_return_empty_on_failure (w : World) (s : State) :
  Pandas.empty Pandas.empty_frame = true /\
  (forall n,
     success (status_code (markets_endpoint w (length (requests s))
                             (markets_request w n))) = false ->
     run (get_top_coins w n) s
     = (Ok Pandas.empty_frame,
        {| requests := requests s ++ [markets_request w n];
           display := display s;
           heap := heap s |})) /\
  (forall c d,
     success (status_code (ohlc_endpoint w (length (requests s))
                             (ohlc_request w c d))) = false ->
     run (get_ohlc_data w c d) s
     = (Ok Pandas.empty_frame,
        {| requests := requests s ++ [ohlc_request w c d];
           display := display s;
           heap := heap s |})) /\
  (forall c d,
     success (status_code (market_chart_endpoint w (length (requests s))
                             (market_chart_request w c d))) = false ->
     run (get_market_chart w c d) s
     = (Ok Pandas.empty_frame,
        {| requests := requests s ++ [market_chart_request w c d];
           display := display s;
           heap := heap s |})).
Proof.
  split; [reflexivity |].
  split; [| split]; intros.
  - apply get_top_coins_failure, failure_is_not_200; assumption.
  - apply get_ohlc_data_failure, failure_is_not_200; assumption.
  - apply get_market_chart_failure, failure_is_not_200; assumption.
Qed.

Lemma wrappers_return_empty_on_failure_witness :
  fst (run (get_top_coins world_down 5) initial) = Ok Pandas.empty_frame /\
  fst (run (get_ohlc_data world_down "bitcoin" 30) initial)
    = Ok Pandas.empty_frame /\
  fst (run (get_market_chart world_down "bitcoin" 30) initial)
    = Ok Pandas.empty_frame.
Proof.
  destruct (wrappers_return_empty_on_failure world_down initial)
    as (_ & Hm & Ho & Hc).
  split; [rewrite Hm; reflexivity |].
  split; [rewrite Ho; reflexivity | rewrite Hc; reflexivity].
Defined.

(** ** Timestamps *)

Lemma to_datetime_in_bounds ms :
  Timestamp.in_bounds ms = true ->
  Timestamp.to_datetime ms = Ok (datetime_of_ms ms).
Proof. intros H. unfold Timestamp.to_datetime. rewrite H. reflexivity. Qed.

Lemma to_datetime_out_of_bounds ms :
  Timestamp.in_bounds ms = false ->
  Timestamp.to_datetime ms = Raise OutOfBoundsDatetime.
Proof. intros H. unfold Timestamp.to_datetime. rewrite H. reflexivity. Qed.

(** ** Volume shares over the exact rationals *)

Lemma sum_Q_scaled (T : Q) (xs : list Q) (a b : Q) :
  (b == a / T * 100)%Q ->
  (fold_left (fun acc x => if isnan x then acc else add acc x)
     (map (fun x => mul (div x T) hundred) xs) b
   == fold_left (fun acc x => if isnan x then acc else add acc x) xs a
      / T * 100)%Q.
Proof.
  revert a b. induction xs as [| x xs IH]; intros a b Hab; simpl.
  - exact Hab.
  - apply IH. rewrite Hab. unfold Qdiv. ring.
Qed.

Lemma volume_share_sum_Q (volume : list Q) :
  (Series.sum (Series.volume_share volume)
   == Series.sum volume / Series.sum volume * 100)%Q.
Proof.
  unfold Series.volume_share, Series.mul_scalar, Series.div_scalar, Series.sum.
  rewrite map_map. apply sum_Q_scaled. simpl. unfold Qdiv. ring.
Qed.

(** C3, as amended. Over the exact rationals, the volume shares of a summary
    set whose volumes do not sum to zero sum to exactly 100. *)
Theorem volume_shares_sum_to_100 (volume : list Q) :
  ~ (Series.sum volume == 0)%Q ->
  (Series.sum (Series.volume_share volume) == 100)%Q.
Proof.
  intros Hne. rewrite volume_share_sum_Q. field. exact Hne.
Qed.

Lemma volume_shares_sum_to_100_witness :
  (Series.sum (Series.volume_share [100; 200; 300; 400; 500]%Q) == 100)%Q.
Proof.
  apply (volume_shares_sum_to_100 [100; 200; 300; 400; 500]%Q).
  vm_compute. discriminate.
Defined.

(** C3 as stated does not hold for a non-empty summary set whose only
    volume is zero: the shares do not sum to 100 over the rationals, and the script
    computes NaN. *)
Lemma volume_shares_of_zero_volume :
  [0%Q] <> [] /\
  ~ (Series.sum (Series.volume_share [0%Q]) == 100)%Q /\
  map Float64.is_nan (Series.volume_share [0%float]) = [true].
Proof.
  split; [discriminate |]. split.
  - vm_compute. discriminate.
  - vm_compute. reflexivity.
Qed.

(** ** The color dictionary *)







(** With a repeated id the dictionary keeps the color of the last position. *)
Example colors_repeated_id :
  colors ["bitcoin"; "bitcoin"] !! "bitcoin" = custom_colors !! 1%nat.
Proof. vm_compute. reflexivity. Qed.



(** ** Lists and tables *)

Lemma range_from_map {A B} (f : A -> B) (xs : list A) (n : Z) :
  Pandas.range_from n (map f xs) = Pandas.range_from n xs.
Proof.
  revert n. induction xs as [| x xs IH]; intros n; simpl; [| rewrite IH];
    reflexivity.
Qed.

Lemma zip_with_map_same {A B C D} (F : B -> C -> D) (a : A -> B) (b : A -> C)
  (l : list A) :
  zip_with F (map a l) (map b l) = map (fun x => F (a x) (b x)) l.
Proof. induction l as [| x l IH]; simpl; [| rewrite IH]; reflexivity. Qed.

Lemma zip_with_range_map {A B} (F : Z -> B -> row) (f : A -> B) (xs : list A)
  (n : Z) :
  zip_with F (Pandas.range_from n (map f xs)) (map f xs)
  = map (fun p => F (fst p) (f (snd p))) (labelled n xs).
Proof.
  unfold labelled. revert n.
  induction xs as [| x xs IH]; intros n; simpl; [| rewrite IH]; reflexivity.
Qed.

Lemma with_range_index_map {A} (f : A -> list cell) (xs : list A) :
  Pandas.with_range_index (map f xs)
  = map (fun p => Row (CInt (fst p)) (f (snd p))) (labelled 0 xs).
Proof. exact (zip_with_range_map (fun i vs => Row (CInt i) vs) f xs 0). Qed.

Lemma map_snd_labelled {A B} (f : A -> B) (xs : list A) (n : Z) :
  map (fun p => f (snd p)) (labelled n xs) = map f xs.
Proof.
  unfold labelled. revert n.
  induction xs as [| x xs IH]; intros n; simpl; [| rewrite IH]; reflexivity.
Qed.

Lemma labelled_length {A} (xs : list A) (n : Z) :
  length (labelled n xs) = length xs.
Proof.
  unfold labelled. revert n.
  induction xs as [| x xs IH]; intros n; simpl; [| rewrite IH]; reflexivity.
Qed.

Lemma mapM_map_Ok {A B C} (f : B -> result C) (g : A -> B) (h : A -> C)
  (l : list A) :
  Forall (fun x => f (g x) = Ok (h x)) l ->
  mapM f (map g l) = Ok (map h l).
Proof.
  induction 1 as [| x l Hx _ IH]; simpl; [reflexivity |].
  rewrite Hx. simpl. rewrite IH. reflexivity.
Qed.

Lemma mapM_map_Raise {A B C} (f : B -> result C) (g : A -> B) (e : exn)
  (l : list A) :
  Forall (fun x => f (g x) = Raise e \/ exists y, f (g x) = Ok y) l ->
  Exists (fun x => f (g x) = Raise e) l ->
  mapM f (map g l) = Raise e.
Proof.
  induction 1 as [| x l Hx Hl IH]; intros Hex; [inversion Hex |].
  simpl. destruct Hx as [Hx | [y Hx]]; rewrite Hx; simpl; [reflexivity |].
  inversion Hex as [? ? H0 | ? ? H0]; subst; [congruence |].
  rewrite (IH H0). reflexivity.
Qed.

(** ** The OHLC table *)

Lemma ohlc_table_in_bounds (candles : list Candle.t) :
  Forall candle_in_bounds candles ->
  ohlc_table candles
  = Ok {| columns := ["open"; "high"; "low"; "close"];
          rows := map candle_row candles |}.
Proof.
  intros Hb. unfold ohlc_table, Pandas.from_rows.
  rewrite with_range_index_map.
  unfold Pandas.getitem. simpl. rewrite map_map.
  unfold Series.to_datetime.
  rewrite (mapM_map_Ok _ _
             (fun p => CTime (datetime_of_ms (Candle.timestamp (snd p))))).
  2:{ apply Forall_forall. intros [n c] Hin. simpl.
      rewrite to_datetime_in_bounds; [reflexivity |].
      rewrite Forall_forall in Hb. apply Hb.
      unfold labelled in Hin. apply elem_of_zip_r in Hin. exact Hin. }
  simpl. unfold Pandas.setitem. simpl.
  rewrite !length_map, Nat.eqb_refl. simpl.
  rewrite zip_with_map_same. unfold Pandas.set_index. simpl.
  rewrite map_map. simpl.
  rewrite (map_snd_labelled candle_row). reflexivity.
Qed.

Lemma ohlc_table_out_of_bounds (candles : list Candle.t) :
  ~ Forall candle_in_bounds candles ->
  ohlc_table candles = Raise OutOfBoundsDatetime.
Proof.
  intros Hb. unfold ohlc_table, Pandas.from_rows.
  rewrite with_range_index_map.
  unfold Pandas.getitem. simpl. rewrite map_map.
  unfold Series.to_datetime.
  rewrite (mapM_map_Raise _ _ OutOfBoundsDatetime); [reflexivity | |].
  - apply Forall_forall. intros [n c] _. simpl.
    unfold Timestamp.to_datetime.
    destruct (Timestamp.in_bounds (Candle.timestamp c)); simpl; eauto.
  - apply not_Forall_Exists in Hb; [| intros c; unfold candle_in_bounds;
      destruct (Timestamp.in_bounds (Candle.timestamp c)); [left | right];
      congruence].
    apply Exists_exists in Hb as [c [Hin Hc]].
    apply Exists_exists.
    assert (Hl : c ∈ map snd (labelled 0 candles)).
    { rewrite (map_snd_labelled (fun x => x)), List.map_id. exact Hin. }
    apply list_elem_of_In, in_map_iff in Hl as [[n c'] [Hc' Hin']].
    simpl in Hc'. subst c'. exists (n, c).
    split; [apply list_elem_of_In; exact Hin' |].
    simpl. rewrite to_datetime_out_of_bounds; [reflexivity |].
    unfold compose, candle_in_bounds in Hc.
    destruct (Timestamp.in_bounds (Candle.timestamp c)); congruence.
Qed.

Lemma index_times_candle_rows (candles : list Candle.t) (cols : list string) :
  index_times {| columns := cols; rows := map candle_row candles |}
  = map (fun c => Candle.timestamp c * Timestamp.ns_per_ms) candles.
Proof.
  unfold index_times. simpl.
  induction candles as [| c l IH]; simpl; [| rewrite IH]; reflexivity.
Qed.

Lemma ascending_scaled (l : list Z) :
  ascending (map (fun x => x * Timestamp.ns_per_ms) l) = ascending l.
Proof.
  induction l as [| x [| y l] IH]; [reflexivity | reflexivity |].
  change (ascending (x :: y :: l))
    with ((x <=? y) && ascending (y :: l)).
  rewrite <- IH. simpl map.
  change (ascending (x * Timestamp.ns_per_ms :: y * Timestamp.ns_per_ms
                     :: map (fun x => x * Timestamp.ns_per_ms) l))
    with ((x * Timestamp.ns_per_ms <=? y * Timestamp.ns_per_ms)
          && ascending (y * Timestamp.ns_per_ms
                        :: map (fun x => x * Timestamp.ns_per_ms) l)).
  f_equal. unfold Timestamp.ns_per_ms.
  destruct (Z.leb_spec x y), (Z.leb_spec (x * 1000000) (y * 1000000));
    try reflexivity; lia.
Qed.

(** C5, as amended. A successful OHLC fetch whose timestamps pandas can
    represent returns a table whose index lists the points in the order of
    the upstream rows; it is ascending exactly when the upstream rows are. *)
Theorem ohlc_index_follows_upstream_order (w : World) (c : string) (d : Z)
  (s : State) :
  let response := ohlc_endpoint w (length (requests s)) (ohlc_request w c d) in
  status_code response = 200 ->
  Forall candle_in_bounds (json response) ->
  exists df,
    fst (run (get_ohlc_data w c d) s) = Ok df
    /\ map label (rows df)
       = map (fun k => CTime (datetime_of_ms (Candle.timestamp k)))
           (json response)
    /\ index_ascending df = ascending (map Candle.timestamp (json response)).
Proof.
  intros response Hst Hb.
  exists {| columns := ["open"; "high"; "low"; "close"];
            rows := map candle_row (json response) |}.
  split; [| split].
  - unfold get_ohlc_data. rewrite run_bind. simpl.
    fold response. rewrite Hst. simpl.
    rewrite (ohlc_table_in_bounds _ Hb). reflexivity.
  - simpl. rewrite map_map. reflexivity.
  - unfold index_ascending. rewrite index_times_candle_rows.
    rewrite <- (map_map Candle.timestamp (fun x => x * Timestamp.ns_per_ms)).
    apply ascending_scaled.
Qed.

Lemma ohlc_index_follows_upstream_order_witness :
  exists df,
    fst (run (get_ohlc_data (sample_world 200 [] candles_newest_first None)
                "bitcoin" 30) initial) = Ok df
    /\ map label (rows df)
       = [CTime (datetime_of_ms 1700003600000);
          CTime (datetime_of_ms 1700000000000)]
    /\ index_ascending df = false.
Proof.
  apply (ohlc_index_follows_upstream_order
           (sample_world 200 [] candles_newest_first None) "bitcoin" 30 initial).
  - reflexivity.
  - repeat constructor.
Defined.

(** C5 as stated does not hold: the service may send the rows newest
    first, and the table returned then has a descending index. *)
Lemma ohlc_index_not_ascending :
  index_ascending
    <$> fst (run (get_ohlc_data (sample_world 200 [] candles_newest_first None)
                    "bitcoin" 30) initial)
  = Ok false.
Proof. vm_compute. reflexivity. Qed.

(** ** Invariants of scripts *)

Section Preservation.

Variable I : State -> Prop.

Lemma preserves_ret {A} (a : A) : preserves I (mret a).
Proof. intros s Hs. exact Hs. Qed.

Lemma preserves_lift {A} (m : result A) : preserves I (lift m).
Proof. intros s Hs. exact Hs. Qed.

Lemma preserves_load (r : nat) : preserves I (load r).
Proof. intros s Hs. exact Hs. Qed.

Lemma preserves_bind {A B} (m : M A) (k : A -> M B) :
  preserves I m -> (forall a, preserves I (k a)) -> preserves I (m ≫= k).
Proof.
  intros Hm Hk s Hs. rewrite run_bind. specialize (Hm s Hs).
  destruct (run m s) as [[a | e] s']; simpl in *.
  - apply Hk. exact Hm.
  - exact Hm.
Qed.

Lemma preserves_for_each {A} (xs : list A) (body : A -> M unit) :
  (forall x, preserves I (body x)) -> preserves I (for_each xs body).
Proof.
  intros Hbody. induction xs as [| x xs IH]; simpl.
  - apply preserves_ret.
  - apply preserves_bind; [apply Hbody | intros _; exact IH].
Qed.

End Preservation.

(** Structural steps of a preservation proof; what is left are the
    primitives that touch the state. *)
Ltac preserve_step :=
  lazymatch goal with
  | |- preserves _ (@mret M _ _ _) => apply preserves_ret
  | |- preserves _ (lift _) => apply preserves_lift
  | |- preserves _ (load _) => apply preserves_load
  | |- preserves _ (for_each _ _) => apply preserves_for_each; intros ?
  | |- preserves _ (@mbind M _ _ _ _ _) => apply preserves_bind; [| intros ?]
  | |- preserves _ (if ?b then _ else _) => destruct b
  | |- preserves _ (match ?x with _ => _ end) => destruct x
  end.

(** ** The market-chart endpoint is never called *)

Lemma draw_without_market_chart c x : preserves without_market_chart (draw c x).
Proof. intros s Hs. exact Hs. Qed.

Lemma new_without_market_chart df : preserves without_market_chart (new df).
Proof. intros s Hs. exact Hs. Qed.

Lemma store_without_market_chart r df :
  preserves without_market_chart (store r df).
Proof. intros s Hs. exact Hs. Qed.

Lemma requests_get_without_market_chart {A}
  (serve : nat -> Request -> Response A) (req : Request) :
  calls_market_chart req = false ->
  preserves without_market_chart (requests_get serve req).
Proof.
  intros Hreq s Hs. unfold without_market_chart in *. simpl.
  apply Forall_app. split; [exact Hs |]. constructor; [exact Hreq | constructor].
Qed.

Ltac quiet_step :=
  lazymatch goal with
  | |- preserves _ (draw _ _) => apply draw_without_market_chart
  | |- preserves _ (new _) => apply new_without_market_chart
  | |- preserves _ (store _ _) => apply store_without_market_chart
  | |- preserves _ (requests_get _ _) =>
      apply requests_get_without_market_chart; reflexivity
  end.

Ltac quiet := repeat first [preserve_step | quiet_step].

Lemma get_top_coins_without_market_chart w n :
  preserves without_market_chart (get_top_coins w n).
Proof. unfold get_top_coins. quiet. Qed.

Lemma get_ohlc_data_without_market_chart w c d :
  preserves without_market_chart (get_ohlc_data w c d).
Proof. unfold get_ohlc_data. quiet. Qed.

Lemma tab1_without_market_chart w choice :
  preserves without_market_chart (tab1 w choice).
Proof.
  unfold tab1, select_days, candlestick_chart. quiet.
  apply get_ohlc_data_without_market_chart.
Qed.

Lemma tab2_without_market_chart r choice :
  preserves without_market_chart (tab2 r choice).
Proof. unfold tab2. quiet. Qed.

Lemma tab3_without_market_chart r choice :
  preserves without_market_chart (tab3 r choice).
Proof. unfold tab3. quiet. Qed.

Lemma sidebar_overview_without_market_chart r :
  preserves without_market_chart (sidebar_overview r).
Proof. unfold sidebar_overview, sidebar_metric. quiet. Qed.

Lemma sidebar_filter_without_market_chart w r :
  preserves without_market_chart (sidebar_filter w r).
Proof. unfold sidebar_filter. quiet. Qed.

Lemma render_without_market_chart w :
  preserves without_market_chart (render w).
Proof.
  unfold render. quiet.
  - apply get_top_coins_without_market_chart.
  - apply sidebar_overview_without_market_chart.
  - apply sidebar_filter_without_market_chart.
  - apply tab1_without_market_chart.
  - apply tab2_without_market_chart.
  - apply tab3_without_market_chart.
Qed.

(** When it is called, the wrapper does reach the endpoint: the property
    below is about the page, not about the log. *)
Lemma get_market_chart_is_logged w c d s :
  requests (snd (run (get_market_chart w c d) s))
  = requests s ++ [market_chart_request w c d]
  /\ calls_market_chart (market_chart_request w c d) = true.
Proof.
  split; [| reflexivity].
  unfold get_market_chart. rewrite run_bind. simpl.
  destruct (Z.eqb _ 200); reflexivity.
Qed.

(** C10. Whatever the selection and whatever the service answers, a render
    of the page issues no request to the market-chart endpoint, and its
    outcome does not depend on what that endpoint would answer. *)
Theorem render_never_calls_market_chart (w : World) :
  Forall (fun r => calls_market_chart r = false)
    (requests (snd (run (render w) initial)))
  /\ (forall serve,
        run (render (with_market_chart w serve)) initial
        = run (render w) initial).
Proof.
  split.
  - apply (render_without_market_chart w initial). constructor.
  - intros serve. reflexivity.
Qed.

(** ** Running a script step by step *)

Lemma run_ret {A} (a : A) s : run (mret a) s = (Ok a, s).
Proof. reflexivity. Qed.

Lemma run_lift {A} (m : result A) s : run (lift m) s = (m, s).
Proof. reflexivity. Qed.

Lemma run_draw c x s :
  run (draw c x) s
  = (Ok tt, {| requests := requests s; display := display s ++ [(c, x)];
               heap := heap s |}).
Proof. reflexivity. Qed.

Lemma run_new df s :
  run (new df) s
  = (Ok (length (heap s)),
     {| requests := requests s; display := display s;
        heap := heap s ++ [df] |}).
Proof. reflexivity. Qed.

Lemma run_load r s : run (load r) s = (Ok (nth r (heap s) Pandas.empty_frame), s).
Proof. reflexivity. Qed.

Lemma run_store r df s :
  run (store r df) s
  = (Ok tt, {| requests := requests s; display := display s;
               heap := <[r := df]> (heap s) |}).
Proof. reflexivity. Qed.

(** One step of a script: the first command of a sequence is run and the
    state is put in normal form. *)
Ltac step :=
  rewrite run_bind;
  first [ rewrite run_draw | rewrite run_new | rewrite run_load
        | rewrite run_store | rewrite run_lift | rewrite run_ret ];
  cbn [requests display heap initial fst snd].

(** ** An empty summary *)

Lemma get_top_coins_run w n s :
  run (get_top_coins w n) s
  = (Ok (let response :=
           markets_endpoint w (length (requests s)) (markets_request w n) in
         if status_code response =? 200
         then Pandas.from_records Coin.fields (map Coin.cells (json response))
         else Pandas.empty_frame),
     {| requests := requests s ++ [markets_request w n];
        display := display s;
        heap := heap s |}).
Proof.
  unfold get_top_coins. rewrite run_bind. simpl.
  destruct (Z.eqb _ 200); reflexivity.
Qed.

(** On a table without columns the sidebar overview draws nothing and
    returns, by its guard; the coin filter, the bubble tab and the volume tab
    each index the table first and raise. *)
Lemma views_of_an_empty_table (w : World) (r : nat)
  (coin_choice : list string) (s : State) :
  nth r (heap s) Pandas.empty_frame = Pandas.empty_frame ->
  run (sidebar_overview r) s = (Ok tt, s)
  /\ fst (run (sidebar_filter w r) s) = Raise (KeyError "id")
  /\ fst (run (tab2 r coin_choice) s) = Raise (KeyError "id")
  /\ fst (run (tab3 r coin_choice) s) = Raise (KeyError "total_volume").
Proof.
  intros Hr. repeat split.
  - unfold sidebar_overview. rewrite run_bind, run_load, Hr. reflexivity.
  - unfold sidebar_filter. step. step. rewrite run_bind, run_load.
    cbn [heap]. rewrite Hr. reflexivity.
  - unfold tab2. step. rewrite run_bind, run_load. cbn [heap]. rewrite Hr.
    reflexivity.
  - unfold tab3. rewrite run_bind, run_load, Hr. reflexivity.
Qed.

(** C1 does not hold of the code. When the markets call does not answer
    [200], or answers with an empty list, the table has no column, and the
    coin filter of lines 105-106 raises [KeyError] on [df_top5["id"]]: the
    page stops before any tab is drawn.  On such a table the bubble tab and
    the volume tab raise as well, at lines 150 and 204. *)
Theorem empty_summary_raises (w : World) :
  (let response := markets_endpoint w 0 (markets_request w 5) in
   status_code response <> 200 \/ json response = [] ->
   run (render w) initial
   = (Raise (KeyError "id"),
      {| requests := [markets_request w 5];
         display :=
           [(Page, set_page_config "Crypto Dashboard" "wide");
            (Page, title "Crypto Market Dashboard");
            (Sidebar, title "Coin Filters");
            (Sidebar, markdown "Select one or more coins to visualize their market trends, trading volume, etc.")];
         heap := [Pandas.empty_frame] |}))
  /\ (forall (r : nat) (coin_choice : list string) (s : State),
        nth r (heap s) Pandas.empty_frame = Pandas.empty_frame ->
        fst (run (sidebar_filter w r) s) = Raise (KeyError "id")
        /\ fst (run (tab2 r coin_choice) s) = Raise (KeyError "id")
        /\ fst (run (tab3 r coin_choice) s) = Raise (KeyError "total_volume")).
Proof.
  split.
  - intros response Hempty.
    assert (Hdf : (if status_code response =? 200
                   then Pandas.from_records Coin.fields
                          (map Coin.cells (json response))
                   else Pandas.empty_frame) = Pandas.empty_frame).
    { destruct Hempty as [Hst | Hjs].
      - destruct (Z.eqb_spec (status_code response) 200); [contradiction |].
        reflexivity.
      - rewrite Hjs. destruct (status_code response =? 200); reflexivity. }
    unfold render. step. step. rewrite 2 run_bind, get_top_coins_run.
    cbn [requests display heap initial length]. fold response. rewrite Hdf.
    reflexivity.
  - intros r coin_choice s Hr.
    apply (views_of_an_empty_table w r coin_choice s Hr).
Qed.

Lemma empty_summary_raises_witness :
  fst (run (render world_down) initial) = Raise (KeyError "id")
  /\ fst (run (tab2 0 []) (snd (run (new Pandas.empty_frame) initial)))
     = Raise (KeyError "id").
Proof.
  split.
  - rewrite (proj1 (empty_summary_raises world_down)); [reflexivity |].
    left. discriminate.
  - apply (proj2 (empty_summary_raises world_down) 0%nat []
             (snd (run (new Pandas.empty_frame) initial))).
    reflexivity.
Defined.

(** ** The summary table and the sidebar *)

Lemma from_records_coins (coins : list Coin.t) :
  coins <> [] ->
  Pandas.from_records Coin.fields (map Coin.cells coins)
  = coin_table (labelled 0 coins).
Proof.
  intros Hne. destruct coins as [| c coins]; [contradiction |].
  unfold Pandas.from_records, coin_table.
  change (map Coin.cells (c :: coins)) with (Coin.cells c :: map Coin.cells coins)
    at 1.
  cbv iota. f_equal. apply with_range_index_map.
Qed.

Lemma shows_nil s : shows s [] = s.
Proof. destruct s. unfold shows. simpl. rewrite app_nil_r. reflexivity. Qed.

Lemma shows_shows s ws1 ws2 : shows (shows s ws1) ws2 = shows s (ws1 ++ ws2).
Proof. unfold shows. simpl. rewrite app_assoc. reflexivity. Qed.

Lemma run_draw_shows c x s : run (draw c x) s = (Ok tt, shows s [(c, x)]).
Proof. reflexivity. Qed.

Lemma sidebar_metric_run (p : Z * Coin.t) (s : State) :
  run (sidebar_metric Coin.fields (coin_row p)) s
  = (Ok tt, shows s [(Sidebar, metric_of (snd p))]).
Proof. reflexivity. Qed.

Lemma sidebar_metrics_run (lcs : list (Z * Coin.t)) (s : State) :
  run (for_each (map coin_row lcs) (sidebar_metric Coin.fields)) s
  = (Ok tt, shows s (map (fun p => (Sidebar, metric_of (snd p))) lcs)).
Proof.
  revert s. induction lcs as [| p lcs IH]; intros s.
  - simpl. rewrite shows_nil. reflexivity.
  - change (map coin_row (p :: lcs)) with (coin_row p :: map coin_row lcs).
    cbn [for_each]. rewrite run_bind, sidebar_metric_run, IH, shows_shows.
    reflexivity.
Qed.

Lemma sidebar_overview_run (r : nat) (lcs : list (Z * Coin.t)) (s : State) :
  lcs <> [] ->
  nth r (heap s) Pandas.empty_frame = coin_table lcs ->
  run (sidebar_overview r) s = (Ok tt, shows s (overview_widgets lcs)).
Proof.
  intros Hne Hr. unfold sidebar_overview.
  rewrite run_bind, run_load, Hr.
  destruct lcs as [| p lcs]; [contradiction |].
  cbn [coin_table Pandas.empty columns rows map negb Coin.fields].
  rewrite run_bind, run_draw_shows, run_bind, run_draw_shows, run_bind.
  change (coin_row p :: map coin_row lcs) with (map coin_row (p :: lcs)).
  rewrite sidebar_metrics_run, run_draw_shows, !shows_shows. reflexivity.
Qed.

Lemma sidebar_filter_run (w : World) (r : nat) (p : Z * Coin.t)
  (lcs : list (Z * Coin.t)) (s : State) :
  nth r (heap s) Pandas.empty_frame = coin_table (p :: lcs) ->
  run (sidebar_filter w r) s
  = (Ok (chosen w (snd p)), shows s (filter_widgets (p :: lcs) (snd p))).
Proof.
  intros Hr. unfold sidebar_filter.
  rewrite run_bind, run_draw_shows, run_bind, run_draw_shows.
  rewrite run_bind, run_load. cbn [shows heap]. rewrite Hr.
  unfold coin_table, Pandas.getitem. cbn [columns rows Pandas.position Coin.fields
    String.eqb Ascii.eqb Bool.eqb fmap option_fmap option_map].
  rewrite map_map, run_bind, run_lift.
  change (mbind first_item (Ok ?l)) with (first_item l).
  cbn [map first_item]. rewrite run_bind, run_lift, run_bind, run_draw_shows.
  rewrite !shows_shows.
  unfold chosen. destruct (coin_selection w); reflexivity.
Qed.

(** ** The bubble tab *)

Lemma select_map {A B} (f : A -> B) (l : list A) (mask : list bool) :
  Pandas.select (map f l) mask = map f (Pandas.select l mask).
Proof.
  revert mask. induction l as [| x l IH]; intros [| b mask]; simpl;
    try reflexivity.
  destruct b; simpl; rewrite IH; reflexivity.
Qed.

Lemma mapM_map_total {A B C} (f : B -> result C) (g : A -> B) (l : list A) :
  (forall x, exists y, f (g x) = Ok y) ->
  exists ys, mapM f (map g l) = Ok ys /\ length ys = length l.
Proof.
  intros Hf. induction l as [| x l [ys [IH Hlen]]]; simpl.
  - exists []. split; reflexivity.
  - destruct (Hf x) as [y Hy]. exists (y :: ys). rewrite Hy. simpl.
    rewrite IH. simpl. split; [reflexivity | congruence].
Qed.

Lemma getitem_coin_table (lcs : list (Z * Coin.t)) (col : string) (k : nat) :
  Pandas.position col Coin.fields = Some k ->
  Pandas.getitem (coin_table lcs) col
  = Ok (map (fun p => nth k (Coin.cells (snd p)) (CFloat Pandas.nan)) lcs).
Proof.
  intros Hk. unfold Pandas.getitem, coin_table. cbn [columns rows].
  rewrite Hk, map_map. reflexivity.
Qed.

Lemma colors_fold_is_Some (l : list string) (start : nat)
  (d : gmap string string) (c : string) :
  c ∈ l \/ is_Some (d !! c) ->
  is_Some (fold_left
    (fun (d : gmap string string) (p : nat * string) =>
       <[snd p := nth (fst p mod length custom_colors) custom_colors ""]> d)
    (enumerate_from start l) d !! c).
Proof.
  revert start d. induction l as [| x l IH]; intros start d Hc; simpl.
  - destruct Hc as [Hc | Hc]; [inversion Hc | exact Hc].
  - apply IH. destruct Hc as [Hc | Hc].
    + apply elem_of_cons in Hc as [-> | Hc]; [right | left; exact Hc].
      simpl. rewrite lookup_insert_eq. eauto.
    + right. simpl. rewrite lookup_insert. case_decide; eauto.
Qed.

Lemma dict_getitem_colors (ids : list string) (c : string) :
  c ∈ ids -> exists v, dict_getitem (colors ids) c = Ok v.
Proof.
  intros Hc.
  destruct (colors_fold_is_Some ids 0 ∅ c (or_introl Hc)) as [v Hv].
  exists v. unfold dict_getitem, colors, enumerate. rewrite Hv. reflexivity.
Qed.

Lemma mapM_total {A B} (f : A -> result B) (l : list A) :
  (forall x, x ∈ l -> exists y, f x = Ok y) ->
  exists ys, mapM f l = Ok ys.
Proof.
  induction l as [| x l IH]; intros Hf.
  - exists []. reflexivity.
  - destruct (Hf x) as [y Hy]; [left |].
    destruct IH as [ys IH]; [intros; apply Hf; right; assumption |].
    exists (y :: ys). simpl. rewrite Hy. simpl. rewrite IH. reflexivity.
Qed.

Lemma colors_total (ids : list string) :
  exists cs, mapM (dict_getitem (colors ids)) ids = Ok cs.
Proof. apply mapM_total. intros c Hc. apply dict_getitem_colors, Hc. Qed.

Lemma series_max_total (x : float) (xs : list float) :
  exists m, Series.max (x :: xs) = Ok m.
Proof. eexists. reflexivity. Qed.

Lemma bubbles_unselected (lcs : list (Z * Coin.t)) : bubbles lcs [] = [].
Proof.
  unfold bubbles, Pandas.isin. rewrite map_map. simpl.
  induction lcs as [| p lcs IH]; simpl; [| rewrite IH]; reflexivity.
Qed.

Lemma mask_coin_table (lcs : list (Z * Coin.t)) (coin_choice : list string) :
  Pandas.copy
    (Pandas.mask_rows (coin_table lcs)
       (Pandas.isin (map (fun p => CStr (Coin.id (snd p))) lcs) coin_choice))
  = coin_table (bubbles lcs coin_choice).
Proof.
  unfold Pandas.copy, Pandas.mask_rows, coin_table, bubbles. cbn [columns rows].
  rewrite select_map. reflexivity.
Qed.

Lemma tab2_run (r : nat) (lcs : list (Z * Coin.t)) (coin_choice : list string)
  (s : State) :
  nth r (heap s) Pandas.empty_frame = coin_table lcs ->
  exists x,
    run (tab2 r coin_choice) s = (Ok tt, shows s (tab2_heading ++ [(Tab2, x)]))
    /\ (bubbles lcs coin_choice = [] ->
        x = info "Please select at least one coin to view bubble chart.")
    /\ (bubbles lcs coin_choice <> [] -> exists fig, x = plotly_chart fig).
Proof.
  intros Hr. unfold tab2.
  rewrite run_bind, run_draw_shows, run_bind, run_load. cbn [shows heap].
  rewrite Hr, run_bind, (getitem_coin_table lcs "id" 0 eq_refl), run_lift.
  cbn [nth Coin.cells]. rewrite mask_coin_table. cbv zeta.
  rewrite run_bind, run_draw_shows, shows_shows.
  destruct (bubbles lcs coin_choice) as [| p sub] eqn:Hsub.
  - eexists. split; [| split]; [| reflexivity | congruence].
    cbn [coin_table Pandas.empty columns rows map negb Coin.fields].
    rewrite run_draw_shows, shows_shows. reflexivity.
  - change (negb (Pandas.empty (coin_table (p :: sub)))) with true. cbv iota.
    rewrite !(getitem_coin_table (p :: sub) "id" 0 eq_refl).
    rewrite (getitem_coin_table (p :: sub) "market_cap" 4 eq_refl).
    rewrite (getitem_coin_table (p :: sub) "current_price" 3 eq_refl).
    rewrite (getitem_coin_table (p :: sub) "symbol" 2 eq_refl).
    rewrite !(getitem_coin_table (p :: sub) "total_volume" 5 eq_refl).
    cbn [nth Coin.cells].
    change (mbind ?k (Ok ?a)) with (k a). cbv beta.
    rewrite (mapM_map_Ok Pandas.as_str _ (fun q => Coin.id (snd q)))
      by (apply Forall_forall; reflexivity).
    rewrite (mapM_map_Ok (fun c => Str.upper <$> Pandas.as_str c) _
               (fun q => Str.upper (Coin.symbol (snd q))))
      by (apply Forall_forall; reflexivity).
    rewrite (mapM_map_Ok Pandas.as_float _
               (fun q => Coin.total_volume (snd q)))
      by (apply Forall_forall; reflexivity).
    change (mbind ?k (Ok ?a)) with (k a). cbv beta.
    destruct (mapM_map_total (hover_text Coin.fields) coin_row (p :: sub))
      as [hover [Hhover _]]; [intros q; eexists; reflexivity |].
    destruct (series_max_total (Coin.total_volume (snd p))
                (map (fun q => Coin.total_volume (snd q)) sub)) as [m Hm].
    destruct (colors_total (map (fun q => Coin.id (snd q)) (p :: sub)))
      as [cs Hcs].
    cbn [coin_table columns rows]. 
    rewrite run_bind, run_lift, run_bind, run_lift, Hhover.
    rewrite run_bind, run_lift, run_bind, run_lift, run_bind, run_lift.
    rewrite run_bind, run_lift, run_bind, run_lift.
    change (map (fun q => Coin.total_volume (snd q)) (p :: sub))
      with (Coin.total_volume (snd p)
            :: map (fun q => Coin.total_volume (snd q)) sub).
    rewrite Hm, run_bind, run_lift, Hcs, run_draw_shows, shows_shows.
    eexists. split; [reflexivity |]. split; [congruence | eauto].
Qed.

(** ** Sorting *)

Section SortingFacts.

Context {A B : Type} (key : B -> float) (g : A -> B).

Lemma insert_map (x : A) (l : list A) :
  Sorting.insert key (g x) (map g l)
  = map g (Sorting.insert (fun a => key (g a)) x l).
Proof.
  induction l as [| y l IH]; simpl; [reflexivity |].
  destruct (PrimFloat.ltb (key (g y)) (key (g x))); simpl;
    [rewrite IH |]; reflexivity.
Qed.

Lemma sort_ascending_map (l : list A) :
  Sorting.sort_ascending key (map g l)
  = map g (Sorting.sort_ascending (fun a => key (g a)) l).
Proof.
  unfold Sorting.sort_ascending.
  induction l as [| x l IH]; simpl; [reflexivity |].
  rewrite IH. apply insert_map.
Qed.

Lemma sort_descending_map (l : list A) :
  Sorting.sort_descending key (map g l)
  = map g (Sorting.sort_descending (fun a => key (g a)) l).
Proof.
  unfold Sorting.sort_descending.
  rewrite <- map_rev, sort_ascending_map, map_rev. reflexivity.
Qed.

Lemma filter_map_commute (P : B -> bool) (l : list A) :
  List.filter P (map g l) = map g (List.filter (fun a => P (g a)) l).
Proof.
  induction l as [| x l IH]; simpl; [reflexivity |].
  destruct (P (g x)); simpl; rewrite IH; reflexivity.
Qed.

End SortingFacts.

Section SortingPermutation.

Context {A : Type} (key : A -> float).

Lemma insert_permutation (x : A) (l : list A) :
  Permutation (Sorting.insert key x l) (x :: l).
Proof.
  induction l as [| y l IH]; simpl; [reflexivity |].
  destruct (PrimFloat.ltb (key y) (key x)); [| reflexivity].
  rewrite IH. apply perm_swap.
Qed.

Lemma sort_ascending_permutation (l : list A) :
  Permutation (Sorting.sort_ascending key l) l.
Proof.
  unfold Sorting.sort_ascending.
  induction l as [| x l IH]; simpl; [reflexivity |].
  rewrite insert_permutation, IH. reflexivity.
Qed.

Lemma sort_descending_permutation (l : list A) :
  Permutation (Sorting.sort_descending key l) l.
Proof.
  unfold Sorting.sort_descending.
  rewrite <- Permutation_rev, sort_ascending_permutation, <- Permutation_rev.
  reflexivity.
Qed.

Lemma filter_split_permutation (P : A -> bool) (l : list A) :
  Permutation (List.filter (fun a => negb (P a)) l ++ List.filter P l) l.
Proof.
  induction l as [| x l IH]; simpl; [reflexivity |].
  destruct (P x); simpl.
  - rewrite <- Permutation_middle, IH. reflexivity.
  - rewrite IH. reflexivity.
Qed.

End SortingPermutation.

Lemma by_share_permutation (total : float) (lcs : list (Z * Coin.t)) :
  Permutation (by_share total lcs) lcs.
Proof.
  unfold by_share. rewrite sort_descending_permutation.
  apply (filter_split_permutation
           (fun p => Float64.is_nan (share total (snd p)))).
Qed.

(** ** Sorted output *)

Lemma SFcompare_antisym (x y : spec_float) :
  SFcompare y x = option_map CompOpp (SFcompare x y).
Proof.
  destruct x as [sx | sx | | sx mx ex], y as [sy | sy | | sy my ey];
    try reflexivity;
    try (destruct sx; reflexivity);
    try (destruct sy; reflexivity);
    try (destruct sx, sy; reflexivity).
  unfold SFcompare.
  assert (Hm : Pos.compare_cont Eq my mx = CompOpp (Pos.compare_cont Eq mx my))
    by (rewrite Pos.compare_cont_antisym; reflexivity).
  rewrite (Z.compare_antisym ex ey), Hm.
  destruct sx, sy; try reflexivity;
    destruct (ex ?= ey); simpl; try reflexivity.
Qed.

Lemma ltb_asym (x y : float) :
  PrimFloat.ltb x y = true -> PrimFloat.ltb y x = false.
Proof.
  rewrite !ltb_spec. unfold SFltb.
  rewrite (SFcompare_antisym (Prim2SF x) (Prim2SF y)).
  destruct (SFcompare (Prim2SF x) (Prim2SF y)) as [[ | | ] |]; simpl;
    congruence.
Qed.

Lemma chain_cons {A} (R : A -> A -> bool) (x : A) (l : list A) :
  chain R (x :: l)
  = match l with [] => true | y :: _ => R x y end && chain R l.
Proof. destruct l; reflexivity. Qed.

Lemma chain_snoc {A} (R : A -> A -> bool) (l : list A) (x : A) :
  chain R (l ++ [x])
  = chain R l && match rev l with [] => true | y :: _ => R y x end.
Proof.
  induction l as [| a l IH]; [reflexivity |].
  change ((a :: l) ++ [x]) with (a :: (l ++ [x])).
  rewrite !chain_cons, IH. cbn [rev].
  destruct l as [| b l]; [cbn; destruct (R a x); reflexivity |].
  cbn [app]. destruct (R a b); cbn [andb]; [| reflexivity].
  f_equal. cbn [rev].
  destruct (rev l ++ [b]) as [| c r] eqn:E; [| reflexivity].
  destruct (rev l); discriminate E.
Qed.

Lemma chain_rev {A} (R : A -> A -> bool) (l : list A) :
  chain R (rev l) = chain (fun x y => R y x) l.
Proof.
  induction l as [| a l IH]; [reflexivity |].
  cbn [rev]. rewrite chain_snoc, IH, rev_involutive, chain_cons.
  apply andb_comm.
Qed.

Lemma chain_map {A B} (R : B -> B -> bool) (f : A -> B) (l : list A) :
  chain R (map f l) = chain (fun x y => R (f x) (f y)) l.
Proof.
  induction l as [| a [| b l] IH]; [reflexivity | reflexivity |].
  change (map f (a :: b :: l)) with (f a :: f b :: map f l).
  change (chain R (f a :: f b :: map f l))
    with (R (f a) (f b) && chain R (map f (b :: l))).
  rewrite IH. reflexivity.
Qed.

Section SortingOrder.

Context {A : Type} (key : A -> float).

Lemma insert_chain (x : A) (l : list A) :
  chain (fun a b => negb (PrimFloat.ltb (key b) (key a))) l = true ->
  chain (fun a b => negb (PrimFloat.ltb (key b) (key a)))
    (Sorting.insert key x l) = true.
Proof.
  induction l as [| y r IH]; intros Hl; [reflexivity |].
  cbn [Sorting.insert].
  destruct (PrimFloat.ltb (key y) (key x)) eqn:Hyx.
  - rewrite chain_cons in Hl |- *.
    apply andb_prop in Hl as [Hhd Htl]. rewrite (IH Htl), andb_true_r.
    destruct r as [| z r]; cbn [Sorting.insert].
    + rewrite (ltb_asym _ _ Hyx). reflexivity.
    + destruct (PrimFloat.ltb (key z) (key x)); [exact Hhd |].
      rewrite (ltb_asym _ _ Hyx). reflexivity.
  - rewrite chain_cons, Hyx, Hl. reflexivity.
Qed.

Lemma sort_ascending_chain (l : list A) :
  chain (fun a b => negb (PrimFloat.ltb (key b) (key a)))
    (Sorting.sort_ascending key l) = true.
Proof.
  unfold Sorting.sort_ascending.
  induction l as [| x l IH]; [reflexivity |]. cbn [fold_right].
  apply insert_chain, IH.
Qed.

Lemma sort_descending_descending (l : list A) :
  descending (map key (Sorting.sort_descending key l)) = true.
Proof.
  unfold descending, Sorting.sort_descending.
  rewrite chain_map, chain_rev. apply sort_ascending_chain.
Qed.

End SortingOrder.

Lemma by_share_order (total : float) (lcs : list (Z * Coin.t)) :
  exists sorted nans,
    by_share total lcs = sorted ++ nans
    /\ descending (map (fun p => share total (snd p)) sorted) = true
    /\ Forall (fun p => Float64.is_nan (share total (snd p)) = false) sorted
    /\ Forall (fun p => Float64.is_nan (share total (snd p)) = true) nans.
Proof.
  unfold by_share. eexists _, _. split; [reflexivity |].
  split; [apply (sort_descending_descending (fun p => share total (snd p))) |].
  split.
  - apply Forall_forall. intros p Hp. apply list_elem_of_In in Hp.
    apply (Permutation_in _
             (sort_descending_permutation (fun p => share total (snd p)) _))
      in Hp.
    apply filter_In in Hp as [_ Hp]. apply negb_true_iff, Hp.
  - apply Forall_forall. intros p Hp. apply list_elem_of_In in Hp.
    apply filter_In in Hp as [_ Hp]. exact Hp.
Qed.

(** ** The volume tab *)

Lemma volume_share_coins (lcs : list (Z * Coin.t)) :
  Series.volume_share (map (fun p => Coin.total_volume (snd p)) lcs)
  = map (fun p => share (total_volume_of lcs) (snd p)) lcs.
Proof.
  unfold Series.volume_share, Series.mul_scalar, Series.div_scalar.
  rewrite !map_map. reflexivity.
Qed.

Lemma setitem_percent (lcs : list (Z * Coin.t)) (total : float) :
  Pandas.setitem (coin_table lcs) "percent"
    (map CFloat (map (fun p => share total (snd p)) lcs))
  = Ok (share_table total lcs).
Proof.
  unfold Pandas.setitem, coin_table. cbn [columns rows].
  rewrite !length_map, Nat.eqb_refl. cbn [negb].
  change (Pandas.position "percent" Coin.fields) with (@None nat). cbv iota.
  rewrite map_map, zip_with_map_same. reflexivity.
Qed.

Lemma getitem_share_rows (total : float) (sl : list (Z * Coin.t))
  (col : string) (k : nat) :
  Pandas.position col (Coin.fields ++ ["percent"]) = Some k ->
  Pandas.getitem {| columns := Coin.fields ++ ["percent"];
                    rows := map (share_row total) sl |} col
  = Ok (map (fun p => nth k (Coin.cells (snd p)
                             ++ [CFloat (share total (snd p))])
                        (CFloat Pandas.nan)) sl).
Proof.
  intros Hk. unfold Pandas.getitem. cbn [columns rows].
  rewrite Hk, map_map. reflexivity.
Qed.

Lemma sort_values_percent (total : float) (lcs : list (Z * Coin.t)) :
  Sorting.sort_values (share_table total lcs) "percent" false
  = Ok {| columns := Coin.fields ++ ["percent"];
          rows := map (share_row total) (by_share total lcs) |}.
Proof.
  unfold Sorting.sort_values, share_table.
  rewrite (getitem_share_rows total lcs "percent" 7 eq_refl).
  cbn [nth Coin.cells app]. change (mbind ?k (Ok ?a)) with (k a). cbv beta.
  rewrite (mapM_map_Ok Pandas.as_float _ (fun p => share total (snd p)))
    by (apply Forall_forall; reflexivity).
  change (mbind ?k (Ok ?a)) with (k a). cbv beta zeta. cbn [columns rows].
  rewrite (zip_with_map_same pair).
  rewrite !(filter_map_commute
              (fun p => (share total (snd p), share_row total p))).
  rewrite (sort_descending_map fst
             (fun p => (share total (snd p), share_row total p))).
  rewrite <- map_app, map_map. reflexivity.
Qed.

Lemma by_share_nonempty (total : float) (lcs : list (Z * Coin.t)) :
  lcs <> [] -> by_share total lcs <> [].
Proof.
  intros Hne Hnil. apply Hne. apply Permutation_nil.
  rewrite <- Hnil. apply by_share_permutation.
Qed.

Lemma nth_after_insert {A} (l : list A) (r : nat) (x y d : A) :
  nth (length l) (<[r := x]> l ++ [y]) d = y.
Proof.
  rewrite <- (length_insert l r x). apply nth_middle.
Qed.

Lemma tab3_run (r : nat) (lcs : list (Z * Coin.t)) (coin_choice : list string)
  (s : State) :
  lcs <> [] ->
  nth r (heap s) Pandas.empty_frame = coin_table lcs ->
  let total := total_volume_of lcs in
  let sl := by_share total lcs in
  run (tab3 r coin_choice) s
  = (Ok (length (heap s)),
     {| requests := requests s;
        display := display s
                   ++ tab3_heading
                   ++ [(Tab3, plotly_chart (bar_chart coin_choice total sl))];
        heap := <[r := share_table total lcs]> (heap s)
                ++ [{| columns := Coin.fields ++ ["percent"];
                       rows := map (share_row total) sl |}] |}).
Proof.
  intros Hne Hr total sl. unfold tab3.
  rewrite run_bind, run_load, Hr.
  rewrite (getitem_coin_table lcs "total_volume" 5 eq_refl).
  cbn [nth Coin.cells]. change (mbind ?k (Ok ?a)) with (k a). cbv beta.
  rewrite (mapM_map_Ok Pandas.as_float _ (fun p => Coin.total_volume (snd p)))
    by (apply Forall_forall; reflexivity).
  rewrite run_bind, run_lift, volume_share_coins. fold total.
  rewrite setitem_percent, run_bind, run_lift, run_bind, run_store.
  rewrite sort_values_percent, run_bind, run_lift, run_bind, run_new.
  cbn [requests display heap]. rewrite length_insert.
  rewrite run_bind, run_draw. cbn [requests display heap].
  rewrite run_bind, run_draw. cbn [requests display heap].
  rewrite run_bind, run_load. cbn [requests display heap].
  rewrite nth_after_insert. fold sl.
  pose proof (by_share_nonempty total lcs Hne) as Hsl. fold sl in Hsl.
  destruct sl as [| p0 sl0] eqn:Esl; [contradiction |].
  change (negb (Pandas.empty _)) with true. cbv iota. rewrite run_bind.
  rewrite (getitem_share_rows total (p0 :: sl0) "name" 1 eq_refl).
  rewrite !(getitem_share_rows total (p0 :: sl0) "percent" 7 eq_refl).
  rewrite (getitem_share_rows total (p0 :: sl0) "id" 0 eq_refl).
  cbn [nth Coin.cells app]. change (mbind ?k (Ok ?a)) with (k a). cbv beta.
  rewrite (mapM_map_Ok _ _ (fun p => bar_text total (snd p)))
    by (apply Forall_forall; reflexivity).
  rewrite run_bind, run_lift, run_bind, run_lift, run_bind, run_lift.
  rewrite run_bind, run_lift, run_draw, run_ret. cbn [requests display heap].
  rewrite map_map. unfold bar_chart, tab3_heading.
  rewrite <- !app_assoc. reflexivity.
Qed.

(** ** The candlestick tab *)

Lemma tab1_unselected (w : World) (s : State) :
  run (tab1 w []) s
  = (Ok tt,
     shows s [(Tab1, subheader "Price Movement (Candlestick Chart)");
              (Tab1, info "Please select at least one coin to see candlestick chart.")]).
Proof.
  unfold tab1. rewrite run_bind, run_draw_shows, run_draw_shows, shows_shows.
  reflexivity.
Qed.

Lemma draw_keeps_heap h c x : preserves (fun s => heap s = h) (draw c x).
Proof. intros s Hs. exact Hs. Qed.

Lemma requests_get_keeps_heap {A} h (serve : nat -> Request -> Response A) req :
  preserves (fun s => heap s = h) (requests_get serve req).
Proof. intros s Hs. exact Hs. Qed.

Ltac keeps_step :=
  lazymatch goal with
  | |- preserves _ (draw _ _) => apply draw_keeps_heap
  | |- preserves _ (requests_get _ _) => apply requests_get_keeps_heap
  end.

Lemma tab1_keeps_heap (w : World) (coin_choice : list string) (s : State) :
  heap (snd (run (tab1 w coin_choice) s)) = heap s.
Proof.
  assert (H : preserves (fun s' => heap s' = heap s) (tab1 w coin_choice)).
  { unfold tab1, select_days, candlestick_chart, get_ohlc_data.
    repeat first [preserve_step | keeps_step]. }
  apply H. reflexivity.
Qed.

(** With timestamps that pandas can represent, the candlestick tab draws
    its charts and returns. *)
Lemma candlestick_chart_returns (w : World) (days : Z) (c : string) (s : State) :
  (forall n req, Forall candle_in_bounds (json (ohlc_endpoint w n req))) ->
  exists s', run (candlestick_chart w days c) s = (Ok tt, s').
Proof.
  intros Hb. unfold candlestick_chart, get_ohlc_data.
  rewrite !run_bind. cbn [run requests_get].
  destruct (Z.eqb _ 200).
  - rewrite run_lift, (ohlc_table_in_bounds _ (Hb _ _)).
    destruct (json _) as [| k ks]; [eexists; reflexivity |].
    eexists. reflexivity.
  - eexists. reflexivity.
Qed.

Lemma tab1_returns (w : World) (coin_choice : list string) (s : State) :
  (forall n req, Forall candle_in_bounds (json (ohlc_endpoint w n req))) ->
  exists s', run (tab1 w coin_choice) s = (Ok tt, s').
Proof.
  intros Hb. unfold tab1. rewrite run_bind, run_draw.
  destruct coin_choice as [| c0 cs]; [eexists; reflexivity |].
  unfold select_days. rewrite !run_bind, run_draw, run_ret.
  generalize (c0 :: cs). intros l.
  match goal with |- exists s', run _ ?s0 = _ => generalize s0 end.
  induction l as [| c l IH]; intros s0; [eexists; reflexivity |].
  cbn [for_each]. rewrite run_bind.
  destruct (candlestick_chart_returns w
              (match days_selection w with
               | Some k => nth k day_options (nth 3 day_options 0)
               | None => nth 3 day_options 0
               end) c s0 Hb) as [s1 ->].
  apply IH.
Qed.

(** ** The page as a whole *)

Lemma render_reaches_tabs (w : World) (c : Coin.t) (cs : list Coin.t) :
  let response := markets_endpoint w 0 (markets_request w 5) in
  status_code response = 200 ->
  json response = c :: cs ->
  run (render w) initial
  = match run (tab1 w (chosen w c)) (before_tabs w (listed w) c) with
    | (Ok _, s1) =>
        match run (tab2 0 (chosen w c)) s1 with
        | (Ok _, s2) => run (tab3 0 (chosen w c)) s2
        | (Raise e, s2) => (Raise e, s2)
        end
    | (Raise e, s1) => (Raise e, s1)
    end.
Proof.
  intros response Hst Hjs. unfold response in *. clear response.
  assert (Hl : listed w = (0, c) :: labelled 1 cs).
  { unfold listed. rewrite Hjs. reflexivity. }
  unfold render. step. step. rewrite 2 run_bind, get_top_coins_run.
  cbn [requests display heap initial length].
  rewrite Hst. change (200 =? 200) with true. cbv iota zeta.
  rewrite from_records_coins by (rewrite Hjs; discriminate).
  fold (listed w). rewrite Hl.
  rewrite run_new. cbn [requests display heap length app].
  rewrite run_bind.
  rewrite (sidebar_overview_run 0 ((0, c) :: labelled 1 cs))
    by (first [discriminate | reflexivity]).
  rewrite run_bind.
  rewrite (sidebar_filter_run w 0 (0, c) (labelled 1 cs)) by reflexivity.
  cbn [snd]. rewrite shows_shows, run_bind, run_draw_shows.
  rewrite shows_shows, run_bind.
  unfold before_tabs, shows. cbn [requests display heap app].
  rewrite <- !app_assoc. cbn [app].
  destruct (run (tab1 w (chosen w c)) _) as [[[] | e] s1]; [| reflexivity].
  rewrite run_bind. reflexivity.
Qed.

Lemma listed_nonempty (w : World) :
  json (markets_endpoint w 0 (markets_request w 5)) <> [] -> listed w <> [].
Proof.
  unfold listed. destruct (json _); [contradiction | discriminate].
Qed.

Lemma share_table_keeps_fields (total : float) (lcs : list (Z * Coin.t)) :
  map fetched_fields (rows (share_table total lcs)) = rows (coin_table lcs).
Proof.
  unfold share_table, coin_table. cbn [rows]. rewrite map_map.
  apply map_ext. intros p. reflexivity.
Qed.

(** With a non-empty summary and candle timestamps that pandas can
    represent, the whole page renders and returns. *)
Lemma render_returns (w : World) :
  status_code (markets_endpoint w 0 (markets_request w 5)) = 200 ->
  json (markets_endpoint w 0 (markets_request w 5)) <> [] ->
  (forall n req, Forall candle_in_bounds (json (ohlc_endpoint w n req))) ->
  fst (run (render w) initial) = Ok 1%nat.
Proof.
  intros Hst Hne Hb.
  destruct (json (markets_endpoint w 0 (markets_request w 5)))
    as [| c cs] eqn:Hjs; [contradiction |].
  rewrite (render_reaches_tabs w c cs Hst Hjs).
  pose proof (tab1_keeps_heap w (chosen w c) (before_tabs w (listed w) c))
    as Hheap.
  destruct (tab1_returns w (chosen w c) (before_tabs w (listed w) c) Hb)
    as [s1 H1].
  rewrite H1 in Hheap |- *. cbn [snd before_tabs heap] in Hheap.
  destruct (tab2_run 0 (listed w) (chosen w c) s1) as [x [Hx _]];
    [rewrite Hheap; reflexivity |].
  rewrite Hx.
  rewrite (tab3_run 0 (listed w) (chosen w c))
    by (first [apply listed_nonempty; rewrite Hjs; discriminate
              | cbn [shows heap]; rewrite Hheap; reflexivity]).
  cbn [fst shows heap]. rewrite Hheap. reflexivity.
Qed.

(** C4, as amended. Until the volume tab runs, the table fetched for a
    render is the one the markets call returned: if the page stops before
    (which only the candlestick tab can cause), the table is as fetched.
    The volume tab adds the column [percent] to it in place: its rows keep
    their order, labels and seven fetched fields.  The name [df_top5] is
    then bound to a second table with the same columns whose rows are a
    permutation of these: the rows whose share is a number, by descending
    share, and then the rows whose share is NaN. *)
Theorem summary_table_through_render (w : World) :
  let response := markets_endpoint w 0 (markets_request w 5) in
  let total := total_volume_of (listed w) in
  status_code response = 200 ->
  json response <> [] ->
  match run (render w) initial with
  | (Ok df_top5, s) =>
      df_top5 = 1%nat
      /\ heap s = [share_table total (listed w);
                   {| columns := Coin.fields ++ ["percent"];
                      rows := map (share_row total) (by_share total (listed w))
                   |}]
  | (Raise _, s) => heap s = [coin_table (listed w)]
  end
  /\ Pandas.from_records Coin.fields (map Coin.cells (json response))
     = coin_table (listed w)
  /\ columns (share_table total (listed w))
     = columns (coin_table (listed w)) ++ ["percent"]
  /\ map fetched_fields (rows (share_table total (listed w)))
     = rows (coin_table (listed w))
  /\ Permutation (by_share total (listed w)) (listed w)
  /\ (exists sorted nans,
        by_share total (listed w) = sorted ++ nans
        /\ descending (map (fun p => share total (snd p)) sorted) = true
        /\ Forall (fun p => Float64.is_nan (share total (snd p)) = false)
             sorted
        /\ Forall (fun p => Float64.is_nan (share total (snd p)) = true)
             nans).
Proof.
  intros response total Hst Hne.
  split; [| split; [| split; [| split; [| split]]]].
  - destruct (json response) as [| c cs] eqn:Hjs; [contradiction |].
    rewrite (render_reaches_tabs w c cs Hst Hjs).
    pose proof (tab1_keeps_heap w (chosen w c) (before_tabs w (listed w) c))
      as Hheap.
    destruct (run (tab1 w (chosen w c)) _) as [[[] | e] s1];
      cbn [snd before_tabs heap] in Hheap; [| exact Hheap].
    destruct (tab2_run 0 (listed w) (chosen w c) s1) as [x [Hx _]];
      [rewrite Hheap; reflexivity |].
    rewrite Hx.
    rewrite (tab3_run 0 (listed w) (chosen w c))
      by (first [apply listed_nonempty; fold response; rewrite Hjs; discriminate
                | cbn [shows heap]; rewrite Hheap; reflexivity]).
    cbn [shows heap]. rewrite Hheap. split; reflexivity.
  - apply from_records_coins, Hne.
  - reflexivity.
  - apply share_table_keeps_fields.
  - apply by_share_permutation.
  - apply by_share_order.
Qed.

Lemma summary_table_through_render_witness :
  let w := sample_world 200 two_coins [] None in
  let total := total_volume_of (listed w) in
  match run (render w) initial with
  | (Ok df_top5, s) =>
      df_top5 = 1%nat
      /\ heap s = [share_table total (listed w);
                   {| columns := Coin.fields ++ ["percent"];
                      rows := map (share_row total) (by_share total (listed w))
                   |}]
  | (Raise _, s) => heap s = [coin_table (listed w)]
  end.
Proof.
  apply (summary_table_through_render (sample_world 200 two_coins [] None));
    [reflexivity | discriminate].
Defined.

(** C4 as stated does not hold: after a render of a two-coin summary the
    fetched table has an eighth column, and the table that [df_top5] names
    lists the rows in another order. *)
Lemma summary_table_is_changed :
  let w := sample_world 200 two_coins [] None in
  let fetched := Pandas.from_records Coin.fields (map Coin.cells two_coins) in
  let s := snd (run (render w) initial) in
  fst (run (get_top_coins w 5) initial) = Ok fetched
  /\ fst (run (render w) initial) = Ok 1%nat
  /\ nth 0 (heap s) Pandas.empty_frame <> fetched
  /\ columns (nth 0 (heap s) Pandas.empty_frame) = columns fetched ++ ["percent"]
  /\ map label (rows fetched) = [CInt 0; CInt 1]
  /\ map label (rows (nth 1 (heap s) Pandas.empty_frame)) = [CInt 1; CInt 0].
Proof.
  cbv zeta. repeat split; try (vm_compute; reflexivity).
  intros H. apply (f_equal (fun df => length (columns df))) in H.
  vm_compute in H. discriminate H.
Qed.

(** ** No coin selected *)

Lemma widgets_in_app c d1 d2 :
  widgets_in c (d1 ++ d2) = widgets_in c d1 ++ widgets_in c d2.
Proof. unfold widgets_in. rewrite List.filter_app, map_app. reflexivity. Qed.

Lemma widgets_in_other {A} (c c' : Container) (f : A -> Widget) (l : list A) :
  container_eqb c' c = false ->
  widgets_in c (map (fun a => (c', f a)) l) = [].
Proof.
  intros Hc. unfold widgets_in.
  induction l as [| a l IH]; simpl; [reflexivity |]. rewrite Hc. exact IH.
Qed.

Lemma widgets_in_before_tabs (w : World) (lcs : list (Z * Coin.t))
  (first : Coin.t) :
  widgets_in Tab1 (display (before_tabs w lcs first)) = []
  /\ widgets_in Tab2 (display (before_tabs w lcs first)) = []
  /\ widgets_in Tab3 (display (before_tabs w lcs first)) = [].
Proof.
  unfold before_tabs, overview_widgets. cbn [display].
  repeat split; rewrite !widgets_in_app, widgets_in_other; reflexivity.
Qed.

Lemma bar_color_unselected (c : Coin.t) : bar_color [] c = "lightgray".
Proof. reflexivity. Qed.

Lemma unselected_colors (l : list (Z * Coin.t)) :
  map (fun p => bar_color [] (snd p)) l = repeat "lightgray" (length l).
Proof. induction l as [| p l IH]; simpl; [| rewrite IH]; reflexivity. Qed.

(** C9. With a non-empty summary and no coin selected, the page renders to
    the end; the candlestick tab and the bubble tab each show their heading
    and the message that asks for a selection, and no chart; the volume tab
    shows one bar chart over all coins of the summary, in which every bar has
    the muted color. *)
Theorem empty_selection_views (w : World) :
  let response := markets_endpoint w 0 (markets_request w 5) in
  status_code response = 200 ->
  json response <> [] ->
  coin_selection w = Some [] ->
  exists (s : State) (names shares : list cell) (text : list string)
         (layout : list (string * string)),
    run (render w) initial = (Ok 1%nat, s)
    /\ requests s = [markets_request w 5]
    /\ widgets_in Tab1 (display s)
       = [subheader "Price Movement (Candlestick Chart)";
          info "Please select at least one coin to see candlestick chart."]
    /\ widgets_in Tab2 (display s)
       = [subheader "Market Cap and Current Price Comparison (Bubble Size = Trading Volume)";
          caption "For better comparison, select multiple coins from the filter.";
          info "Please select at least one coin to view bubble chart."]
    /\ widgets_in Tab3 (display s)
       = [subheader "Top Five Cryptocurrencies by Trading Volume Share";
          caption "The highlighted color in the bar chart indicates the coin(s) selected from the sidebar filter.";
          plotly_chart
            (Bar names shares text
               (repeat "lightgray" (length (json response))) layout)]
    /\ Permutation names (map (fun c => CStr (Coin.name c)) (json response)).
Proof.
  intros response Hst Hne Hsel.
  destruct (json response) as [| c cs] eqn:Hjs; [contradiction |].
  pose proof (render_reaches_tabs w c cs Hst Hjs) as Hrun.
  assert (Hchosen : chosen w c = []) by (unfold chosen; rewrite Hsel; reflexivity).
  rewrite Hchosen, tab1_unselected in Hrun.
  destruct (tab2_run 0 (listed w) []
              (shows (before_tabs w (listed w) c)
                 [(Tab1, subheader "Price Movement (Candlestick Chart)");
                  (Tab1, info "Please select at least one coin to see candlestick chart.")]))
    as [x [Hx [Hinfo _]]]; [reflexivity |].
  rewrite (Hinfo (bubbles_unselected _)) in Hx. rewrite Hx in Hrun.
  rewrite (tab3_run 0 (listed w) []) in Hrun
    by (first [apply listed_nonempty; fold response; rewrite Hjs; discriminate
              | reflexivity]).
  cbn [shows requests display heap length] in Hrun.
  pose proof (by_share_permutation (total_volume_of (listed w)) (listed w))
    as Hperm.
  destruct (widgets_in_before_tabs w (listed w) c) as (H1 & H2 & H3).
  eexists _, _, _, _, _. split; [exact Hrun |].
  cbn [requests display]. unfold tab2_heading, tab3_heading.
  split; [reflexivity |].
  split; [| split; [| split]].
  - rewrite !widgets_in_app, H1. reflexivity.
  - rewrite !widgets_in_app, H2. reflexivity.
  - rewrite !widgets_in_app, H3. unfold bar_chart.
    rewrite unselected_colors, (Permutation_length Hperm).
    unfold listed. fold response. rewrite Hjs, labelled_length. reflexivity.
  - rewrite <- (map_snd_labelled (fun c => CStr (Coin.name c)) (c :: cs) 0).
    rewrite <- Hjs. apply Permutation_map, Hperm.
Qed.

Lemma empty_selection_views_witness :
  exists (s : State) (names shares : list cell) (text : list string)
         (layout : list (string * string)),
    run (render (sample_world 200 five_coins [] (Some []))) initial
    = (Ok 1%nat, s)
    /\ requests s = [markets_request (sample_world 200 five_coins [] (Some [])) 5]
    /\ widgets_in Tab1 (display s)
       = [subheader "Price Movement (Candlestick Chart)";
          info "Please select at least one coin to see candlestick chart."]
    /\ widgets_in Tab2 (display s)
       = [subheader "Market Cap and Current Price Comparison (Bubble Size = Trading Volume)";
          caption "For better comparison, select multiple coins from the filter.";
          info "Please select at least one coin to view bubble chart."]
    /\ widgets_in Tab3 (display s)
       = [subheader "Top Five Cryptocurrencies by Trading Volume Share";
          caption "The highlighted color in the bar chart indicates the coin(s) selected from the sidebar filter.";
          plotly_chart
            (Bar names shares text
               ["lightgray"; "lightgray"; "lightgray"; "lightgray"; "lightgray"]
               layout)]
    /\ Permutation names (map (fun c => CStr (Coin.name c)) five_coins).
Proof.
  apply (empty_selection_views (sample_world 200 five_coins [] (Some [])));
    [reflexivity | discriminate | reflexivity].
Defined.

(** ** The sample volumes *)

(** C6. For a summary of five coins with volumes 100, 200, 300, 400 and 500
    the volume tab draws a bar chart whose labels, from left to right, are
    33.33%, 26.67%, 20.00%, 13.33% and 6.67%: the shares 6.67, 13.33, 20.00,
    26.67 and 33.33 of the five coins, rounded to two decimals and sorted
    descending. *)
Theorem shares_of_sample_volumes (coins : list Coin.t)
  (coin_choice : list string) (r : nat) (s : State) :
  map Coin.total_volume coins = [100; 200; 300; 400; 500]%float ->
  nth r (heap s) Pandas.empty_frame
    = Pandas.from_records Coin.fields (map Coin.cells coins) ->
  map (Float64.format_f false 2)
    (Series.volume_share (map Coin.total_volume coins))
    = ["6.67"; "13.33"; "20.00"; "26.67"; "33.33"]
  /\ map (Float64.format_f false 2)
       (Sorting.sort_descending (fun x => x)
          (Series.volume_share (map Coin.total_volume coins)))
     = ["33.33"; "26.67"; "20.00"; "13.33"; "6.67"]
  /\ exists names colors layout,
       display (snd (run (tab3 r coin_choice) s))
       = display s ++ tab3_heading
         ++ [(Tab3,
              plotly_chart
                (Bar names
                   (map CFloat
                      (Sorting.sort_descending (fun x => x)
                         (Series.volume_share (map Coin.total_volume coins))))
                   ["33.33%"; "26.67%"; "20.00%"; "13.33%"; "6.67%"]
                   colors layout))].
Proof.
  intros Hvol Hr. rewrite Hvol.
  split; [vm_compute; reflexivity |]. split; [vm_compute; reflexivity |].
  destruct coins as [| c1 [| c2 [| c3 [| c4 [| c5 [| c6 rest]]]]]];
    try discriminate Hvol.
  injection Hvol as H1 H2 H3 H4 H5.
  rewrite from_records_coins in Hr by discriminate.
  change (labelled 0 [c1; c2; c3; c4; c5])
    with [(0, c1); (1, c2); (2, c3); (3, c4); (4, c5)] in Hr.
  assert (Hne : [(0, c1); (1, c2); (2, c3); (3, c4); (4, c5)] <> [])
    by discriminate.
  rewrite (tab3_run r _ coin_choice s Hne Hr).
  cbn [snd display]. unfold bar_chart.
  destruct c1, c2, c3, c4, c5. cbn [Coin.total_volume] in H1, H2, H3, H4, H5.
  subst.
  match goal with
  | |- context [by_share ?t ?l] =>
      let sl := eval vm_compute in (by_share t l) in
      replace (by_share t l) with sl by (vm_compute; reflexivity)
  end.
  cbn [map snd].
  match goal with
  | |- context [bar_text ?t] =>
      let t' := eval vm_compute in t in
      replace t with t' by (vm_compute; reflexivity)
  end.
  eexists _, _, _.
  apply (f_equal (fun x => display s ++ tab3_heading ++ [(Tab3, plotly_chart x)])).
  f_equal; first [vm_compute; reflexivity | reflexivity].
Qed.

Lemma shares_of_sample_volumes_witness :
  exists names colors layout,
    display (snd (run (tab3 0 ["bitcoin"]) five_coin_state))
    = display five_coin_state ++ tab3_heading
      ++ [(Tab3,
           plotly_chart
             (Bar names
                (map CFloat
                   (Sorting.sort_descending (fun x => x)
                      (Series.volume_share (map Coin.total_volume five_coins))))
                ["33.33%"; "26.67%"; "20.00%"; "13.33%"; "6.67%"]
                colors layout))].
Proof.
  apply (shares_of_sample_volumes five_coins ["bitcoin"] 0 five_coin_state);
    reflexivity.
Defined.

(** * Further properties of the script *)

(** ** The wrappers, whatever the answer *)

(** X1. Each wrapper makes one attempt: whatever the service answers, and
    whether the wrapper returns or raises, it adds exactly its own request to
    the log, draws nothing and leaves every table alone. *)
Theorem wrappers_make_one_attempt (w : World) (s : State) :
  (forall n, snd (run (get_top_coins w n) s) = asked s (markets_request w n))
  /\ (forall c d,
        snd (run (get_ohlc_data w c d) s) = asked s (ohlc_request w c d))
  /\ (forall c d,
        snd (run (get_market_chart w c d) s)
        = asked s (market_chart_request w c d)).
Proof.
  split; [| split]; intros.
  - unfold get_top_coins. rewrite run_bind, requests_get_run.
    destruct (Z.eqb _ 200); reflexivity.
  - unfold get_ohlc_data. rewrite run_bind, requests_get_run.
    destruct (Z.eqb _ 200); reflexivity.
  - unfold get_market_chart. rewrite run_bind, requests_get_run.
    destruct (Z.eqb _ 200); reflexivity.
Qed.

(** X2. Only the status [200] counts: any other status, the other success
    codes included, makes each wrapper return the empty table and drop the
    data of the answer. *)
Theorem wrappers_accept_only_200 (w : World) (s : State) :
  (forall n,
     status_code (markets_endpoint w (length (requests s))
                    (markets_request w n)) <> 200 ->
     fst (run (get_top_coins w n) s) = Ok Pandas.empty_frame)
  /\ (forall c d,
        status_code (ohlc_endpoint w (length (requests s))
                       (ohlc_request w c d)) <> 200 ->
        fst (run (get_ohlc_data w c d) s) = Ok Pandas.empty_frame)
  /\ (forall c d,
        status_code (market_chart_endpoint w (length (requests s))
                       (market_chart_request w c d)) <> 200 ->
        fst (run (get_market_chart w c d) s) = Ok Pandas.empty_frame).
Proof.
  split; [| split]; intros.
  - rewrite get_top_coins_failure by assumption. reflexivity.
  - rewrite get_ohlc_data_failure by assumption. reflexivity.
  - rewrite get_market_chart_failure by assumption. reflexivity.
Qed.

Lemma wrappers_accept_only_200_witness :
  success 204 = true
  /\ fst (run (get_top_coins world_204 5) initial) = Ok Pandas.empty_frame
  /\ fst (run (get_ohlc_data world_204 "bitcoin" 30) initial)
     = Ok Pandas.empty_frame
  /\ fst (run (get_market_chart world_204 "bitcoin" 30) initial)
     = Ok Pandas.empty_frame.
Proof.
  destruct (wrappers_accept_only_200 world_204 initial) as (Hm & Ho & Hc).
  split; [reflexivity |].
  split; [apply Hm; discriminate |].
  split; [apply Ho; discriminate | apply Hc; discriminate].
Defined.

(** ** The summary table of a successful call *)

Lemma getitem_id_coin_table (lcs : list (Z * Coin.t)) :
  Pandas.getitem (coin_table lcs) "id"
  = Ok (map (fun p => CStr (Coin.id (snd p))) lcs).
Proof. apply (getitem_coin_table lcs "id" 0 eq_refl). Qed.

Lemma labels_of_labelled {A} (f : Z * A -> row) (l : list A) (z : Z) :
  (forall p, label (f p) = CInt (fst p)) ->
  map (fun p => label (f p)) (labelled z l)
  = map CInt (seqZ z (Z.of_nat (length l))).
Proof.
  intros Hf. unfold labelled. revert z.
  induction l as [| c l IH]; intros z; [reflexivity |].
  cbn [Pandas.range_from zip_with map length].
  rewrite Nat2Z.inj_succ, seqZ_cons by lia. cbn [map]. rewrite Hf. cbn [fst].
  f_equal. rewrite IH. do 2 f_equal; lia.
Qed.

(** X3. A markets call answered with [200] gives a table with the seven
    fields as columns and one row per coin, in the order of the answer and
    labelled from 0; but an empty list gives the table without columns, the
    same as a failed call. *)
Theorem get_top_coins_on_success (w : World) (n : Z) (s : State) :
  let response :=
    markets_endpoint w (length (requests s)) (markets_request w n) in
  status_code response = 200 ->
  exists df,
    fst (run (get_top_coins w n) s) = Ok df
    /\ (json response = [] -> df = Pandas.empty_frame)
    /\ (json response <> [] ->
        columns df = Coin.fields
        /\ rows df = map coin_row (labelled 0 (json response))
        /\ map label (rows df)
           = map CInt (seqZ 0 (Z.of_nat (length (json response))))
        /\ Pandas.getitem df "id"
           = Ok (map (fun c => CStr (Coin.id c)) (json response))
        /\ Pandas.empty df = false).
Proof.
  intros response Hst.
  exists (Pandas.from_records Coin.fields (map Coin.cells (json response))).
  split; [| split].
  - rewrite get_top_coins_run. cbn [fst]. fold response. rewrite Hst.
    reflexivity.
  - intros ->. reflexivity.
  - intros Hne. rewrite (from_records_coins _ Hne).
    split; [reflexivity |]. split; [reflexivity |]. split; [| split].
    + cbn [coin_table rows]. rewrite map_map.
      apply (labels_of_labelled coin_row). reflexivity.
    + rewrite getitem_id_coin_table.
      rewrite (map_snd_labelled (fun c => CStr (Coin.id c))). reflexivity.
    + destruct (json response); [contradiction | reflexivity].
Qed.

Lemma get_top_coins_on_success_witness :
  exists df,
    fst (run (get_top_coins (sample_world 200 five_coins [] None) 5) initial)
    = Ok df
    /\ (five_coins = [] -> df = Pandas.empty_frame)
    /\ (five_coins <> [] ->
        columns df = Coin.fields
        /\ rows df = map coin_row (labelled 0 five_coins)
        /\ map label (rows df) = map CInt (seqZ 0 5)
        /\ Pandas.getitem df "id"
           = Ok (map (fun c => CStr (Coin.id c)) five_coins)
        /\ Pandas.empty df = false).
Proof.
  apply (get_top_coins_on_success (sample_world 200 five_coins [] None) 5
           initial).
  reflexivity.
Defined.

(** ** The two time series *)

Lemma get_ohlc_data_run (w : World) (c : string) (d : Z) (s : State) :
  run (get_ohlc_data w c d) s
  = (let response :=
       ohlc_endpoint w (length (requests s)) (ohlc_request w c d) in
     if status_code response =? 200 then ohlc_table (json response)
     else Ok Pandas.empty_frame,
     asked s (ohlc_request w c d)).
Proof.
  unfold get_ohlc_data. rewrite run_bind, requests_get_run.
  cbv zeta. destruct (Z.eqb _ 200); reflexivity.
Qed.

Lemma price_table_in_bounds (data : Chart.t) :
  Forall price_in_bounds (Chart.prices data) ->
  price_table data
  = Ok {| columns := ["price"]; rows := map price_row (Chart.prices data) |}.
Proof.
  intros Hb. unfold price_table, Pandas.from_rows.
  rewrite with_range_index_map.
  unfold Pandas.getitem. simpl. rewrite map_map.
  unfold Series.to_datetime.
  rewrite (mapM_map_Ok _ _ (fun p => CTime (datetime_of_ms (fst (snd p))))).
  2:{ apply Forall_forall. intros [n p] Hin. simpl.
      rewrite to_datetime_in_bounds; [reflexivity |].
      rewrite Forall_forall in Hb. apply Hb.
      unfold labelled in Hin. apply elem_of_zip_r in Hin. exact Hin. }
  simpl. unfold Pandas.setitem. simpl.
  rewrite !length_map, Nat.eqb_refl. simpl.
  rewrite zip_with_map_same. unfold Pandas.set_index. simpl.
  rewrite map_map. simpl.
  rewrite (map_snd_labelled price_row). reflexivity.
Qed.

Lemma get_market_chart_run (w : World) (c : string) (d : Z) (s : State) :
  run (get_market_chart w c d) s
  = (let response :=
       market_chart_endpoint w (length (requests s))
         (market_chart_request w c d) in
     if status_code response =? 200 then price_table (json response)
     else Ok Pandas.empty_frame,
     asked s (market_chart_request w c d)).
Proof.
  unfold get_market_chart. rewrite run_bind, requests_get_run.
  cbv zeta. destruct (Z.eqb _ 200); reflexivity.
Qed.

(** ** Time differences in the index of the two time series *)

Lemma lookup_map {A B} (f : A -> B) (l : list A) (i : nat) :
  map f l !! i = option_map f (l !! i).
Proof.
  revert i. induction l as [| x l IH]; intros [| i]; try reflexivity.
  apply IH.
Qed.

Lemma datetime_of_ms_sub (a b : Z) :
  Timestamp.sub (datetime_of_ms b) (datetime_of_ms a)
  = (b - a) * Timestamp.ns_per_ms.
Proof.
  unfold Timestamp.sub, datetime_of_ms, Timestamp.ns_per_ms. simpl. lia.
Qed.

Lemma converted_times_keep_differences {A} (ms : A -> Z) (l : list A)
  (i j : nat) (ki kj : A) (ti tj : Timestamp.t) :
  l !! i = Some ki ->
  l !! j = Some kj ->
  map (fun k => datetime_of_ms (ms k)) l !! i = Some ti ->
  map (fun k => datetime_of_ms (ms k)) l !! j = Some tj ->
  Timestamp.sub tj ti = (ms kj - ms ki) * Timestamp.ns_per_ms.
Proof.
  intros Hi Hj Hti Htj. rewrite lookup_map, Hi in Hti.
  rewrite lookup_map, Hj in Htj. cbn in Hti, Htj.
  injection Hti as <-. injection Htj as <-. apply datetime_of_ms_sub.
Qed.

Lemma sample_times :
  Timestamp.sub (datetime_of_ms 1700003600000) (datetime_of_ms 1700000000000)
  = Timestamp.ns_per_hour
  /\ Timestamp.fields (datetime_of_ms 1700000000000)
     = Timestamp.Calendar 2023 11 14 22 13 20 0
  /\ Timestamp.fields (datetime_of_ms 1700003600000)
     = Timestamp.Calendar 2023 11 14 23 13 20 0.
Proof. repeat split; vm_compute; reflexivity. Qed.

(** C8. The index that [get_ohlc_data] and [get_market_chart] return keeps
    time differences.  When pandas can represent the timestamps of a
    successful answer, the index holds one calendar timestamp per upstream
    row, in the order of the rows, and any two of them differ by the
    difference of their two inputs, in milliseconds.  For the inputs
    1700000000000 and 1700003600000 the index holds 2023-11-14 22:13:20 and
    23:13:20, exactly one hour apart. *)
Theorem to_datetime_keeps_differences (w : World) (c : string) (d : Z)
  (s : State) :
  let ohlc := ohlc_endpoint w (length (requests s)) (ohlc_request w c d) in
  let chart :=
    market_chart_endpoint w (length (requests s))
      (market_chart_request w c d) in
  (status_code ohlc = 200 ->
   Forall candle_in_bounds (json ohlc) ->
   exists df times,
     fst (run (get_ohlc_data w c d) s) = Ok df
     /\ map label (rows df) = map CTime times
     /\ length times = length (json ohlc)
     /\ forall i j ki kj ti tj,
          json ohlc !! i = Some ki ->
          json ohlc !! j = Some kj ->
          times !! i = Some ti ->
          times !! j = Some tj ->
          Timestamp.sub tj ti
          = (Candle.timestamp kj - Candle.timestamp ki) * Timestamp.ns_per_ms)
  /\ (status_code chart = 200 ->
      Forall price_in_bounds (Chart.prices (json chart)) ->
      exists df times,
        fst (run (get_market_chart w c d) s) = Ok df
        /\ map label (rows df) = map CTime times
        /\ length times = length (Chart.prices (json chart))
        /\ forall i j pi pj ti tj,
             Chart.prices (json chart) !! i = Some pi ->
             Chart.prices (json chart) !! j = Some pj ->
             times !! i = Some ti ->
             times !! j = Some tj ->
             Timestamp.sub tj ti = (fst pj - fst pi) * Timestamp.ns_per_ms)
  /\ (status_code ohlc = 200 ->
      map Candle.timestamp (json ohlc) = [1700000000000; 1700003600000] ->
      exists df ta tb,
        fst (run (get_ohlc_data w c d) s) = Ok df
        /\ map label (rows df) = [CTime ta; CTime tb]
        /\ Timestamp.sub tb ta = Timestamp.ns_per_hour
        /\ Timestamp.fields ta = Timestamp.Calendar 2023 11 14 22 13 20 0
        /\ Timestamp.fields tb = Timestamp.Calendar 2023 11 14 23 13 20 0)
  /\ (status_code chart = 200 ->
      map fst (Chart.prices (json chart)) = [1700000000000; 1700003600000] ->
      exists df ta tb,
        fst (run (get_market_chart w c d) s) = Ok df
        /\ map label (rows df) = [CTime ta; CTime tb]
        /\ Timestamp.sub tb ta = Timestamp.ns_per_hour
        /\ Timestamp.fields ta = Timestamp.Calendar 2023 11 14 22 13 20 0
        /\ Timestamp.fields tb = Timestamp.Calendar 2023 11 14 23 13 20 0).
Proof.
  intros ohlc chart.
  assert (Hohlc : status_code ohlc = 200 ->
                  Forall candle_in_bounds (json ohlc) ->
                  fst (run (get_ohlc_data w c d) s)
                  = Ok {| columns := ["open"; "high"; "low"; "close"];
                          rows := map candle_row (json ohlc) |}).
  { intros Hst Hb. rewrite get_ohlc_data_run. cbn [fst]. fold ohlc.
    rewrite Hst. change (200 =? 200) with true. cbv iota.
    apply (ohlc_table_in_bounds _ Hb). }
  assert (Hchart : status_code chart = 200 ->
                   Forall price_in_bounds (Chart.prices (json chart)) ->
                   fst (run (get_market_chart w c d) s)
                   = Ok {| columns := ["price"];
                           rows := map price_row (Chart.prices (json chart)) |}).
  { intros Hst Hb. rewrite get_market_chart_run. cbn [fst]. fold chart.
    rewrite Hst. change (200 =? 200) with true. cbv iota.
    apply (price_table_in_bounds _ Hb). }
  split; [| split; [| split]].
  - intros Hst Hb.
    exists {| columns := ["open"; "high"; "low"; "close"];
              rows := map candle_row (json ohlc) |},
           (map (fun k => datetime_of_ms (Candle.timestamp k)) (json ohlc)).
    split; [exact (Hohlc Hst Hb) |].
    split; [cbn [rows]; rewrite !map_map; reflexivity |].
    split; [apply length_map |].
    intros i j ki kj ti tj.
    apply (converted_times_keep_differences Candle.timestamp).
  - intros Hst Hb.
    exists {| columns := ["price"];
              rows := map price_row (Chart.prices (json chart)) |},
           (map (fun p => datetime_of_ms (fst p)) (Chart.prices (json chart))).
    split; [exact (Hchart Hst Hb) |].
    split; [cbn [rows]; rewrite !map_map; reflexivity |].
    split; [apply length_map |].
    intros i j pi pj ti tj.
    apply (converted_times_keep_differences fst).
  - intros Hst Hts.
    destruct (json ohlc) as [| k1 [| k2 [| k3 ks]]] eqn:Hjs;
      try discriminate Hts.
    injection Hts as H1 H2.
    assert (Hb : Forall candle_in_bounds [k1; k2])
      by (repeat constructor; unfold candle_in_bounds;
          [rewrite H1 | rewrite H2]; reflexivity).
    exists {| columns := ["open"; "high"; "low"; "close"];
              rows := map candle_row [k1; k2] |},
           (datetime_of_ms 1700000000000), (datetime_of_ms 1700003600000).
    split; [exact (Hohlc Hst Hb) |].
    split; [cbn [rows map label candle_row]; rewrite H1, H2; reflexivity |].
    exact sample_times.
  - intros Hst Hts.
    destruct (Chart.prices (json chart)) as [| p1 [| p2 [| p3 ps]]] eqn:Hjs;
      try discriminate Hts.
    injection Hts as H1 H2.
    assert (Hb : Forall price_in_bounds [p1; p2])
      by (repeat constructor; unfold price_in_bounds;
          [rewrite H1 | rewrite H2]; reflexivity).
    exists {| columns := ["price"]; rows := map price_row [p1; p2] |},
           (datetime_of_ms 1700000000000), (datetime_of_ms 1700003600000).
    split; [exact (Hchart Hst Hb) |].
    split; [cbn [rows map label price_row]; rewrite H1, H2; reflexivity |].
    exact sample_times.
Qed.

Lemma to_datetime_keeps_differences_witness :
  (exists df ta tb,
     fst (run (get_ohlc_data
                 (sample_world 200 []
                    [candle 1700000000000 1 2 0.5 1.5;
                     candle 1700003600000 2 4 1 3] None)
                 "bitcoin" 30) initial) = Ok df
     /\ map label (rows df) = [CTime ta; CTime tb]
     /\ Timestamp.sub tb ta = Timestamp.ns_per_hour
     /\ Timestamp.fields ta = Timestamp.Calendar 2023 11 14 22 13 20 0
     /\ Timestamp.fields tb = Timestamp.Calendar 2023 11 14 23 13 20 0)
  /\ (exists df times,
        fst (run (get_market_chart world_chart "bitcoin" 30) initial) = Ok df
        /\ map label (rows df) = map CTime times
        /\ length times = 2%nat
        /\ forall i j pi pj ti tj,
             Chart.prices two_prices !! i = Some pi ->
             Chart.prices two_prices !! j = Some pj ->
             times !! i = Some ti ->
             times !! j = Some tj ->
             Timestamp.sub tj ti = (fst pj - fst pi) * Timestamp.ns_per_ms).
Proof.
  destruct (to_datetime_keeps_differences
              (sample_world 200 []
                 [candle 1700000000000 1 2 0.5 1.5;
                  candle 1700003600000 2 4 1 3] None)
              "bitcoin" 30 initial) as (_ & _ & Hsample & _).
  destruct (to_datetime_keeps_differences world_chart "bitcoin" 30 initial)
    as (_ & Hchart & _ & _).
  split.
  - apply Hsample; reflexivity.
  - apply Hchart; [reflexivity | repeat constructor].
Defined.

(** X4. A market-chart call answered with [200] gives a table with the one
    column [price], indexed by the converted timestamps, with one row per
    entry of [prices] in the order of the answer; the other lists of the
    answer are not read. *)
Theorem get_market_chart_on_success (w : World) (c : string) (d : Z)
  (s : State) :
  let response :=
    market_chart_endpoint w (length (requests s))
      (market_chart_request w c d) in
  status_code response = 200 ->
  Forall price_in_bounds (Chart.prices (json response)) ->
  exists df,
    fst (run (get_market_chart w c d) s) = Ok df
    /\ columns df = ["price"]
    /\ map label (rows df)
       = map (fun p => CTime (datetime_of_ms (fst p)))
           (Chart.prices (json response))
    /\ Pandas.getitem df "price"
       = Ok (map (fun p => CFloat (snd p)) (Chart.prices (json response)))
    /\ Pandas.getitem df "timestamp" = Raise (KeyError "timestamp").
Proof.
  intros response Hst Hb.
  exists {| columns := ["price"];
            rows := map price_row (Chart.prices (json response)) |}.
  split; [| split; [| split; [| split]]].
  - unfold get_market_chart. rewrite run_bind, requests_get_run.
    fold response. rewrite Hst. change (200 =? 200) with true. cbv iota.
    rewrite run_lift, (price_table_in_bounds _ Hb). reflexivity.
  - reflexivity.
  - cbn [rows]. rewrite map_map. reflexivity.
  - unfold Pandas.getitem. cbn. rewrite map_map. reflexivity.
  - reflexivity.
Qed.

Lemma get_market_chart_on_success_witness :
  exists df,
    fst (run (get_market_chart world_chart "bitcoin" 30) initial) = Ok df
    /\ columns df = ["price"]
    /\ map label (rows df)
       = [CTime (datetime_of_ms 1700000000000);
          CTime (datetime_of_ms 1700003600000)]
    /\ Pandas.getitem df "price" = Ok [CFloat 1.5; CFloat 2]
    /\ Pandas.getitem df "timestamp" = Raise (KeyError "timestamp").
Proof.
  apply (get_market_chart_on_success world_chart "bitcoin" 30 initial).
  - reflexivity.
  - repeat constructor.
Defined.

(** X5. An OHLC call answered with [200] gives a table with the columns
    [open], [high], [low] and [close] (the timestamps have left the columns
    for the index), holding the four prices of each candle in the order of
    the answer; the table is empty exactly when the answer has no candle. *)
Theorem get_ohlc_data_on_success (w : World) (c : string) (d : Z) (s : State) :
  let response := ohlc_endpoint w (length (requests s)) (ohlc_request w c d) in
  status_code response = 200 ->
  Forall candle_in_bounds (json response) ->
  exists df,
    fst (run (get_ohlc_data w c d) s) = Ok df
    /\ columns df = ["open"; "high"; "low"; "close"]
    /\ Pandas.getitem df "open"
       = Ok (map (fun k => CFloat (Candle.open k)) (json response))
    /\ Pandas.getitem df "high"
       = Ok (map (fun k => CFloat (Candle.high k)) (json response))
    /\ Pandas.getitem df "low"
       = Ok (map (fun k => CFloat (Candle.low k)) (json response))
    /\ Pandas.getitem df "close"
       = Ok (map (fun k => CFloat (Candle.close k)) (json response))
    /\ Pandas.getitem df "timestamp" = Raise (KeyError "timestamp")
    /\ (Pandas.empty df = true <-> json response = []).
Proof.
  intros response Hst Hb.
  exists {| columns := ["open"; "high"; "low"; "close"];
            rows := map candle_row (json response) |}.
  split.
  { rewrite get_ohlc_data_run. cbn [fst]. fold response. rewrite Hst.
    change (200 =? 200) with true. cbv iota.
    apply (ohlc_table_in_bounds _ Hb). }
  split; [reflexivity |].
  repeat split; try (unfold Pandas.getitem; cbn; rewrite map_map; reflexivity).
  - destruct (json response); [reflexivity | discriminate].
  - intros ->. reflexivity.
Qed.

Lemma get_ohlc_data_on_success_witness :
  exists df,
    fst (run (get_ohlc_data (sample_world 200 [] candles_newest_first None)
                "bitcoin" 30) initial) = Ok df
    /\ columns df = ["open"; "high"; "low"; "close"]
    /\ Pandas.getitem df "open" = Ok [CFloat 2; CFloat 1]
    /\ Pandas.getitem df "high" = Ok [CFloat 4; CFloat 2]
    /\ Pandas.getitem df "low" = Ok [CFloat 1; CFloat 0.5]
    /\ Pandas.getitem df "close" = Ok [CFloat 3; CFloat 1.5]
    /\ Pandas.getitem df "timestamp" = Raise (KeyError "timestamp")
    /\ (Pandas.empty df = true <-> candles_newest_first = []).
Proof.
  apply (get_ohlc_data_on_success
           (sample_world 200 [] candles_newest_first None) "bitcoin" 30
           initial).
  - reflexivity.
  - repeat constructor.
Defined.

(** ** The candlestick tab, coin by coin *)

Lemma candles_of_in_bounds (w : World) (n : nat) (c : string) (days : Z) :
  candles_in_bounds w -> Forall candle_in_bounds (candles_of w n c days).
Proof.
  intros Hb. unfold candles_of. cbv zeta.
  destruct (Z.eqb _ 200); [apply Hb | constructor].
Qed.

Lemma candlestick_chart_run (w : World) (days : Z) (c : string) (s : State) :
  Forall candle_in_bounds (candles_of w (length (requests s)) c days) ->
  run (candlestick_chart w days c) s
  = (Ok tt,
     shows (asked s (ohlc_request w c days))
       match candles_of w (length (requests s)) c days with
       | [] => []
       | k :: ks => candlestick_widgets days c (k :: ks)
       end).
Proof.
  unfold candles_of. cbv zeta. intros Hb.
  unfold candlestick_chart. rewrite run_bind, get_ohlc_data_run. cbv zeta.
  destruct (Z.eqb _ 200).
  - rewrite (ohlc_table_in_bounds _ Hb).
    destruct (json _) as [| k ks].
    + cbn. rewrite shows_nil. reflexivity.
    + change (negb (Pandas.empty _)) with true. cbv iota.
      rewrite run_bind, run_draw_shows.
      unfold Pandas.getitem. cbn [columns rows Pandas.position String.eqb
        Ascii.eqb Bool.eqb fmap option_fmap option_map].
      repeat (rewrite run_bind, run_lift).
      rewrite run_draw_shows, shows_shows.
      rewrite !map_map. reflexivity.
  - cbn. rewrite shows_nil. reflexivity.
Qed.

Lemma candlestick_chart_raise (w : World) (days : Z) (c : string) (s : State) :
  ~ Forall candle_in_bounds (candles_of w (length (requests s)) c days) ->
  run (candlestick_chart w days c) s
  = (Raise OutOfBoundsDatetime, asked s (ohlc_request w c days)).
Proof.
  unfold candles_of. cbv zeta. intros Hb.
  unfold candlestick_chart. rewrite run_bind, get_ohlc_data_run. cbv zeta.
  destruct (Z.eqb _ 200).
  - rewrite (ohlc_table_out_of_bounds _ Hb). reflexivity.
  - exfalso. apply Hb. constructor.
Qed.

(** X6. A coin whose OHLC call is not answered with [200], or is answered
    without candles, is passed over: nothing is drawn for it, nothing is
    raised, and the one request stays in the log. *)
Theorem candlestick_chart_omitted (w : World) (days : Z) (c : string)
  (s : State) :
  let response :=
    ohlc_endpoint w (length (requests s)) (ohlc_request w c days) in
  status_code response <> 200 \/ json response = [] ->
  run (candlestick_chart w days c) s
  = (Ok tt, asked s (ohlc_request w c days)).
Proof.
  intros response Hfail.
  assert (Hc : candles_of w (length (requests s)) c days = []).
  { unfold candles_of. fold response. cbv zeta. destruct Hfail as [Hst | Hjs].
    - destruct (Z.eqb_spec (status_code response) 200); [contradiction |].
      reflexivity.
    - rewrite Hjs. destruct (status_code response =? 200); reflexivity. }
  rewrite candlestick_chart_run by (rewrite Hc; constructor).
  rewrite Hc, shows_nil. reflexivity.
Qed.

Lemma candlestick_chart_omitted_witness :
  run (candlestick_chart (world_partial ["bitcoin"]) 30 "bitcoin") initial
  = (Ok tt, asked initial (ohlc_request (world_partial ["bitcoin"]) "bitcoin" 30)).
Proof.
  apply (candlestick_chart_omitted (world_partial ["bitcoin"]) 30 "bitcoin"
           initial).
  left. discriminate.
Defined.

(** X7. A coin whose OHLC call is answered with [200] and with candles gets
    a heading, with its capitalized id and the day range, and one candlestick
    chart: the x axis lists the converted timestamps and the four series list
    the prices, all in the order of the answer. *)
Theorem candlestick_chart_drawn (w : World) (days : Z) (c : string)
  (s : State) :
  let response :=
    ohlc_endpoint w (length (requests s)) (ohlc_request w c days) in
  status_code response = 200 ->
  json response <> [] ->
  Forall candle_in_bounds (json response) ->
  run (candlestick_chart w days c) s
  = (Ok tt,
     {| requests := requests s ++ [ohlc_request w c days];
        display :=
          display s
          ++ [(Tab1, subheader (Str.capitalize c ++ " Price Trend (Last "
                                ++ Str.of_Z days ++ " Days)")%string);
              (Tab1, plotly_chart
                 (Candlestick
                    (map (fun k => CTime (datetime_of_ms (Candle.timestamp k)))
                       (json response))
                    (map (fun k => CFloat (Candle.open k)) (json response))
                    (map (fun k => CFloat (Candle.high k)) (json response))
                    (map (fun k => CFloat (Candle.low k)) (json response))
                    (map (fun k => CFloat (Candle.close k)) (json response))
                    [("xaxis_title", "Date"); ("yaxis_title", "Price (USD)");
                     ("xaxis_rangeslider_visible", "False")]))];
        heap := heap s |}).
Proof.
  intros response Hst Hne Hb.
  assert (Hc : candles_of w (length (requests s)) c days = json response).
  { unfold candles_of. fold response. cbv zeta. rewrite Hst. reflexivity. }
  rewrite candlestick_chart_run by (rewrite Hc; exact Hb).
  rewrite Hc. destruct (json response) as [| k ks]; [contradiction |].
  reflexivity.
Qed.

Lemma candlestick_chart_drawn_witness :
  fst (run (candlestick_chart (world_partial ["tether"]) 7 "tether") initial)
  = Ok tt
  /\ map fst (display (snd (run (candlestick_chart (world_partial ["tether"])
                                   7 "tether") initial)))
     = [Tab1; Tab1].
Proof.
  rewrite (candlestick_chart_drawn (world_partial ["tether"]) 7 "tether"
             initial);
    [split; reflexivity | reflexivity | discriminate | repeat constructor].
Defined.

(** ** The candlestick tab as a loop *)

Lemma candles_in_bounds_decide (l : list Candle.t) :
  Forall candle_in_bounds l \/ ~ Forall candle_in_bounds l.
Proof.
  induction l as [| k l [IH | IH]].
  - left. constructor.
  - unfold candle_in_bounds at 1.
    destruct (Timestamp.in_bounds (Candle.timestamp k)) eqn:Hk.
    + left. constructor; assumption.
    + right. intros H. inversion H as [| ? ? Hk' _]; subst.
      unfold candle_in_bounds in Hk'. congruence.
  - right. intros H. inversion H; subst. contradiction.
Qed.

Lemma charts_loop_run (w : World) (days : Z) (coin_choice : list string)
  (s : State) :
  candles_in_bounds w ->
  run (for_each coin_choice (candlestick_chart w days)) s
  = (Ok tt,
     {| requests := requests s ++ map (fun c => ohlc_request w c days) coin_choice;
        display := display s
                   ++ charts_from w days (length (requests s)) coin_choice;
        heap := heap s |}).
Proof.
  intros Hb. revert s. induction coin_choice as [| c r IH]; intros s.
  - cbn. rewrite !app_nil_r. destruct s; reflexivity.
  - cbn [for_each]. rewrite run_bind.
    rewrite candlestick_chart_run by (apply candles_of_in_bounds, Hb).
    rewrite IH. cbn [shows asked requests display heap map charts_from].
    rewrite length_app, Nat.add_1_r, <- !app_assoc. reflexivity.
Qed.

Lemma charts_loop_outcome (w : World) (days : Z) (coin_choice : list string)
  (s : State) :
  exists k,
    (k <= length coin_choice)%nat
    /\ requests (snd (run (for_each coin_choice (candlestick_chart w days)) s))
       = requests s ++ map (fun c => ohlc_request w c days) (take k coin_choice)
    /\ heap (snd (run (for_each coin_choice (candlestick_chart w days)) s))
       = heap s
    /\ ((fst (run (for_each coin_choice (candlestick_chart w days)) s) = Ok tt
         /\ k = length coin_choice)
        \/ (fst (run (for_each coin_choice (candlestick_chart w days)) s)
            = Raise OutOfBoundsDatetime
            /\ ~ candles_in_bounds w)).
Proof.
  revert s. induction coin_choice as [| c r IH]; intros s.
  - exists 0%nat. cbn [for_each length take map]. rewrite run_ret, app_nil_r.
    split; [reflexivity |]. split; [reflexivity |]. split; [reflexivity |].
    left. split; reflexivity.
  - cbn [for_each]. rewrite run_bind.
    destruct (candles_in_bounds_decide
                (candles_of w (length (requests s)) c days)) as [Hc | Hc].
    + rewrite (candlestick_chart_run w days c s Hc).
      match goal with
      | |- context [run (for_each r _) ?s1] =>
          destruct (IH s1) as (k & Hk & Hreq & Hheap & Hres)
      end.
      exists (S k). split; [cbn; lia |].
      split; [| split; [exact Hheap | ]].
      * rewrite Hreq. cbn [shows asked requests take map].
        rewrite <- app_assoc. reflexivity.
      * destruct Hres as [[Hok ->] | Hraise]; [left | right; exact Hraise].
        split; [exact Hok | reflexivity].
    + rewrite (candlestick_chart_raise w days c s Hc).
      exists 1%nat. split; [cbn; lia |].
      split; [reflexivity |]. split; [reflexivity |].
      right. split; [reflexivity |].
      intros Hb. apply Hc, candles_of_in_bounds, Hb.
Qed.

Lemma tab1_selected_run (w : World) (coin_choice : list string) (s : State) :
  candles_in_bounds w ->
  coin_choice <> [] ->
  run (tab1 w coin_choice) s
  = (Ok tt,
     {| requests :=
          requests s ++ map (fun c => ohlc_request w c (chosen_days w)) coin_choice;
        display :=
          display s
          ++ [(Tab1, subheader "Price Movement (Candlestick Chart)");
              (Tab1, selectbox "Select number of days for OHLC data"
                       day_options 3)]
          ++ charts_from w (chosen_days w) (length (requests s)) coin_choice;
        heap := heap s |}).
Proof.
  intros Hb Hne. unfold tab1. rewrite run_bind, run_draw.
  destruct coin_choice as [| c0 cs]; [contradiction |].
  unfold select_days. rewrite !run_bind, run_draw, run_ret.
  fold (chosen_days w). rewrite (charts_loop_run w _ _ _ Hb).
  cbn [requests display heap]. rewrite <- !app_assoc. reflexivity.
Qed.

(** X8. With a selection and candles that pandas can represent, the
    candlestick tab returns after one OHLC call per selected coin, in the
    order of the selection and all for the chosen day range; it draws its
    heading, the day-range drop-down, and then heading and chart for each
    coin that has candles, passing over the others. *)
Theorem tab1_draws_coin_by_coin (w : World) (coin_choice : list string)
  (s : State) :
  candles_in_bounds w ->
  coin_choice <> [] ->
  run (tab1 w coin_choice) s
  = (Ok tt,
     {| requests :=
          requests s ++ map (fun c => ohlc_request w c (chosen_days w)) coin_choice;
        display :=
          display s
          ++ [(Tab1, subheader "Price Movement (Candlestick Chart)");
              (Tab1, selectbox "Select number of days for OHLC data"
                       [1; 7; 14; 30; 90; 180; 365] 3)]
          ++ charts_from w (chosen_days w) (length (requests s)) coin_choice;
        heap := heap s |}).
Proof.
  intros Hb Hne. unfold tab1. rewrite run_bind, run_draw.
  destruct coin_choice as [| c0 cs]; [contradiction |].
  unfold select_days. rewrite !run_bind, run_draw, run_ret.
  fold (chosen_days w). rewrite (charts_loop_run w _ _ _ Hb).
  cbn [requests display heap]. rewrite <- !app_assoc. reflexivity.
Qed.

Lemma tab1_draws_coin_by_coin_witness :
  let w := world_partial ["bitcoin"; "tether"] in
  requests (snd (run (tab1 w ["bitcoin"; "tether"]) initial))
  = [ohlc_request w "bitcoin" 7; ohlc_request w "tether" 7]
  /\ map fst (display (snd (run (tab1 w ["bitcoin"; "tether"]) initial)))
     = [Tab1; Tab1; Tab1; Tab1].
Proof.
  cbv zeta.
  rewrite (tab1_draws_coin_by_coin (world_partial ["bitcoin"; "tether"])
             ["bitcoin"; "tether"] initial).
  - split; reflexivity.
  - intros n req. unfold world_partial. cbn [ohlc_endpoint].
    destruct (endpoint req) as [| c | c]; try (repeat constructor).
    destruct (String.eqb c "bitcoin"); repeat constructor.
  - discriminate.
Defined.

(** ** The requests and the outcomes of a render *)

Lemma tab1_outcome (w : World) (coin_choice : list string) (s : State) :
  exists k,
    (k <= length coin_choice)%nat
    /\ requests (snd (run (tab1 w coin_choice) s))
       = requests s
         ++ map (fun c => ohlc_request w c (chosen_days w)) (take k coin_choice)
    /\ heap (snd (run (tab1 w coin_choice) s)) = heap s
    /\ ((fst (run (tab1 w coin_choice) s) = Ok tt /\ k = length coin_choice)
        \/ (fst (run (tab1 w coin_choice) s) = Raise OutOfBoundsDatetime
            /\ ~ candles_in_bounds w)).
Proof.
  unfold tab1. rewrite run_bind, run_draw.
  destruct coin_choice as [| c0 cs].
  - exists 0%nat. rewrite run_draw. cbn [snd fst requests heap take map length].
    rewrite app_nil_r. repeat split; auto.
  - unfold select_days. rewrite !run_bind, run_draw, run_ret.
    fold (chosen_days w).
    match goal with
    | |- context [run (for_each ?l _) ?s1] =>
        destruct (charts_loop_outcome w (chosen_days w) l s1)
          as (k & Hk & Hreq & Hheap & Hres)
    end.
    exists k. split; [exact Hk |]. split; [exact Hreq |].
    split; [exact Hheap | exact Hres].
Qed.

Lemma render_on_empty_summary (w : World) :
  summary_is_empty w ->
  fst (run (render w) initial) = Raise (KeyError "id")
  /\ requests (snd (run (render w) initial)) = [markets_request w 5].
Proof.
  unfold summary_is_empty. cbv zeta. intros Hempty.
  assert (Hdf : (if status_code (markets_endpoint w 0 (markets_request w 5))
                      =? 200
                 then Pandas.from_records Coin.fields
                        (map Coin.cells
                           (json (markets_endpoint w 0 (markets_request w 5))))
                 else Pandas.empty_frame) = Pandas.empty_frame).
  { destruct Hempty as [Hst | Hjs].
    - destruct (Z.eqb_spec
                  (status_code (markets_endpoint w 0 (markets_request w 5)))
                  200); [contradiction | reflexivity].
    - rewrite Hjs. destruct (Z.eqb _ 200); reflexivity. }
  unfold render. step. step. rewrite 2 run_bind, get_top_coins_run.
  cbn [requests display heap initial length]. rewrite Hdf.
  split; reflexivity.
Qed.

Lemma render_on_summary (w : World) (c : Coin.t) (cs : list Coin.t) :
  status_code (markets_endpoint w 0 (markets_request w 5)) = 200 ->
  json (markets_endpoint w 0 (markets_request w 5)) = c :: cs ->
  exists k,
    (k <= length (chosen w c))%nat
    /\ requests (snd (run (render w) initial))
       = markets_request w 5
         :: map (fun c => ohlc_request w c (chosen_days w))
              (take k (chosen w c))
    /\ ((fst (run (render w) initial) = Ok 1%nat /\ k = length (chosen w c))
        \/ (fst (run (render w) initial) = Raise OutOfBoundsDatetime
            /\ ~ candles_in_bounds w)).
Proof.
  intros Hst Hjs. rewrite (render_reaches_tabs w c cs Hst Hjs).
  destruct (tab1_outcome w (chosen w c) (before_tabs w (listed w) c))
    as (k & Hk & Hreq & Hheap & Hres).
  exists k. split; [exact Hk |].
  destruct (run (tab1 w (chosen w c)) (before_tabs w (listed w) c))
    as [[[] | e] s1]; cbn [fst snd before_tabs requests heap] in *.
  - destruct (tab2_run 0 (listed w) (chosen w c) s1) as [x [Hx _]];
      [rewrite Hheap; reflexivity |].
    rewrite Hx.
    rewrite (tab3_run 0 (listed w) (chosen w c))
      by (first [apply listed_nonempty; rewrite Hjs; discriminate
                | cbn [shows heap]; rewrite Hheap; reflexivity]).
    cbn [fst snd shows requests heap]. rewrite Hheap.
    split; [exact Hreq |].
    destruct Hres as [[_ ->] | [Hraise _]]; [| discriminate Hraise].
    left. split; reflexivity.
  - split; [exact Hreq |].
    destruct Hres as [[Hok _] | [Hraise Hnb]]; [discriminate Hok |].
    right. injection Hraise as ->. split; [reflexivity | exact Hnb].
Qed.

Lemma summary_is_empty_decide (w : World) :
  summary_is_empty w
  \/ (status_code (markets_endpoint w 0 (markets_request w 5)) = 200
      /\ exists c cs,
           json (markets_endpoint w 0 (markets_request w 5)) = c :: cs).
Proof.
  unfold summary_is_empty. cbv zeta.
  destruct (Z.eq_dec (status_code (markets_endpoint w 0 (markets_request w 5)))
              200) as [Hst | Hst]; [| left; left; exact Hst].
  destruct (json (markets_endpoint w 0 (markets_request w 5))) as [| c cs].
  - left. right. reflexivity.
  - right. split; [exact Hst |]. exists c, cs. reflexivity.
Qed.

Lemma chosen_days_is_an_option (w : World) : In (chosen_days w) day_options.
Proof.
  unfold chosen_days. destruct (days_selection w) as [k |]; [| cbn; auto 10].
  do 7 (destruct k as [| k]; [cbn; auto 10 |]).
  cbn. destruct k; cbn; auto 10.
Qed.

Lemma sample_candles_in_bounds (status : Z) (coins : list Coin.t)
  (picked : option (list string)) :
  candles_in_bounds (sample_world status coins candles_newest_first picked).
Proof. intros n req. repeat constructor. Qed.

(** X9. A render asks the service for the markets listing once, first, and
    then only for OHLC data: one call per selected coin, in the order of the
    selection, each for the chosen day range, which is one of the seven
    options.  The calls stop early only if the page stops; a render that
    returns has made one call for every selected coin. *)
Theorem render_requests (w : World) :
  exists k,
    (k <= length (selection_of w))%nat
    /\ requests (snd (run (render w) initial))
       = markets_request w 5
         :: map (fun c => ohlc_request w c (chosen_days w))
              (take k (selection_of w))
    /\ (fst (run (render w) initial) = Ok 1%nat -> k = length (selection_of w))
    /\ In (chosen_days w) day_options.
Proof.
  destruct (summary_is_empty_decide w) as [He | (Hst & c & cs & Hjs)].
  - destruct (render_on_empty_summary w He) as [Hres Hreq].
    exists 0%nat. rewrite Hreq, Hres.
    split; [lia |]. split; [reflexivity |].
    split; [discriminate | apply chosen_days_is_an_option].
  - destruct (render_on_summary w c cs Hst Hjs) as (k & Hk & Hreq & Hres).
    assert (Hsel : selection_of w = chosen w c).
    { unfold selection_of. cbv zeta. rewrite Hst, Hjs. reflexivity. }
    rewrite Hsel. exists k. split; [exact Hk |]. split; [exact Hreq |].
    split; [| apply chosen_days_is_an_option].
    destruct Hres as [[_ ->] | [Hraise _]]; [reflexivity |].
    rewrite Hraise. discriminate.
Qed.

Lemma render_requests_witness :
  let w := world_partial ["bitcoin"; "tether"] in
  fst (run (render w) initial) = Ok 1%nat
  /\ exists k,
       (k <= 2)%nat
       /\ requests (snd (run (render w) initial))
          = markets_request w 5
            :: map (fun c => ohlc_request w c 7) (take k ["bitcoin"; "tether"])
       /\ (fst (run (render w) initial) = Ok 1%nat -> k = 2%nat)
       /\ In 7 day_options.
Proof.
  cbv zeta. split; [vm_compute; reflexivity |].
  exact (render_requests (world_partial ["bitcoin"; "tether"])).
Defined.

(** X10. The answers decide how a render ends.  With an empty summary it
    raises [KeyError] on ["id"]; with a summary, and candle timestamps that
    pandas can represent, it returns.  A render that returns had a summary,
    and its result is the address of the sorted table; a render that raises
    [OutOfBoundsDatetime] had a summary and an answer with a timestamp out
    of bounds. *)
Theorem render_outcomes (w : World) :
  (summary_is_empty w ->
   fst (run (render w) initial) = Raise (KeyError "id"))
  /\ (~ summary_is_empty w -> candles_in_bounds w ->
      fst (run (render w) initial) = Ok 1%nat)
  /\ (forall df_top5,
        fst (run (render w) initial) = Ok df_top5 ->
        df_top5 = 1%nat /\ ~ summary_is_empty w)
  /\ (fst (run (render w) initial) = Raise OutOfBoundsDatetime ->
      ~ summary_is_empty w /\ ~ candles_in_bounds w).
Proof.
  destruct (summary_is_empty_decide w) as [He | (Hst & c & cs & Hjs)].
  - destruct (render_on_empty_summary w He) as [Hres _]. rewrite Hres.
    split; [intros _; reflexivity |]. split; [intros Hn; contradiction |].
    split; [intros df_top5 H; discriminate H | intros H; discriminate H].
  - assert (Hn : ~ summary_is_empty w).
    { unfold summary_is_empty. cbv zeta. rewrite Hjs.
      intros [H | H]; [contradiction | discriminate]. }
    destruct (render_on_summary w c cs Hst Hjs) as (k & _ & _ & Hres).
    split; [intros He; contradiction |].
    destruct Hres as [[Hok _] | [Hraise Hnb]].
    + rewrite Hok. split; [intros _ _; reflexivity |].
      split; [| intros H; discriminate H].
      intros df_top5 H. injection H as <-. split; [reflexivity | exact Hn].
    + rewrite Hraise. split; [intros _ Hb; contradiction |].
      split; [intros df_top5 H; discriminate H |].
      intros _. split; assumption.
Qed.

Lemma render_outcomes_witness :
  fst (run (render world_down) initial) = Raise (KeyError "id")
  /\ fst (run (render (sample_world 200 five_coins candles_newest_first None))
            initial)
     = Ok 1%nat
  /\ ~ candles_in_bounds world_overflow.
Proof.
  destruct (render_outcomes world_down) as (Hempty & _ & _ & _).
  destruct (render_outcomes
              (sample_world 200 five_coins candles_newest_first None))
    as (_ & Hfull & _ & _).
  destruct (render_outcomes world_overflow) as (_ & _ & _ & Hbad).
  split; [| split].
  - apply Hempty. left. vm_compute. discriminate.
  - apply Hfull; [| apply sample_candles_in_bounds].
    intros [H | H]; vm_compute in H; [apply H; reflexivity | discriminate H].
  - apply Hbad. vm_compute. reflexivity.
Defined.

(** ** The bubble chart *)

Lemma bubbles_filter (lcs : list (Z * Coin.t)) (coin_choice : list string) :
  bubbles lcs coin_choice = List.filter (picked_by coin_choice) lcs.
Proof.
  unfold bubbles, Pandas.isin. rewrite map_map.
  induction lcs as [| p lcs IH]; [reflexivity |].
  cbn [map Pandas.select List.filter Pandas.cell_in].
  unfold picked_by at 1.
  destruct (existsb (String.eqb (Coin.id (snd p))) coin_choice);
    rewrite <- IH; reflexivity.
Qed.

Lemma mapM_Ok_Forall2 {A B} (f : A -> result B) (l : list A) (ys : list B) :
  mapM f l = Ok ys -> Forall2 (fun x y => f x = Ok y) l ys.
Proof.
  revert ys. induction l as [| x l IH]; intros ys H.
  - cbn in H. injection H as <-. constructor.
  - cbn [mapM] in H. destruct (f x) as [y | e] eqn:Hx; [| discriminate H].
    change (mbind ?k (Ok ?a)) with (k a) in H. cbv beta in H.
    destruct (mapM f l) as [ys' | e] eqn:Hl; [| discriminate H].
    injection H as <-. constructor; [exact Hx | apply IH; reflexivity].
Qed.

Lemma colors_fold_values (l : list string) (start : nat)
  (d : gmap string string) (c v : string) :
  fold_left
    (fun (d : gmap string string) (p : nat * string) =>
       <[snd p := nth (fst p mod length custom_colors) custom_colors ""]> d)
    (enumerate_from start l) d !! c = Some v ->
  d !! c = Some v \/ In v custom_colors.
Proof.
  revert start d. induction l as [| x l IH]; intros start d H.
  - left. exact H.
  - cbn [enumerate_from fold_left] in H.
    destruct (IH _ _ H) as [Hd | Hin]; [| right; exact Hin].
    cbn [fst snd] in Hd.
    assert (Hcol : In (nth (start mod length custom_colors) custom_colors "")
                     custom_colors)
      by (apply nth_In, Nat.mod_upper_bound; discriminate).
    revert Hd Hcol.
    generalize (nth (start mod length custom_colors) custom_colors "").
    intros col Hd Hcol. rewrite lookup_insert in Hd.
    case_decide; [| left; exact Hd].
    right. congruence.
Qed.

Lemma marker_colors_from_palette (ids : list string) (cs : list string) :
  mapM (dict_getitem (colors ids)) ids = Ok cs ->
  length cs = length ids /\ Forall (fun c => In c custom_colors) cs.
Proof.
  intros H. apply mapM_Ok_Forall2 in H. split.
  - symmetry. apply (Forall2_length _ _ _ H).
  - induction H as [| x y l ys Hxy _ IH]; constructor; [| exact IH].
    unfold dict_getitem in Hxy.
    destruct (colors ids !! x) as [v |] eqn:Hv; [| discriminate Hxy].
    injection Hxy as <-. unfold colors, enumerate in Hv.
    destruct (colors_fold_values _ _ _ _ _ Hv) as [He | Hin]; [| exact Hin].
    rewrite lookup_empty in He. discriminate He.
Qed.

(** X11. The bubble tab keeps the coins of the summary whose id occurs in
    the selection, in the order of the summary: the order of the selection,
    repeated ids and ids that the summary does not list make no difference.
    When some coin is kept it draws one scatter chart with one marker per
    kept coin: market cap against price, the upper-case symbol as text, the
    volume as size with reference [2 * max volume / 100^2], a palette color
    and the hover text of the coin. *)
Theorem tab2_bubble_chart (r : nat) (lcs : list (Z * Coin.t))
  (coin_choice : list string) (s : State) :
  let kept := List.filter (picked_by coin_choice) lcs in
  nth r (heap s) Pandas.empty_frame = coin_table lcs ->
  kept <> [] ->
  exists (biggest : float) (marker_color : list string),
    run (tab2 r coin_choice) s
    = (Ok tt,
       shows s
         [(Tab2, subheader "Market Cap and Current Price Comparison (Bubble Size = Trading Volume)");
          (Tab2, caption "For better comparison, select multiple coins from the filter.");
          (Tab2, plotly_chart
             (Scatter
                (map (fun p => CFloat (Coin.market_cap (snd p))) kept)
                (map (fun p => CFloat (Coin.current_price (snd p))) kept)
                (map (fun p => Str.upper (Coin.symbol (snd p))) kept)
                (map (fun p => CFloat (Coin.total_volume (snd p))) kept)
                (2 * biggest / 10000)%float
                marker_color
                (map (fun p => hover_of (snd p)) kept)
                [("title", "Market Cap vs Current Price (Bubble Size = Trading Volume)");
                 ("xaxis.title", "Market Cap (USD)");
                 ("yaxis.title", "Current Price (USD)")]))])
    /\ Series.max (map (fun p => Coin.total_volume (snd p)) kept) = Ok biggest
    /\ length marker_color = length kept
    /\ Forall (fun c => In c custom_colors) marker_color.
Proof.
  intros kept Hr Hkept. unfold tab2.
  rewrite run_bind, run_draw_shows, run_bind, run_load. cbn [shows heap].
  rewrite Hr, run_bind, (getitem_coin_table lcs "id" 0 eq_refl), run_lift.
  cbn [nth Coin.cells]. rewrite mask_coin_table. cbv zeta.
  rewrite run_bind, run_draw_shows, shows_shows.
  rewrite bubbles_filter. fold kept.
  destruct kept as [| p sub] eqn:Hsub; [contradiction |].
  change (negb (Pandas.empty (coin_table (p :: sub)))) with true. cbv iota.
  rewrite !(getitem_coin_table (p :: sub) "id" 0 eq_refl).
  rewrite (getitem_coin_table (p :: sub) "market_cap" 4 eq_refl).
  rewrite (getitem_coin_table (p :: sub) "current_price" 3 eq_refl).
  rewrite (getitem_coin_table (p :: sub) "symbol" 2 eq_refl).
  rewrite !(getitem_coin_table (p :: sub) "total_volume" 5 eq_refl).
  cbn [nth Coin.cells].
  change (mbind ?k (Ok ?a)) with (k a). cbv beta.
  rewrite (mapM_map_Ok Pandas.as_str _ (fun q => Coin.id (snd q)))
    by (apply Forall_forall; reflexivity).
  rewrite (mapM_map_Ok (fun c => Str.upper <$> Pandas.as_str c) _
             (fun q => Str.upper (Coin.symbol (snd q))))
    by (apply Forall_forall; reflexivity).
  rewrite (mapM_map_Ok Pandas.as_float _
             (fun q => Coin.total_volume (snd q)))
    by (apply Forall_forall; reflexivity).
  change (mbind ?k (Ok ?a)) with (k a). cbv beta.
  cbn [coin_table columns rows].
  rewrite (mapM_map_Ok (hover_text Coin.fields) coin_row
             (fun q => hover_of (snd q)))
    by (apply Forall_forall; reflexivity).
  destruct (series_max_total (Coin.total_volume (snd p))
              (map (fun q => Coin.total_volume (snd q)) sub)) as [m Hm].
  destruct (colors_total (map (fun q => Coin.id (snd q)) (p :: sub)))
    as [cs Hcs].
  repeat (rewrite run_bind, run_lift).
  change (map (fun q => Coin.total_volume (snd q)) (p :: sub))
    with (Coin.total_volume (snd p)
          :: map (fun q => Coin.total_volume (snd q)) sub).
  rewrite Hm, run_bind, run_lift, Hcs, run_draw_shows, shows_shows.
  exists m, cs. split; [reflexivity |]. split; [reflexivity |].
  destruct (marker_colors_from_palette _ _ Hcs) as [Hlen Hpal].
  split; [| exact Hpal]. rewrite Hlen, length_map. reflexivity.
Qed.

Lemma tab2_bubble_chart_witness :
  exists (biggest : float) (marker_color : list string),
    run (tab2 0 ["solana"; "nosuchcoin"; "bitcoin"; "solana"])
      five_coin_table_state
    = (Ok tt,
       shows five_coin_table_state
         [(Tab2, subheader "Market Cap and Current Price Comparison (Bubble Size = Trading Volume)");
          (Tab2, caption "For better comparison, select multiple coins from the filter.");
          (Tab2, plotly_chart
             (Scatter
                [CFloat 1300000000000; CFloat 70000000000]
                [CFloat 67000.5; CFloat 150]
                ["BTC"; "SOL"]
                [CFloat 100; CFloat 500]
                (2 * biggest / 10000)%float
                marker_color
                (map hover_of
                   [coin "bitcoin" "Bitcoin" "btc" 67000.5 1300000000000 100 1.5;
                    coin "solana" "Solana" "sol" 150 70000000000 500 3])
                [("title", "Market Cap vs Current Price (Bubble Size = Trading Volume)");
                 ("xaxis.title", "Market Cap (USD)");
                 ("yaxis.title", "Current Price (USD)")]))])
    /\ Series.max [100; 500]%float = Ok biggest
    /\ length marker_color = 2%nat
    /\ Forall (fun c => In c custom_colors) marker_color.
Proof.
  apply (tab2_bubble_chart 0 (labelled 0 five_coins)
           ["solana"; "nosuchcoin"; "bitcoin"; "solana"]
           five_coin_table_state);
    [reflexivity | discriminate].
Defined.

(** ** The bars of the volume tab *)

Lemma bar_color_selected (coin_choice : list string) (c : Coin.t) :
  (In (Coin.id c) coin_choice -> bar_color coin_choice c = "steelblue")
  /\ (~ In (Coin.id c) coin_choice -> bar_color coin_choice c = "lightgray").
Proof.
  unfold bar_color.
  destruct (existsb (String.eqb (Coin.id c)) coin_choice) eqn:He.
  - split; [reflexivity |]. intros Hn. exfalso. apply Hn.
    apply existsb_exists in He as (x & Hx & Heq).
    apply String.eqb_eq in Heq. rewrite Heq. exact Hx.
  - split; [| reflexivity]. intros Hin. exfalso.
    assert (Ht : existsb (String.eqb (Coin.id c)) coin_choice = true)
      by (apply existsb_exists; exists (Coin.id c);
          split; [exact Hin | apply String.eqb_refl]).
    congruence.
Qed.

Lemma highlight_is_bar_color (coin_choice : list string)
  (sl : list (Z * Coin.t)) (cols : list string) :
  Forall2
    (fun p col =>
       (In (Coin.id (snd p)) coin_choice -> col = "steelblue")
       /\ (~ In (Coin.id (snd p)) coin_choice -> col = "lightgray"))
    sl cols ->
  cols = map (fun p => bar_color coin_choice (snd p)) sl.
Proof.
  intros H. induction H as [| p col sl cols [Hin Hout] _ IH]; [reflexivity |].
  cbn [map]. rewrite <- IH. f_equal.
  destruct (bar_color_selected coin_choice (snd p)) as [Hin' Hout'].
  destruct (in_dec string_dec (Coin.id (snd p)) coin_choice) as [Hd | Hd].
  - rewrite (Hin Hd), (Hin' Hd). reflexivity.
  - rewrite (Hout Hd), (Hout' Hd). reflexivity.
Qed.

(** X12. On a non-empty summary the volume tab draws one bar chart with
    one bar per coin of the summary.  The selection decides the color of a
    bar and nothing else: a bar is steel blue when the id of its coin occurs
    in the selection and light gray when it does not, and the result, the
    tables, the requests and every other part of the chart are the same for
    every selection. *)
Theorem tab3_selection_only_colors (r : nat) (lcs : list (Z * Coin.t))
  (coin_choice : list string) (s : State) :
  let total := total_volume_of lcs in
  let sl := by_share total lcs in
  lcs <> [] ->
  nth r (heap s) Pandas.empty_frame = coin_table lcs ->
  exists marker_color,
    display (snd (run (tab3 r coin_choice) s))
    = display s
      ++ [(Tab3, subheader "Top Five Cryptocurrencies by Trading Volume Share");
          (Tab3, caption "The highlighted color in the bar chart indicates the coin(s) selected from the sidebar filter.");
          (Tab3, plotly_chart
             (Bar (map (fun p => CStr (Coin.name (snd p))) sl)
                  (map (fun p => CFloat (share total (snd p))) sl)
                  (map (fun p => (Float64.format_f false 2 (share total (snd p))
                                  ++ "%")%string) sl)
                  marker_color
                  [("title", "Trading Volume Share (Top Five Cryptocurrencies)");
                   ("xaxis_title", "Cryptocurrency");
                   ("yaxis_title", "Volume Share (%)")]))]
    /\ Forall2
         (fun p col =>
            (In (Coin.id (snd p)) coin_choice -> col = "steelblue")
            /\ (~ In (Coin.id (snd p)) coin_choice -> col = "lightgray"))
         sl marker_color
    /\ Permutation sl lcs
    /\ forall other : list string,
         fst (run (tab3 r other) s) = fst (run (tab3 r coin_choice) s)
         /\ heap (snd (run (tab3 r other) s))
            = heap (snd (run (tab3 r coin_choice) s))
         /\ requests (snd (run (tab3 r other) s)) = requests s.
Proof.
  intros total sl Hne Hr.
  exists (map (fun p => bar_color coin_choice (snd p)) sl).
  rewrite (tab3_run r lcs coin_choice s Hne Hr). cbn [fst snd display heap].
  split; [reflexivity |]. split; [| split].
  - clear. induction sl as [| p sl IH]; constructor; [| exact IH].
    apply bar_color_selected.
  - apply by_share_permutation.
  - intros other. rewrite (tab3_run r lcs other s Hne Hr).
    cbn [fst snd heap requests]. repeat split.
Qed.

Lemma tab3_selection_only_colors_witness :
  exists marker_color,
    display (snd (run (tab3 0 ["solana"; "bitcoin"]) five_coin_table_state))
    = [(Tab3, subheader "Top Five Cryptocurrencies by Trading Volume Share");
       (Tab3, caption "The highlighted color in the bar chart indicates the coin(s) selected from the sidebar filter.");
       (Tab3, plotly_chart
          (Bar (map CStr ["Solana"; "BNB"; "Tether"; "Ethereum"; "Bitcoin"])
               (map (fun p => CFloat (share 1500 (snd p)))
                  (by_share 1500 (labelled 0 five_coins)))
               ["33.33%"; "26.67%"; "20.00%"; "13.33%"; "6.67%"]
               marker_color
               [("title", "Trading Volume Share (Top Five Cryptocurrencies)");
                ("xaxis_title", "Cryptocurrency");
                ("yaxis_title", "Volume Share (%)")]))]
    /\ marker_color
       = ["steelblue"; "lightgray"; "lightgray"; "lightgray"; "steelblue"].
Proof.
  destruct (tab3_selection_only_colors 0 (labelled 0 five_coins)
              ["solana"; "bitcoin"] five_coin_table_state)
    as (cols & Hd & Hcols & _); [discriminate | reflexivity |].
  exists cols. split; [exact Hd |].
  rewrite (highlight_is_bar_color _ _ _ Hcols). reflexivity.
Defined.

(** ** A summary without volume *)

Lemma sum_of_zeros (l : list (Z * Coin.t)) :
  Forall (fun p => Coin.total_volume (snd p) = 0%float) l ->
  total_volume_of l = 0%float.
Proof.
  unfold total_volume_of, Series.sum. intros H.
  induction H as [| p l Hp _ IH]; [reflexivity |].
  cbn [map fold_left]. rewrite Hp. exact IH.
Qed.

Lemma share_of_zeros (l : list (Z * Coin.t)) :
  Forall (fun p => Coin.total_volume (snd p) = 0%float) l ->
  Forall (fun p => share 0 (snd p) = nan) l.
Proof.
  intros H. induction H as [| p l Hp _ IH]; constructor; [| exact IH].
  unfold share. rewrite Hp. reflexivity.
Qed.

Lemma by_share_of_zeros (l : list (Z * Coin.t)) :
  Forall (fun p => share 0 (snd p) = nan) l -> by_share 0 l = l.
Proof.
  intros H. unfold by_share.
  assert (Hno : List.filter
                  (fun p => negb (Float64.is_nan (share 0 (snd p)))) l = []).
  { induction H as [| p l Hp _ IH]; [reflexivity |].
    cbn [List.filter]. rewrite Hp. exact IH. }
  assert (Hall : List.filter
                   (fun p => Float64.is_nan (share 0 (snd p))) l = l).
  { clear Hno. induction H as [| p l Hp _ IH]; [reflexivity |].
    cbn [List.filter]. rewrite Hp. change (Float64.is_nan nan) with true.
    cbv iota. rewrite IH. reflexivity. }
  rewrite Hno, Hall. reflexivity.
Qed.

Lemma map_constant {A B} (f : A -> B) (b : B) (l : list A) :
  Forall (fun x => f x = b) l -> map f l = repeat b (length l).
Proof.
  intros H. induction H as [| x l Hx _ IH]; [reflexivity |].
  cbn. rewrite Hx, IH. reflexivity.
Qed.

(** X13. When no coin of a non-empty summary has any volume, the volume
    tab still returns and draws its chart: every share is NaN, every bar is
    labelled [nan%], and the bars stay in the order of the summary. *)
Theorem tab3_without_volume (r : nat) (lcs : list (Z * Coin.t))
  (coin_choice : list string) (s : State) :
  lcs <> [] ->
  nth r (heap s) Pandas.empty_frame = coin_table lcs ->
  Forall (fun p => Coin.total_volume (snd p) = 0%float) lcs ->
  fst (run (tab3 r coin_choice) s) = Ok (length (heap s))
  /\ display (snd (run (tab3 r coin_choice) s))
     = display s
       ++ [(Tab3, subheader "Top Five Cryptocurrencies by Trading Volume Share");
           (Tab3, caption "The highlighted color in the bar chart indicates the coin(s) selected from the sidebar filter.");
           (Tab3, plotly_chart
              (Bar (map (fun p => CStr (Coin.name (snd p))) lcs)
                   (repeat (CFloat nan) (length lcs))
                   (repeat "nan%" (length lcs))
                   (map (fun p => bar_color coin_choice (snd p)) lcs)
                   [("title", "Trading Volume Share (Top Five Cryptocurrencies)");
                    ("xaxis_title", "Cryptocurrency");
                    ("yaxis_title", "Volume Share (%)")]))]
  /\ Series.volume_share (map (fun p => Coin.total_volume (snd p)) lcs)
     = repeat nan (length lcs).
Proof.
  intros Hne Hr Hz.
  rewrite (tab3_run r lcs coin_choice s Hne Hr). cbn [fst snd display].
  pose proof (share_of_zeros lcs Hz) as Hnan.
  rewrite volume_share_coins, (sum_of_zeros lcs Hz).
  rewrite (by_share_of_zeros lcs Hnan).
  split; [reflexivity |]. split.
  - unfold tab3_heading, bar_chart. cbn [app].
    rewrite (map_constant (fun p => CFloat (share 0 (snd p))) (CFloat nan) lcs),
      (map_constant (fun p => bar_text 0 (snd p)) "nan%" lcs);
      [reflexivity | |];
      (eapply Forall_impl; [exact Hnan |]); cbv beta; intros p Hp;
      unfold bar_text; rewrite Hp; reflexivity.
  - apply map_constant. exact Hnan.
Qed.

Lemma tab3_without_volume_witness :
  fst (run (tab3 0 ["bitcoin"]) idle_state) = Ok 1%nat
  /\ display (snd (run (tab3 0 ["bitcoin"]) idle_state))
     = [(Tab3, subheader "Top Five Cryptocurrencies by Trading Volume Share");
        (Tab3, caption "The highlighted color in the bar chart indicates the coin(s) selected from the sidebar filter.");
        (Tab3, plotly_chart
           (Bar [CStr "Bitcoin"; CStr "Ethereum"]
                [CFloat nan; CFloat nan]
                ["nan%"; "nan%"]
                ["steelblue"; "lightgray"]
                [("title", "Trading Volume Share (Top Five Cryptocurrencies)");
                 ("xaxis_title", "Cryptocurrency");
                 ("yaxis_title", "Volume Share (%)")]))]
  /\ Series.volume_share [0; 0]%float = [nan; nan].
Proof.
  apply (tab3_without_volume 0 (labelled 0 idle_coins) ["bitcoin"] idle_state);
    [discriminate | reflexivity | repeat constructor].
Defined.

(** ** The page as a whole *)

(** X14. With a summary and candles that pandas can represent, a render
    draws the page top to bottom in one fixed order: page configuration and
    title; in the sidebar the overview with one metric per coin in the
    order of the listing, then the filter, which offers every listed id and
    opens on the first; the tab bar; the candlestick tab with its message
    or its charts; the bubble tab with its message when no listed coin is
    selected and one chart otherwise; and the volume tab with its bar
    chart. *)
Theorem render_page (w : World) (c : Coin.t) (cs : list Coin.t) :
  let response := markets_endpoint w 0 (markets_request w 5) in
  let lcs := labelled 0 (c :: cs) in
  let picked := chosen w c in
  let total := total_volume_of lcs in
  status_code response = 200 ->
  json response = c :: cs ->
  candles_in_bounds w ->
  exists bubble_widget,
    display (snd (run (render w) initial))
    = [(Page, set_page_config "Crypto Dashboard" "wide");
       (Page, title "Crypto Market Dashboard");
       (Sidebar, header "Top Five Cryptocurrencies Overview");
       (Sidebar, markdown "View the current price and 24-hour price change for the top five cryptocurrencies by market cap.")]
      ++ map (fun p => (Sidebar, metric_of (snd p))) lcs
      ++ [(Sidebar, markdown "---");
          (Sidebar, title "Coin Filters");
          (Sidebar, markdown "Select one or more coins to visualize their market trends, trading volume, etc.");
          (Sidebar, multiselect "Select Coin(s) to Display"
                      (map (fun p => CStr (Coin.id (snd p))) lcs)
                      (CStr (Coin.id c)));
          (Page, tabs ["Price Overview"; "Market Comparison";
                       "Volume Analysis"]);
          (Tab1, subheader "Price Movement (Candlestick Chart)")]
      ++ match picked with
         | [] =>
             [(Tab1, info "Please select at least one coin to see candlestick chart.")]
         | _ :: _ =>
             (Tab1, selectbox "Select number of days for OHLC data"
                      [1; 7; 14; 30; 90; 180; 365] 3)
             :: charts_from w (chosen_days w) 1 picked
         end
      ++ [(Tab2, subheader "Market Cap and Current Price Comparison (Bubble Size = Trading Volume)");
          (Tab2, caption "For better comparison, select multiple coins from the filter.");
          (Tab2, bubble_widget);
          (Tab3, subheader "Top Five Cryptocurrencies by Trading Volume Share");
          (Tab3, caption "The highlighted color in the bar chart indicates the coin(s) selected from the sidebar filter.");
          (Tab3, plotly_chart (bar_chart picked total (by_share total lcs)))]
    /\ (List.filter (picked_by picked) lcs = [] ->
        bubble_widget
        = info "Please select at least one coin to view bubble chart.")
    /\ (List.filter (picked_by picked) lcs <> [] ->
        exists fig, bubble_widget = plotly_chart fig).
Proof.
  intros response lcs picked total Hst Hjs Hb.
  unfold response in *. clear response.
  assert (Hl : listed w = lcs) by (unfold listed; rewrite Hjs; reflexivity).
  rewrite (render_reaches_tabs w c cs Hst Hjs), Hl. fold picked.
  assert (Htab1 :
    exists s1,
      run (tab1 w picked) (before_tabs w lcs c) = (Ok tt, s1)
      /\ heap s1 = [coin_table lcs]
      /\ display s1
         = display (before_tabs w lcs c)
           ++ (Tab1, subheader "Price Movement (Candlestick Chart)")
              :: match picked with
                 | [] =>
                     [(Tab1, info "Please select at least one coin to see candlestick chart.")]
                 | _ :: _ =>
                     (Tab1, selectbox "Select number of days for OHLC data"
                              day_options 3)
                     :: charts_from w (chosen_days w) 1 picked
                 end).
  { destruct picked as [| p ps] eqn:Hp.
    - rewrite tab1_unselected. eexists. split; [reflexivity |].
      split; reflexivity.
    - rewrite (tab1_selected_run w (p :: ps) _ Hb) by discriminate.
      eexists. split; [reflexivity |]. split; reflexivity. }
  destruct Htab1 as (s1 & -> & Hheap & Hd1).
  destruct (tab2_run 0 lcs picked s1) as (x & Hx & Hnone & Hsome);
    [rewrite Hheap; reflexivity |].
  rewrite Hx.
  rewrite (tab3_run 0 lcs picked)
    by (first [discriminate | cbn [shows heap]; rewrite Hheap; reflexivity]).
  exists x. cbn [snd display shows]. rewrite Hd1.
  rewrite <- bubbles_filter.
  split; [| split; [exact Hnone | exact Hsome]].
  unfold before_tabs, overview_widgets, filter_widgets, tab2_heading,
    tab3_heading. cbn [display].
  repeat (rewrite <- app_assoc; cbn [app]). reflexivity.
Qed.

Lemma render_page_witness :
  map fst
    (display
       (snd (run (render (sample_world 200 two_coins candles_newest_first
                            (Some ["ethereum"])))
               initial)))
  = [Page; Page; Sidebar; Sidebar; Sidebar; Sidebar; Sidebar; Sidebar;
     Sidebar; Sidebar; Page; Tab1; Tab1; Tab1; Tab1; Tab2; Tab2; Tab2; Tab3;
     Tab3; Tab3].
Proof.
  destruct (render_page
              (sample_world 200 two_coins candles_newest_first
                 (Some ["ethereum"]))
              (nth 0 two_coins (coin "" "" "" 0 0 0 0)) (tl two_coins))
    as (x & Hd & _);
    [reflexivity | reflexivity | apply sample_candles_in_bounds |].
  rewrite Hd. vm_compute. reflexivity.
Defined.

(** ** What each part of the page touches *)

Section Confinement.
Variable c : Container.
Variable d0 : list (Container * Widget).

Lemma drawn_in_start (s : State) : display s = d0 -> drawn_in c d0 s.
Proof. intros H. exists []. rewrite app_nil_r. split; [exact H | constructor]. Qed.

Lemma draw_drawn_in (x : Widget) : preserves (drawn_in c d0) (draw c x).
Proof.
  intros s (ws & Hd & Hws). exists (ws ++ [(c, x)]).
  cbn [run draw snd display]. rewrite Hd, <- app_assoc.
  split; [reflexivity |]. apply Forall_app. split; [exact Hws |].
  constructor; [reflexivity | constructor].
Qed.

Lemma requests_get_drawn_in {A} (serve : nat -> Request -> Response A)
  (req : Request) : preserves (drawn_in c d0) (requests_get serve req).
Proof. intros s Hs. exact Hs. Qed.

Lemma new_drawn_in (df : DataFrame) : preserves (drawn_in c d0) (new df).
Proof. intros s Hs. exact Hs. Qed.

Lemma store_drawn_in (r : nat) (df : DataFrame) :
  preserves (drawn_in c d0) (store r df).
Proof. intros s Hs. exact Hs. Qed.
End Confinement.

Ltac drawn_step :=
  lazymatch goal with
  | |- preserves _ (draw _ _) => apply draw_drawn_in
  | |- preserves _ (requests_get _ _) => apply requests_get_drawn_in
  | |- preserves _ (new _) => apply new_drawn_in
  | |- preserves _ (store _ _) => apply store_drawn_in
  end.

Ltac drawn := repeat first [preserve_step | drawn_step].

Section Silence.
Variable log0 : list Request.

Lemma draw_silent (c : Container) (x : Widget) :
  preserves (fun s => requests s = log0) (draw c x).
Proof. intros s Hs. exact Hs. Qed.

Lemma new_silent (df : DataFrame) :
  preserves (fun s => requests s = log0) (new df).
Proof. intros s Hs. exact Hs. Qed.

Lemma store_silent (r : nat) (df : DataFrame) :
  preserves (fun s => requests s = log0) (store r df).
Proof. intros s Hs. exact Hs. Qed.
End Silence.

Ltac silent_step :=
  lazymatch goal with
  | |- preserves _ (draw _ _) => apply draw_silent
  | |- preserves _ (new _) => apply new_silent
  | |- preserves _ (store _ _) => apply store_silent
  end.

Ltac silent := repeat first [preserve_step | silent_step].

Ltac keeps := repeat first [preserve_step | keeps_step].

Section Writes.
Variable r : nat.
Variable h0 : list DataFrame.

Lemma draw_writes_only (c : Container) (x : Widget) :
  preserves (writes_only r h0) (draw c x).
Proof. intros s Hs. exact Hs. Qed.

Lemma new_writes_only (df : DataFrame) : preserves (writes_only r h0) (new df).
Proof.
  intros s [Hlen Hsame]. split; cbn [run new snd heap].
  - rewrite length_app. lia.
  - intros a Ha Hlt. rewrite app_nth1 by lia. apply Hsame; assumption.
Qed.

Lemma store_writes_only (df : DataFrame) :
  preserves (writes_only r h0) (store r df).
Proof.
  intros s [Hlen Hsame]. split; cbn [run store snd heap].
  - rewrite length_insert. exact Hlen.
  - intros a Ha Hlt. rewrite <- (Hsame a Ha Hlt).
    rewrite !nth_lookup, list_lookup_insert_ne by congruence. reflexivity.
Qed.
End Writes.

Ltac writes_step :=
  lazymatch goal with
  | |- preserves _ (draw _ _) => apply draw_writes_only
  | |- preserves _ (new _) => apply new_writes_only
  | |- preserves _ (store _ _) => apply store_writes_only
  end.

Ltac writes := repeat first [preserve_step | writes_step].

Section OhlcOnly.
Variable w : World.
Variable log0 : list Request.

Lemma draw_asks_ohlc (c : Container) (x : Widget) :
  preserves (asks_ohlc w log0) (draw c x).
Proof. intros s Hs. exact Hs. Qed.

Lemma requests_get_asks_ohlc {A} (serve : nat -> Request -> Response A)
  (coin_id : string) (days : Z) :
  preserves (asks_ohlc w log0)
    (requests_get serve (ohlc_request w coin_id days)).
Proof.
  intros s (calls & Hreq & Hcalls).
  exists (calls ++ [ohlc_request w coin_id days]).
  cbn [run requests_get snd requests]. rewrite Hreq, <- app_assoc.
  split; [reflexivity |]. apply Forall_app. split; [exact Hcalls |].
  constructor; [exists coin_id, days; reflexivity | constructor].
Qed.
End OhlcOnly.

Ltac ohlc_step :=
  lazymatch goal with
  | |- preserves _ (draw _ _) => apply draw_asks_ohlc
  | |- preserves _ (requests_get _ _) => apply requests_get_asks_ohlc
  end.

Ltac ohlc_only := repeat first [preserve_step | ohlc_step].

(** Every invariant of this part holds at the start. *)
Lemma asks_ohlc_start (w : World) (s : State) : asks_ohlc w (requests s) s.
Proof. exists []. rewrite app_nil_r. split; [reflexivity | constructor]. Qed.

Lemma writes_only_start (r : nat) (s : State) : writes_only r (heap s) s.
Proof. split; [lia | reflexivity]. Qed.

Lemma sidebar_overview_confined (r : nat) (s : State) :
  requests (snd (run (sidebar_overview r) s)) = requests s
  /\ heap (snd (run (sidebar_overview r) s)) = heap s
  /\ drawn_in Sidebar (display s) (snd (run (sidebar_overview r) s)).
Proof.
  assert (Hr : preserves (fun s' => requests s' = requests s)
                 (sidebar_overview r))
    by (unfold sidebar_overview, sidebar_metric; silent).
  assert (Hh : preserves (fun s' => heap s' = heap s) (sidebar_overview r))
    by (unfold sidebar_overview, sidebar_metric; keeps).
  assert (Hd : preserves (drawn_in Sidebar (display s)) (sidebar_overview r))
    by (unfold sidebar_overview, sidebar_metric; drawn).
  split; [apply Hr; reflexivity |].
  split; [apply Hh; reflexivity | apply Hd, drawn_in_start; reflexivity].
Qed.

Lemma sidebar_filter_confined (w : World) (r : nat) (s : State) :
  requests (snd (run (sidebar_filter w r) s)) = requests s
  /\ heap (snd (run (sidebar_filter w r) s)) = heap s
  /\ drawn_in Sidebar (display s) (snd (run (sidebar_filter w r) s)).
Proof.
  assert (Hr : preserves (fun s' => requests s' = requests s)
                 (sidebar_filter w r))
    by (unfold sidebar_filter; silent).
  assert (Hh : preserves (fun s' => heap s' = heap s) (sidebar_filter w r))
    by (unfold sidebar_filter; keeps).
  assert (Hd : preserves (drawn_in Sidebar (display s)) (sidebar_filter w r))
    by (unfold sidebar_filter; drawn).
  split; [apply Hr; reflexivity |].
  split; [apply Hh; reflexivity | apply Hd, drawn_in_start; reflexivity].
Qed.

Lemma tab1_confined (w : World) (coin_choice : list string) (s : State) :
  asks_ohlc w (requests s) (snd (run (tab1 w coin_choice) s))
  /\ heap (snd (run (tab1 w coin_choice) s)) = heap s
  /\ drawn_in Tab1 (display s) (snd (run (tab1 w coin_choice) s)).
Proof.
  assert (Hr : preserves (asks_ohlc w (requests s)) (tab1 w coin_choice))
    by (unfold tab1, select_days, candlestick_chart, get_ohlc_data;
        ohlc_only).
  assert (Hd : preserves (drawn_in Tab1 (display s)) (tab1 w coin_choice))
    by (unfold tab1, select_days, candlestick_chart, get_ohlc_data; drawn).
  split; [apply Hr, asks_ohlc_start |].
  split; [apply tab1_keeps_heap | apply Hd, drawn_in_start; reflexivity].
Qed.

Lemma tab2_confined (r : nat) (coin_choice : list string) (s : State) :
  requests (snd (run (tab2 r coin_choice) s)) = requests s
  /\ heap (snd (run (tab2 r coin_choice) s)) = heap s
  /\ drawn_in Tab2 (display s) (snd (run (tab2 r coin_choice) s)).
Proof.
  assert (Hr : preserves (fun s' => requests s' = requests s)
                 (tab2 r coin_choice))
    by (unfold tab2; silent).
  assert (Hh : preserves (fun s' => heap s' = heap s) (tab2 r coin_choice))
    by (unfold tab2; keeps).
  assert (Hd : preserves (drawn_in Tab2 (display s)) (tab2 r coin_choice))
    by (unfold tab2; drawn).
  split; [apply Hr; reflexivity |].
  split; [apply Hh; reflexivity | apply Hd, drawn_in_start; reflexivity].
Qed.

Lemma tab3_confined (r : nat) (coin_choice : list string) (s : State) :
  requests (snd (run (tab3 r coin_choice) s)) = requests s
  /\ writes_only r (heap s) (snd (run (tab3 r coin_choice) s))
  /\ drawn_in Tab3 (display s) (snd (run (tab3 r coin_choice) s)).
Proof.
  assert (Hr : preserves (fun s' => requests s' = requests s)
                 (tab3 r coin_choice))
    by (unfold tab3; silent).
  assert (Hh : preserves (writes_only r (heap s)) (tab3 r coin_choice))
    by (unfold tab3; writes).
  assert (Hd : preserves (drawn_in Tab3 (display s)) (tab3 r coin_choice))
    by (unfold tab3; drawn).
  split; [apply Hr; reflexivity |].
  split; [apply Hh, writes_only_start | apply Hd, drawn_in_start; reflexivity].
Qed.

(** X15. Each part of the page keeps to itself, from any state, for any
    selection, and whether it returns or raises.  The sidebar and the bubble
    tab make no request, change no table and draw only in their own
    container.  The candlestick tab changes no table, draws only in its
    container and makes OHLC calls only.  The volume tab makes no request,
    draws only in its container, drops no table and changes no table but the
    summary it is given. *)
Theorem parts_keep_to_themselves (w : World) (r : nat)
  (coin_choice : list string) (s : State) :
  (let s' := snd (run (sidebar_overview r) s) in
   requests s' = requests s /\ heap s' = heap s
   /\ drawn_in Sidebar (display s) s')
  /\ (let s' := snd (run (sidebar_filter w r) s) in
      requests s' = requests s /\ heap s' = heap s
      /\ drawn_in Sidebar (display s) s')
  /\ (let s' := snd (run (tab1 w coin_choice) s) in
      asks_ohlc w (requests s) s' /\ heap s' = heap s
      /\ drawn_in Tab1 (display s) s')
  /\ (let s' := snd (run (tab2 r coin_choice) s) in
      requests s' = requests s /\ heap s' = heap s
      /\ drawn_in Tab2 (display s) s')
  /\ (let s' := snd (run (tab3 r coin_choice) s) in
      requests s' = requests s /\ writes_only r (heap s) s'
      /\ drawn_in Tab3 (display s) s').
Proof.
  cbv zeta.
  split; [apply sidebar_overview_confined |].
  split; [apply sidebar_filter_confined |].
  split; [apply tab1_confined |].
  split; [apply tab2_confined | apply tab3_confined].
Qed.

(** ** The requests that leave the page *)

Lemma prefix_append (s t : string) : String.prefix s (s ++ t)%string = true.
Proof.
  induction s as [| a s IH].
  - destruct t; reflexivity.
  - change (String a s ++ t)%string with (String a (s ++ t)%string).
    cbn [String.prefix]. destruct (ascii_dec a a); [exact IH | contradiction].
Qed.

Lemma markets_request_well_formed (w : World) (n : Z) :
  well_formed w (markets_request w n).
Proof.
  split; [reflexivity |]. split; [cbn; auto |].
  split; [| reflexivity].
  repeat (apply List.Forall_cons; [cbn; auto 10 |]). apply List.Forall_nil.
Qed.

Lemma ohlc_request_well_formed (w : World) (c : string) (days : Z) :
  well_formed w (ohlc_request w c days).
Proof.
  split; [reflexivity |]. split; [cbn; auto |].
  split; [| apply prefix_append].
  repeat (apply List.Forall_cons; [cbn; auto 10 |]). apply List.Forall_nil.
Qed.

Lemma market_chart_request_well_formed (w : World) (c : string) (days : Z) :
  well_formed w (market_chart_request w c days).
Proof.
  split; [reflexivity |]. split; [cbn; auto |].
  split; [| apply prefix_append].
  repeat (apply List.Forall_cons; [cbn; auto 10 |]). apply List.Forall_nil.
Qed.

Section WellFormed.
Variable w : World.

Lemma draw_well_formed (c : Container) (x : Widget) :
  preserves (fun s => Forall (well_formed w) (requests s)) (draw c x).
Proof. intros s Hs. exact Hs. Qed.

Lemma new_well_formed (df : DataFrame) :
  preserves (fun s => Forall (well_formed w) (requests s)) (new df).
Proof. intros s Hs. exact Hs. Qed.

Lemma store_well_formed (r : nat) (df : DataFrame) :
  preserves (fun s => Forall (well_formed w) (requests s)) (store r df).
Proof. intros s Hs. exact Hs. Qed.

Lemma requests_get_well_formed {A} (serve : nat -> Request -> Response A)
  (req : Request) :
  well_formed w req ->
  preserves (fun s => Forall (well_formed w) (requests s))
    (requests_get serve req).
Proof.
  intros Hreq s Hs. cbn [run requests_get snd requests].
  apply Forall_app. split; [exact Hs |]. constructor; [exact Hreq | constructor].
Qed.
End WellFormed.

Ltac well_formed_step :=
  lazymatch goal with
  | |- preserves _ (draw _ _) => apply draw_well_formed
  | |- preserves _ (new _) => apply new_well_formed
  | |- preserves _ (store _ _) => apply store_well_formed
  | |- preserves _ (requests_get _ (markets_request _ _)) =>
      apply requests_get_well_formed, markets_request_well_formed
  | |- preserves _ (requests_get _ (ohlc_request _ _ _)) =>
      apply requests_get_well_formed, ohlc_request_well_formed
  | |- preserves _ (requests_get _ (market_chart_request _ _ _)) =>
      apply requests_get_well_formed, market_chart_request_well_formed
  end.

Ltac all_well_formed := repeat first [preserve_step | well_formed_step].

(** X16. Every request that the page or one of the three wrappers sends
    carries the API key of the environment in the header
    [x-cg-demo-api-key], also when no key is set, and in no query
    parameter; it asks for prices in US dollars; and its address lies under
    the one base URL of the service.  This holds for the requests of a
    render that stops with an exception as well. *)
Theorem requests_are_well_formed (w : World) (coin_id : string) (n days : Z)
  (s : State) :
  Forall (well_formed w) (requests (snd (run (render w) initial)))
  /\ (Forall (well_formed w) (requests s) ->
      Forall (well_formed w) (requests (snd (run (get_top_coins w n) s)))
      /\ Forall (well_formed w)
           (requests (snd (run (get_ohlc_data w coin_id days) s)))
      /\ Forall (well_formed w)
           (requests (snd (run (get_market_chart w coin_id days) s)))).
Proof.
  split.
  - assert (H : preserves (fun s => Forall (well_formed w) (requests s))
                  (render w)).
    { unfold render, get_top_coins, sidebar_overview, sidebar_metric,
        sidebar_filter, tab1, select_days, candlestick_chart, get_ohlc_data,
        tab2, tab3.
      all_well_formed. }
    apply H. constructor.
  - intros Hs. split; [| split].
    + assert (H : preserves (fun s => Forall (well_formed w) (requests s))
                    (get_top_coins w n))
        by (unfold get_top_coins; all_well_formed).
      apply H, Hs.
    + assert (H : preserves (fun s => Forall (well_formed w) (requests s))
                    (get_ohlc_data w coin_id days))
        by (unfold get_ohlc_data; all_well_formed).
      apply H, Hs.
    + assert (H : preserves (fun s => Forall (well_formed w) (requests s))
                    (get_market_chart w coin_id days))
        by (unfold get_market_chart; all_well_formed).
      apply H, Hs.
Qed.

Lemma requests_are_well_formed_witness :
  Forall (well_formed world_down) (requests initial)
  /\ Forall (well_formed world_down)
       (requests (snd (run (get_market_chart world_down "bitcoin" 30) initial)))
  /\ headers (market_chart_request world_down "bitcoin" 30)
     = [("x-cg-demo-api-key", None)].
Proof.
  split; [constructor |]. split; [| reflexivity].
  apply (requests_are_well_formed world_down "bitcoin" 5 30 initial).
  constructor.
Defined.

(** ** Shares over the exact rationals: bounds and order *)

Lemma sum_Q_bounds (xs : list Q) (acc : Q) :
  Forall (fun x => 0 <= x)%Q xs ->
  (acc <= fold_left (fun a x => if isnan x then a else add a x) xs acc)%Q
  /\ Forall
       (fun x =>
          (acc + x
           <= fold_left (fun a x => if isnan x then a else add a x) xs acc)%Q)
       xs.
Proof.
  intros H. revert acc. induction H as [| x xs Hx _ IH]; intros acc.
  - split; [apply Qle_refl | constructor].
  - cbn [fold_left isnan add Q_arith].
    destruct (IH (acc + x)%Q) as [Hacc Hall]. split; [| constructor].
    + apply Qle_trans with (acc + x)%Q; [| exact Hacc].
      rewrite <- (Qplus_0_r acc) at 1. apply Qplus_le_compat;
        [apply Qle_refl | exact Hx].
    + exact Hacc.
    + eapply List.Forall_impl; [| exact Hall]. cbv beta. intros y Hy.
      apply Qle_trans with (acc + x + y)%Q; [| exact Hy].
      apply Qplus_le_compat; [| apply Qle_refl].
      rewrite <- (Qplus_0_r acc) at 1. apply Qplus_le_compat;
        [apply Qle_refl | exact Hx].
Qed.

Lemma share_Q_monotone (T x y : Q) :
  (0 < T)%Q -> (x <= y)%Q -> (x / T * 100 <= y / T * 100)%Q.
Proof.
  intros HT Hxy. apply Qmult_le_compat_r; [| discriminate].
  unfold Qdiv. apply Qmult_le_compat_r; [exact Hxy |].
  apply Qinv_le_0_compat, Qlt_le_weak, HT.
Qed.

(** X17. Over the exact rationals, when no volume is negative and the
    volumes do not all vanish, every volume share of line 204 lies between 0
    and 100, and the shares are ordered like the volumes: a coin with at
    most the volume of another has at most its share. *)
Theorem volume_shares_bounded_and_ordered (volume : list Q) :
  Forall (fun x => 0 <= x)%Q volume ->
  (0 < Series.sum volume)%Q ->
  Forall (fun p => 0 <= p /\ p <= 100)%Q (Series.volume_share volume)
  /\ length (Series.volume_share volume) = length volume
  /\ forall i j : nat,
       (nth i volume 0 <= nth j volume 0)%Q ->
       (nth i (Series.volume_share volume) (0 / Series.sum volume * 100)
        <= nth j (Series.volume_share volume) (0 / Series.sum volume * 100))%Q.
Proof.
  intros Hpos HT.
  unfold Series.volume_share, Series.mul_scalar, Series.div_scalar.
  rewrite map_map. cbn [mul div hundred Q_arith].
  split; [| split].
  - destruct (sum_Q_bounds volume 0 Hpos) as [_ Hle].
    fold (Series.sum volume) in Hle.
    apply List.Forall_map.
    apply List.Forall_forall. intros x Hx.
    pose proof (proj1 (List.Forall_forall _ _) Hpos x Hx) as H0.
    pose proof (proj1 (List.Forall_forall _ _) Hle x Hx) as H1.
    cbv beta in H0, H1. rewrite Qplus_0_l in H1. split.
    + apply (share_Q_monotone (Series.sum volume) 0 x HT) in H0.
      eapply Qle_trans; [| exact H0]. unfold Qdiv. rewrite Qmult_0_l.
      discriminate.
    + apply (share_Q_monotone (Series.sum volume) x _ HT) in H1.
      assert (E : (Series.sum volume / Series.sum volume * 100 == 100)%Q).
      { field. intros E. rewrite E in HT. discriminate HT. }
      rewrite E in H1. exact H1.
  - apply length_map.
  - intros i j Hij.
    rewrite !(map_nth (fun x => (x / Series.sum volume * 100)%Q) volume 0%Q).
    apply share_Q_monotone; assumption.
Qed.

Lemma volume_shares_bounded_and_ordered_witness :
  Forall (fun p => 0 <= p /\ p <= 100)%Q
    (Series.volume_share [100; 0; 300; 400; 200]%Q)
  /\ length (Series.volume_share [100; 0; 300; 400; 200]%Q) = 5%nat
  /\ forall i j : nat,
       (nth i [100; 0; 300; 400; 200] 0 <= nth j [100; 0; 300; 400; 200] 0)%Q ->
       (nth i (Series.volume_share [100; 0; 300; 400; 200]%Q)
          (0 / Series.sum [100; 0; 300; 400; 200]%Q * 100)
        <= nth j (Series.volume_share [100; 0; 300; 400; 200]%Q)
             (0 / Series.sum [100; 0; 300; 400; 200]%Q * 100))%Q.
Proof.
  apply (volume_shares_bounded_and_ordered [100; 0; 300; 400; 200]%Q).
  - repeat (apply List.Forall_cons; [discriminate |]). apply List.Forall_nil.
  - reflexivity.
Defined.

(** ** A candle that pandas cannot represent *)

Lemma charts_loop_stops (w : World) (days : Z) (before : list string)
  (p : string) (after : list string) (s : State) :
  (forall i c, before !! i = Some c ->
     Forall candle_in_bounds
       (candles_of w (length (requests s) + i) c days)) ->
  ~ Forall candle_in_bounds
      (candles_of w (length (requests s) + length before) p days) ->
  run (for_each (before ++ p :: after) (candlestick_chart w days)) s
  = (Raise OutOfBoundsDatetime,
     {| requests :=
          requests s ++ map (fun c => ohlc_request w c days) (before ++ [p]);
        display :=
          display s ++ charts_from w days (length (requests s)) before;
        heap := heap s |}).
Proof.
  revert s. induction before as [| c0 before IH]; intros s Hgood Hbad.
  - cbn [app for_each]. rewrite run_bind.
    rewrite Nat.add_0_r in Hbad.
    rewrite (candlestick_chart_raise w days p s Hbad).
    cbn [charts_from map app asked]. rewrite app_nil_r. reflexivity.
  - cbn [app for_each]. rewrite run_bind.
    rewrite candlestick_chart_run
      by (specialize (Hgood 0%nat c0 eq_refl);
          rewrite Nat.add_0_r in Hgood; exact Hgood).
    rewrite IH.
    + cbn [shows asked requests display heap map charts_from app].
      rewrite length_app, Nat.add_1_r, <- !app_assoc. reflexivity.
    + intros i c Hi. cbn [shows asked requests].
      rewrite length_app, Nat.add_1_r.
      specialize (Hgood (S i) c Hi).
      rewrite Nat.add_succ_r in Hgood. exact Hgood.
    + cbn [shows asked requests]. rewrite length_app, Nat.add_1_r.
      cbn [length] in Hbad. rewrite Nat.add_succ_r in Hbad. exact Hbad.
Qed.

Lemma charts_from_in_tab1 (w : World) (days : Z) (n : nat)
  (coin_choice : list string) :
  Forall (fun p => fst p = Tab1) (charts_from w days n coin_choice).
Proof.
  revert n. induction coin_choice as [| c r IH]; intros n; [constructor |].
  cbn [charts_from]. apply Forall_app. split; [| apply IH].
  destruct (candles_of w n c days); repeat constructor.
Qed.

Lemma before_tabs_containers (w : World) (lcs : list (Z * Coin.t))
  (first : Coin.t) :
  Forall (fun p => fst p = Page \/ fst p = Sidebar)
    (display (before_tabs w lcs first)).
Proof.
  unfold before_tabs, overview_widgets, filter_widgets. cbn [display].
  repeat first
    [ apply Forall_app; split
    | apply List.Forall_cons; [cbn; auto |]
    | apply List.Forall_nil ].
  apply List.Forall_map, List.Forall_forall. intros p _. right. reflexivity.
Qed.

(** X18. A candle whose timestamp pandas cannot represent stops the page.
    The render raises [OutOfBoundsDatetime] at the first selected coin with
    such a candle: the charts of the coins before it stay on display, its
    request is the last one made, nothing at all is drawn for it or for the
    coins after it, and the bubble tab and the volume tab stay empty; the
    summary table is left without its share column. *)
Theorem render_stops_at_bad_candle (w : World) (c : Coin.t)
  (cs : list Coin.t) (before : list string) (p : string)
  (after : list string) :
  let response := markets_endpoint w 0 (markets_request w 5) in
  let days := chosen_days w in
  status_code response = 200 ->
  json response = c :: cs ->
  chosen w c = before ++ p :: after ->
  (forall i c', before !! i = Some c' ->
     Forall candle_in_bounds (candles_of w (S i) c' days)) ->
  ~ Forall candle_in_bounds (candles_of w (S (length before)) p days) ->
  run (render w) initial
  = (Raise OutOfBoundsDatetime,
     {| requests :=
          markets_request w 5
          :: map (fun c' => ohlc_request w c' days) (before ++ [p]);
        display :=
          display (before_tabs w (labelled 0 (c :: cs)) c)
          ++ [(Tab1, subheader "Price Movement (Candlestick Chart)");
              (Tab1, selectbox "Select number of days for OHLC data"
                       [1; 7; 14; 30; 90; 180; 365] 3)]
          ++ charts_from w days 1 before;
        heap := [coin_table (labelled 0 (c :: cs))] |})
  /\ Forall (fun x => fst x = Page \/ fst x = Sidebar \/ fst x = Tab1)
       (display (snd (run (render w) initial))).
Proof.
  intros response days Hst Hjs Hsel Hgood Hbad.
  unfold response in *. clear response.
  assert (Hl : listed w = labelled 0 (c :: cs))
    by (unfold listed; rewrite Hjs; reflexivity).
  assert (Hrun :
    run (render w) initial
    = (Raise OutOfBoundsDatetime,
       {| requests :=
            markets_request w 5
            :: map (fun c' => ohlc_request w c' days) (before ++ [p]);
          display :=
            display (before_tabs w (labelled 0 (c :: cs)) c)
            ++ [(Tab1, subheader "Price Movement (Candlestick Chart)");
                (Tab1, selectbox "Select number of days for OHLC data"
                         day_options 3)]
            ++ charts_from w days 1 before;
          heap := [coin_table (labelled 0 (c :: cs))] |})).
  { rewrite (render_reaches_tabs w c cs Hst Hjs), Hl, Hsel. clear Hsel.
    unfold tab1. rewrite run_bind, run_draw.
    destruct (before ++ p :: after) as [| c0 rest] eqn:Hlist;
      [destruct before; discriminate Hlist |].
    rewrite <- Hlist. clear Hlist c0 rest.
    unfold select_days. rewrite !run_bind, run_draw, run_ret.
    fold (chosen_days w). fold days.
    rewrite (charts_loop_stops w days before p after); [| exact Hgood | exact Hbad].
    cbn [requests display heap before_tabs app length].
    rewrite <- !app_assoc. reflexivity. }
  split; [exact Hrun |].
  rewrite Hrun. cbn [snd display].
  apply Forall_app. split; [| apply Forall_app; split].
  - eapply List.Forall_impl; [| apply before_tabs_containers].
    cbv beta. intros x [H | H]; auto.
  - repeat (apply List.Forall_cons; [cbn; auto |]). apply List.Forall_nil.
  - eapply List.Forall_impl; [| apply charts_from_in_tab1].
    cbv beta. auto.
Qed.

Lemma render_stops_at_bad_candle_witness :
  fst (run (render world_overflow) initial) = Raise OutOfBoundsDatetime
  /\ requests (snd (run (render world_overflow) initial))
     = [markets_request world_overflow 5;
        ohlc_request world_overflow "bitcoin" 30]
  /\ Forall (fun x => fst x = Page \/ fst x = Sidebar \/ fst x = Tab1)
       (display (snd (run (render world_overflow) initial))).
Proof.
  destruct (render_stops_at_bad_candle world_overflow
              (nth 0 two_coins (coin "" "" "" 0 0 0 0)) (tl two_coins)
              [] "bitcoin" [])
    as [Hrun Hdisplay].
  - reflexivity.
  - reflexivity.
  - reflexivity.
  - intros i c' Hi. discriminate Hi.
  - intros H. inversion H as [| k ks Hk _]. vm_compute in Hk.
    discriminate Hk.
  - rewrite Hrun. split; [reflexivity |]. split; [reflexivity |].
    rewrite <- Hrun. exact Hdisplay.
Defined.
